(** * enershare-twinp2g-db: the DESFA and ENTSOG ingestion assets

    A shallow embedding of [src/diplwmatikh/assets/desfa.py] and
    [src/diplwmatikh/assets/entsog.py].  Data frames are lists of rows of
    cells, Python exceptions are the left summand of a result type, the
    logger is a list of records threaded through the asset, and the
    functions of pandas and of the helper modules that the assets call are
    the fields of an interface class. *)

From Stdlib Require Import List String Ascii ZArith QArith Bool Arith Lia.
From Stdlib Require Import DecimalString.
Import ListNotations.
Open Scope string_scope.

(** ** Python values and exceptions *)

Module Py.

(** The exceptions the assets can end with.  [FetchFailed] is the
    [Exception] that the spreadsheet assets raise themselves on a fetch
    status other than 200; the next three come from indexing, from
    [str + x] and from the conversions of pandas; [HelperError] is
    whatever a helper of [utils] lets through. *)
Inductive exn : Type :=
| FetchFailed (status_code : Z)
| IndexError
| TypeError
| ValueError
| HelperError.

Definition result (A : Type) : Type := (exn + A)%type.

Definition ret {A} (x : A) : result A := inr x.
Definition raise {A} (e : exn) : result A := inl e.
Definition bind {A B} (c : result A) (k : A -> result B) : result B :=
  match c with
  | inl e => inl e
  | inr x => k x
  end.

(** [mapM f l]: a list comprehension or an elementwise pandas call whose
    body can raise; the first exception ends it. *)
Fixpoint mapM {A B} (f : A -> result B) (l : list A) : result (list B) :=
  match l with
  | [] => ret []
  | x :: l' =>
      bind (f x) (fun y => bind (mapM f l') (fun ys => ret (y :: ys)))
  end.

(** [of_option e o]: a library call that either answers or raises [e]. *)
Definition of_option {A} (e : exn) (o : option A) : result A :=
  match o with
  | Some x => ret x
  | None => raise e
  end.

(** [s.endswith(suf)] *)
Definition endswith (s suf : string) : bool :=
  (String.length suf <=? String.length s)%nat
  && (substring (String.length s - String.length suf) (String.length suf) s
      =? suf).

(** [s[:-n]] for a positive [n]: everything but the last [n] characters,
    the empty string when [s] is shorter. *)
Definition drop_last (n : nat) (s : string) : string :=
  substring 0 (String.length s - n) s.

(** [pat in s] *)
Fixpoint contains (s pat : string) : bool :=
  prefix pat s
  || match s with
     | EmptyString => false
     | String _ s' => contains s' pat
     end.

(** [s.replace(c, '')] for a one-character [c] *)
Fixpoint remove_char (c : ascii) (s : string) : string :=
  match s with
  | EmptyString => EmptyString
  | String a s' =>
      if Ascii.eqb a c then remove_char c s' else String a (remove_char c s')
  end.

(** The last character, if any. *)
Fixpoint last_ascii (s : string) : option ascii :=
  match s with
  | EmptyString => None
  | String c EmptyString => Some c
  | String _ s' => last_ascii s'
  end.

(** [l[a:b]] with Python's reading of negative and out-of-range bounds. *)
Definition slice_bound (len i : Z) : nat :=
  Z.to_nat (Z.min len (Z.max 0 (if i <? 0 then len + i else i)%Z)).

Definition slice {A} (a b : Z) (l : list A) : list A :=
  let len := Z.of_nat (List.length l) in
  let lo := slice_bound len a in
  let hi := slice_bound len b in
  firstn (hi - lo) (skipn lo l).

End Py.

Notation "x <- c ;; k" := (Py.bind c (fun x => k))
  (at level 61, c at next level, right associativity).

(** ** Cells, frames and the long table *)

(** What [pd.read_excel] leaves in a cell: text, a number, or the missing
    value.  Numbers are carried as rationals (every finite float is one);
    nothing below computes with them. *)
Inductive cell : Type :=
| CStr (s : string)
| CNum (x : Q)
| CNaN.

Definition is_str (c : cell) : bool :=
  match c with CStr _ => true | _ => false end.

(** A pandas [Timestamp]; [None] is [NaT]. *)
Definition Timestamp : Type := option Z.

(** A data frame: column labels and rows of cells, the row labels being
    the default range index. *)
Record DataFrame : Type := mkDataFrame {
  columns : list cell;
  rows : list (list cell)
}.

(** Every row is as wide as the column labels. *)
Definition rectangular (df : DataFrame) : Prop :=
  Forall (fun r => List.length r = List.length (columns df)) (rows df).

(** The canonical output unit: the key (timestamp, point_id, point_type)
    and the single [value] column. *)
Record LongRecord : Type := mkLong {
  timestamp : Timestamp;
  point_id : string;
  point_type : string;
  value : cell
}.

Definition LongTable : Type := list LongRecord.

Definition key (r : LongRecord) : Timestamp * string * string :=
  (timestamp r, point_id r, point_type r).

(** dagster's [Output(value=...)] *)
Inductive Output (A : Type) : Type :=
| OutputValue (v : A).
Arguments OutputValue {A} v.

(** The HTTP response of [requests.get], its content already read as the
    first sheet. *)
Record Response : Type := mkResponse {
  status_code : Z;
  content : DataFrame
}.

(** ** The library interface *)

(** The functions of pandas and numpy that the assets call on cells; the
    development holds for any behaviour of them. *)
Class PandasLib : Type := {
  (** [str(x)] of a number, as [astype(str)] gives it *)
  str_of_num : Q -> string;
  (** [pd.to_datetime(_, format='%Y')] on one cell; [None] when it raises *)
  to_datetime : cell -> option Timestamp;
  (** [np.float64(s)] of a string; [None] when it raises *)
  astype_float64 : string -> option cell;
  (** [Series.to_string()] of a row, given the column labels *)
  series_to_string : list cell -> list cell -> string
}.

(** [astype(str)] on one cell *)
Definition astype_str `{PandasLib} (c : cell) : string :=
  match c with
  | CStr s => s
  | CNum x => str_of_num x
  | CNaN => "nan"
  end.

(** Modelled from the spec: [replace_dash_with_nan] of [utils/common.py],
    which is not among the sources.  The spec: a placeholder character
    (dash) in a cell means "no data" and must map to a missing-value
    marker, not to zero or a string. *)
Definition replace_dash_with_nan (c : cell) : cell :=
  match c with
  | CStr s => if s =? "-" then CNaN else c
  | _ => c
  end.

(** ** desfa.py: the wide-to-long reshaper *)

Module Desfa.
Import Py.

Section Reshaper.
Context `{PandasLib}.

Definition remove_nth {A} (i : nat) (l : list A) : list A :=
  (firstn i l ++ skipn (S i) l)%list.

(** [df.drop(df.columns[i], axis=1)]: [df.columns[i]] raises on a frame
    with too few columns; the labels of a sheet read by pandas are
    distinct, so dropping the label drops that one column. *)
Definition drop_column (i : nat) (df : DataFrame) : result DataFrame :=
  if (i <? List.length (columns df))%nat
  then ret (mkDataFrame (remove_nth i (columns df))
                        (map (remove_nth i) (rows df)))
  else raise IndexError.

(** [df.drop(df.index[0:n])] *)
Definition drop_first_rows (n : nat) (df : DataFrame) : DataFrame :=
  mkDataFrame (columns df) (skipn n (rows df)).

(** [df.iloc[:, :-1]] *)
Definition drop_last_column (df : DataFrame) : DataFrame :=
  mkDataFrame (removelast (columns df)) (map (@removelast cell) (rows df)).

(** [df.iloc[:-n, :]] *)
Definition drop_last_rows (n : nat) (df : DataFrame) : DataFrame :=
  mkDataFrame (columns df)
              (firstn (List.length (rows df) - n) (rows df)).

Definition aggregate_marker : string := "ΣΥΝΟΛΟ".

Definition is_aggregate (r : list cell) : bool :=
  contains (astype_str (nth 0 r CNaN)) aggregate_marker.

(** [df[~df.iloc[:, 0].astype(str).str.contains('ΣΥΝΟΛΟ')]] *)
Definition drop_aggregates (df : DataFrame) : DataFrame :=
  mkDataFrame (columns df) (filter (fun r => negb (is_aggregate r)) (rows df)).

(** [df.iloc[0, 1:].tolist()] *)
Definition first_row_tail (df : DataFrame) : result (list cell) :=
  match rows df with
  | [] => raise IndexError
  | r :: _ => ret (tl r)
  end.

(** [x + suffix]: only a string can be added to a string. *)
Definition add_suffix (suffix : string) (x : cell) : result string :=
  match x with
  | CStr s => ret (s ++ suffix)
  | _ => raise TypeError
  end.

(** [[x + "_entry" for x in h[:4]] + [x + "_exit" for x in h[4:]]] *)
Definition suffix_headers (h : list cell) : result (list string) :=
  a <- mapM (add_suffix "_entry") (firstn 4 h) ;;
  b <- mapM (add_suffix "_exit") (skipn 4 h) ;;
  ret (a ++ b)%list.

Definition remove_suffix (point : string) : string :=
  if endswith point "_entry" then drop_last 6 point else drop_last 5 point.

Definition label_point_as_entry_or_exit (point : string) : string :=
  if endswith point "_entry" then "entry" else "exit".

(** [df.columns = ['timestamp'] + new_headers]: pandas refuses a list of
    another length than the frame's width. *)
Definition set_columns (labels : list string) (df : DataFrame)
  : result DataFrame :=
  if (List.length labels =? List.length (columns df))%nat
  then ret (mkDataFrame (map CStr labels) (rows df))
  else raise ValueError.

(** [df = df.drop(df.index[0])] and the reset of the row labels *)
Definition drop_header_row (df : DataFrame) : DataFrame :=
  mkDataFrame (columns df) (tl (rows df)).

(** [df['timestamp'] = pd.to_datetime(df['timestamp'], format='%Y')]: the
    leading cell of every row parsed, the rest of the row kept. *)
Definition parse_timestamps (df : DataFrame)
  : result (list (Timestamp * list cell)) :=
  mapM (fun r =>
          t <- of_option ValueError (to_datetime (nth 0 r CNaN)) ;;
          ret (t, tl r))
       (rows df).

(** [pd.melt(df, id_vars=['timestamp'], var_name='point_id',
    value_name='value')]: column after column, and within a column row
    after row. *)
Definition melt (names : list string) (trows : list (Timestamp * list cell))
  : list (Timestamp * string * cell) :=
  flat_map
    (fun jn : nat * string =>
       map (fun tr : Timestamp * list cell =>
              (fst tr, snd jn, nth (fst jn) (snd tr) CNaN))
           trows)
    (combine (seq 0 (List.length names)) names).

(** The index levels as the source builds them: [point_type] read off the
    suffixed label, then the suffix taken off [point_id]. *)
Definition label_and_strip (m : Timestamp * string * cell) : LongRecord :=
  let '(t, p, v) := m in
  mkLong t (remove_suffix p) (label_point_as_entry_or_exit p) v.

(** Lines 60 to 102 of [desfa_flows_daily], repeated as lines 252 to 296
    of [desfa_ng_gcv_daily]. *)
Definition wide_to_long (df : DataFrame) : result LongTable :=
  h <- first_row_tail df ;;
  new_headers <- suffix_headers h ;;
  df1 <- set_columns ("timestamp" :: new_headers) df ;;
  trows <- parse_timestamps (drop_header_row df1) ;;
  ret (map label_and_strip (melt new_headers trows)).

(** The sheet reduced to its header row and data rows. *)
Definition flows_strip (df : DataFrame) : result DataFrame :=
  df1 <- drop_column 5 df ;;
  ret (drop_aggregates (drop_first_rows 3 df1)).

Definition gcv_strip (df : DataFrame) : result DataFrame :=
  df1 <- drop_column 5 df ;;
  ret (drop_last_rows 4 (drop_last_column (drop_first_rows 3 df1))).

Definition desfa_flows_daily (response : Response)
  : result (Output LongTable) :=
  if (status_code response =? 200)%Z then
    df <- flows_strip (content response) ;;
    df_long <- wide_to_long df ;;
    ret (OutputValue df_long)
  else raise (FetchFailed (status_code response)).

(** [df_long.map(replace_dash_with_nan)], the key being the index by
    then, reaches the [value] column only. *)
Definition map_values (f : cell -> cell) (t : LongTable) : LongTable :=
  map (fun r => mkLong (timestamp r) (point_id r) (point_type r) (f (value r)))
      t.

Definition desfa_ng_gcv_daily (response : Response)
  : result (Output LongTable) :=
  if (status_code response =? 200)%Z then
    df <- gcv_strip (content response) ;;
    df_long <- wide_to_long df ;;
    ret (OutputValue (map_values replace_dash_with_nan df_long))
  else raise (FetchFailed (status_code response)).

End Reshaper.
End Desfa.

(** ** What the reshaper is to compute, in the words of the specification *)

Module DesfaSpec.

Section Sheet.
Context `{PandasLib}.

(** The cells of a sheet row under the point columns: sheet columns 1 to
    4, and 6 onwards (column 0 is the period, column 5 is empty). *)
Definition flows_point_cells (r : list cell) : list cell :=
  (firstn 4 (tl r) ++ skipn 6 r)%list.

(** The GCV sheet ends with one more column that is no point. *)
Definition gcv_point_cells (r : list cell) : list cell :=
  removelast (flows_point_cells r).

(** The rows of the sheet from the header row on: the three rows of
    titles are gone, and so are the rows of totals (flows) or the four
    closing rows (GCV). *)
Definition flows_body (df : DataFrame) : list (list cell) :=
  filter (fun r => negb (Desfa.is_aggregate r)) (skipn 3 (rows df)).

Definition gcv_body (df : DataFrame) : list (list cell) :=
  firstn (List.length (skipn 3 (rows df)) - 4) (skipn 3 (rows df)).

(** A point column is labelled by its position alone. *)
Definition position_type (j : nat) : string :=
  if (j <? 4)%nat then "entry" else "exit".

(** [k] is in the cross product of the retained data rows and the
    declared point columns of a sheet [body] whose point cells are read
    by [cells]. *)
Definition in_cross_product (cells : list cell -> list cell)
    (body : list (list cell)) (k : Timestamp * string * string) : Prop :=
  exists (r : list cell) (j : nat) (h : string) (t : Timestamp),
    In r (tl body)
    /\ nth_error (cells (hd [] body)) j = Some (CStr h)
    /\ to_datetime (nth 0 r CNaN) = Some t
    /\ k = (t, h, position_type j).

(** A sheet the reshaper can read: a header row of text labels and data
    rows whose period parses. *)
Definition readable (cells : list cell -> list cell)
    (body : list (list cell)) : Prop :=
  body <> []
  /\ Forall (fun c => is_str c = true) (cells (hd [] body))
  /\ Forall (fun r => to_datetime (nth 0 r CNaN) <> None) (tl body).

(** The tag the source puts on the label of point column [j]. *)
Definition position_suffix (j : nat) : string :=
  if (j <? 4)%nat then "_entry" else "_exit".

(** A row of the GCV sheet as [gcv_strip] leaves it. *)
Definition gcv_row (r : list cell) : list cell :=
  removelast (Desfa.remove_nth 5 r).

End Sheet.
End DesfaSpec.


(** ** A reading of the library interface, for the examples

    Numbers print and parse as plain decimals, a year becomes the first
    instant of that year in nanoseconds since 1970, and a row prints as
    its cells, one per line. *)

Module Sample.

Definition newline : string := String (ascii_of_nat 10) EmptyString.

Definition str_of_Z (z : Z) : string :=
  DecimalString.NilZero.string_of_int (Z.to_int z).

Definition Z_of_str (s : string) : option Z :=
  option_map Z.of_int (DecimalString.NilZero.int_of_string s).

Definition str_of_num (x : Q) : string :=
  if (Qden x =? 1)%positive then str_of_Z (Qnum x)
  else str_of_Z (Qnum x) ++ "/" ++ str_of_Z (Zpos (Qden x)).

(** The text before the first [c], and the text after it if [c] occurs. *)
Fixpoint split_at (c : ascii) (s : string) : string * option string :=
  match s with
  | EmptyString => (EmptyString, None)
  | String a s' =>
      if Ascii.eqb a c then (EmptyString, Some s')
      else let (l, r) := split_at c s' in (String a l, r)
  end.

Definition parse_decimal (s : string) : option Q :=
  let (whole, frac) := split_at "." s in
  match Z_of_str whole, frac with
  | Some w, None => Some (w # 1)
  | Some w, Some f =>
      match DecimalString.NilEmpty.uint_of_string f with
      | Some u =>
          let scale := (10 ^ Z.of_nat (String.length f))%Z in
          let digits := Z.of_uint u in
          Some ((if w <? 0 then w * scale - digits else w * scale + digits)%Z
                # Z.to_pos scale)
      | None => None
      end
  | None, _ => None
  end.

Definition astype_float64 (s : string) : option cell :=
  if s =? "nan" then Some CNaN else option_map CNum (parse_decimal s).

Definition day_ns : Z := 86400 * 10 ^ 9.

(** Midnight of the first of January of year [y], in nanoseconds since
    the first of January 1970. *)
Definition year_start (y : Z) : Z :=
  (365 * (y - 1970) + (y - 1969) / 4 - (y - 1901) / 100 + (y - 1601) / 400)
  * day_ns.

Definition to_datetime (c : cell) : option Timestamp :=
  match c with
  | CNaN => Some None
  | CNum x => if (Qden x =? 1)%positive then Some (Some (year_start (Qnum x)))
              else None
  | CStr s => option_map (fun y => Some (year_start y)) (Z_of_str s)
  end.

Definition cell_str (c : cell) : string :=
  match c with
  | CStr s => s
  | CNum x => str_of_num x
  | CNaN => "NaN"
  end.

Definition series_to_string (labels row : list cell) : string :=
  String.concat newline (map cell_str row).

Definition pandas : PandasLib :=
  Build_PandasLib str_of_num to_datetime astype_float64 series_to_string.

(** A sheet laid out as Flows.xlsx: three rows of titles, the header row,
    then one row per period and a row of totals. *)
Definition flows_sheet : DataFrame :=
  mkDataFrame
    [CStr "Unnamed: 0"; CStr "Unnamed: 1"; CStr "Unnamed: 2";
     CStr "Unnamed: 3"; CStr "Unnamed: 4"; CStr "Unnamed: 5";
     CStr "Unnamed: 6"]
    [[CStr "DESFA"; CNaN; CNaN; CNaN; CNaN; CNaN; CNaN];
     [CNaN; CNaN; CNaN; CNaN; CNaN; CNaN; CNaN];
     [CNaN; CStr "ENTRY"; CNaN; CNaN; CNaN; CNaN; CStr "EXIT"];
     [CStr "ΗΜΕΡΑ"; CStr "SIDIROKASTRO"; CStr "KIPI"; CStr "AGIA TRIADA";
      CStr "NEA MESIMVRIA"; CNaN; CStr "SIDIROKASTRO"];
     [CNum (2008 # 1); CNum (10 # 1); CNum (20 # 1); CNum (30 # 1);
      CStr "-"; CNaN; CNum (5 # 1)];
     [CStr "ΣΥΝΟΛΟ 2008"; CNum (10 # 1); CNum (20 # 1); CNum (30 # 1);
      CNum (0 # 1); CNaN; CNum (5 # 1)];
     [CNum (2009 # 1); CNum (11 # 1); CNum (21 # 1); CNum (31 # 1);
      CNum (41 # 1); CNaN; CNum (6 # 1)]].

(** A sheet laid out as GCV.xlsx: one more closing column and four
    closing rows. *)
Definition gcv_sheet : DataFrame :=
  mkDataFrame
    [CStr "Unnamed: 0"; CStr "Unnamed: 1"; CStr "Unnamed: 2";
     CStr "Unnamed: 3"; CStr "Unnamed: 4"; CStr "Unnamed: 5";
     CStr "Unnamed: 6"; CStr "Unnamed: 7"]
    [[CStr "DESFA"; CNaN; CNaN; CNaN; CNaN; CNaN; CNaN; CNaN];
     [CNaN; CNaN; CNaN; CNaN; CNaN; CNaN; CNaN; CNaN];
     [CNaN; CStr "ENTRY"; CNaN; CNaN; CNaN; CNaN; CStr "EXIT"; CNaN];
     [CStr "ΗΜΕΡΑ"; CStr "SIDIROKASTRO"; CStr "KIPI"; CStr "AGIA TRIADA";
      CStr "NEA MESIMVRIA"; CNaN; CStr "ATHENS"; CStr "notes"];
     [CNum (2011 # 1); CNum (11 # 1); CStr "-"; CNum (12 # 1);
      CNum (13 # 1); CNaN; CStr "-"; CNaN];
     [CStr "a"; CNaN; CNaN; CNaN; CNaN; CNaN; CNaN; CNaN];
     [CStr "b"; CNaN; CNaN; CNaN; CNaN; CNaN; CNaN; CNaN];
     [CStr "c"; CNaN; CNaN; CNaN; CNaN; CNaN; CNaN; CNaN];
     [CStr "d"; CNaN; CNaN; CNaN; CNaN; CNaN; CNaN; CNaN]].

End Sample.

(** ** The logger *)

Inductive level : Type := Info | Warning.

(** What the assets hand to [context.log]; the text of a record that
    prints dates or a table is kept as its arguments. *)
Inductive message : Type :=
| Text (s : string)
| HandlingPartition (start end_ : Z)
| FetchedData (from_ to_ : Z)
| FoundDuplicates (duplicates : LongTable).

Definition log_record : Type := (level * message)%type.

Definition is_warning (r : log_record) : bool :=
  match fst r with Warning => true | Info => false end.

Definition warnings (log : list log_record) : list message :=
  map snd (filter is_warning log).

(** ** desfa.py: the entry-point quality table *)

Module Quality.
Import Py.

Definition entry_points : list string :=
  ["AGIA TRIADA"; "SIDIROKASTRO"; "KIPI"; "NEA MESIMVRIA"].

(** The fifteen columns of a block after its [timestamp]. *)
Definition value_columns : list string :=
  ["c1"; "c2"; "c3"; "i_c4"; "n_c4"; "i_c5"; "n_c5"; "neo_c5"; "c6_plus";
   "n2"; "co2"; "gross_heating_value"; "wobbe_index"; "water_dew_point";
   "hydrocarbon_dew_point_max"].

(** The place of [hydrocarbon_dew_point_max] among them. *)
Definition hydrocarbon : nat := 14.

(** A row of a block: the [timestamp] index, the inserted [point_id] and
    the fifteen value columns. *)
Record QualityRow : Type := mkQuality {
  q_timestamp : Timestamp;
  q_point_id : cell;
  q_values : list cell
}.

Definition Block : Type := list QualityRow.

(** [dataframes[k] = v] on a dict kept in insertion order *)
Fixpoint dict_set {V} (k : string) (v : V) (d : list (string * V))
  : list (string * V) :=
  match d with
  | [] => [(k, v)]
  | (k', v') :: d' =>
      if k' =? k then (k, v) :: d' else (k', v') :: dict_set k v d'
  end.

Definition no_data_found (search_string : string) : message :=
  Text ("No data found for entry point '" ++ search_string ++ "'").

Section Asset.
Context `{PandasLib}.

(** The loop over [range(len(full_df))] that stops at the first row whose
    printed form holds the marker; the answer is [row_idx + 3]. *)
Fixpoint find_start_row (labels : list cell) (marker : string)
    (rs : list (list cell)) (row_idx : Z) : option Z :=
  match rs with
  | [] => None
  | r :: rs' =>
      if contains (series_to_string labels r) marker
      then Some (row_idx + 3)%Z
      else find_start_row labels marker rs' (row_idx + 1)%Z
  end.

Definition start_row_of (full_df : DataFrame) (search_string : string)
  : option Z :=
  find_start_row (columns full_df) ("Entry Point: " ++ search_string)
                 (rows full_df) 0.

Definition end_row_of (current_year start_row : Z) (full_df : DataFrame)
    (search_string : string) : Z :=
  let len := Z.of_nat (List.length (rows full_df)) in
  if contains search_string "NEA MESIMVRIA"
  then Z.min (start_row + (current_year - 2021) + 1) len
  else Z.min (start_row + (current_year - 2008) + 1) len.

(** [full_df.iloc[start_row:end_row, :16]] under the sixteen new labels:
    pandas refuses them on a sheet narrower than sixteen columns. *)
Definition cut_block (full_df : DataFrame) (start_row end_row : Z)
  : result (list (list cell)) :=
  if (List.length (firstn 16 (columns full_df)) =? 16)%nat
  then ret (map (firstn 16) (slice start_row end_row (rows full_df)))
  else raise ValueError.

(** [pd.to_datetime(block['timestamp'], format='%Y')], [set_index] and
    [insert(0, 'point_id', search_string)]; the index comes out of
    [to_datetime] without a time zone, so [tz_localize(None)] keeps it. *)
Definition index_block (search_string : string) (b : list (list cell))
  : result Block :=
  mapM (fun r =>
          t <- of_option ValueError (to_datetime (nth 0 r CNaN)) ;;
          ret (mkQuality t (CStr search_string) (tl r)))
       b.

(** [block.map(f)]: every cell of every column, the index apart. *)
Definition block_map (f : cell -> cell) (b : Block) : Block :=
  map (fun r => mkQuality (q_timestamp r) (f (q_point_id r))
                          (map f (q_values r)))
      b.

Definition column (j : nat) (b : Block) : list cell :=
  map (fun r => nth j (q_values r) CNaN) b.

(** [l[j] = v] inside the list *)
Fixpoint set_nth {A} (j : nat) (v : A) (l : list A) : list A :=
  match l, j with
  | [], _ => []
  | _ :: l', O => v :: l'
  | a :: l', S j' => a :: set_nth j' v l'
  end.

(** [block[name] = col] *)
Definition set_column (j : nat) (col : list cell) (b : Block) : Block :=
  map (fun rv : QualityRow * cell =>
         mkQuality (q_timestamp (fst rv)) (q_point_id (fst rv))
                   (set_nth j (snd rv) (q_values (fst rv))))
      (combine b col).

(** The column has dtype [object] after [block.map] exactly when a cell
    of it is text: numbers and missing values alone make it float64. *)
Definition dtype_is_object (col : list cell) : bool := existsb is_str col.

(** [.astype(str)], [.str.replace('<', '')], [.astype(np.float64)] on one
    cell *)
Definition strip_less_than (c : cell) : result cell :=
  of_option ValueError (astype_float64 (remove_char "<" (astype_str c))).

Definition clean_hydrocarbon (b : Block) : result Block :=
  if dtype_is_object (column hydrocarbon b)
  then col <- mapM strip_less_than (column hydrocarbon b) ;;
       ret (set_column hydrocarbon col b)
  else ret b.

(** The body of the loop for a point whose marker was found. *)
Definition make_block (current_year : Z) (full_df : DataFrame)
    (search_string : string) (start_row : Z) : result Block :=
  let end_row := end_row_of current_year start_row full_df search_string in
  cut <- cut_block full_df start_row end_row ;;
  block <- index_block search_string cut ;;
  clean_hydrocarbon (block_map replace_dash_with_nan block).

(** The loop over [entry_points]: the log so far, and the dict of blocks
    or the exception that ended the loop. *)
Fixpoint collect (current_year : Z) (full_df : DataFrame)
    (points : list string) (log : list log_record)
    (dataframes : list (string * Block))
  : list log_record * result (list (string * Block)) :=
  match points with
  | [] => (log, ret dataframes)
  | search_string :: points' =>
      match start_row_of full_df search_string with
      | Some start_row =>
          match make_block current_year full_df search_string start_row with
          | inl e => (log, raise e)
          | inr block =>
              collect current_year full_df points' log
                      (dict_set search_string block dataframes)
          end
      | None =>
          collect current_year full_df points'
                  (log ++ [(Warning, no_data_found search_string)])%list
                  dataframes
      end
  end.

(** [pd.concat(dataframes.values())]: no objects to concatenate is a
    [ValueError]. *)
Definition concat_blocks (dataframes : list (string * Block)) : result Block :=
  match dataframes with
  | [] => raise ValueError
  | _ => ret (List.concat (map snd dataframes))
  end.

Definition desfa_ng_quality_yearly (current_year : Z) (response : Response)
  : list log_record * result (Output Block) :=
  let log := [(Info, Text "Handling single partition.")] in
  if (status_code response =? 200)%Z then
    match collect current_year (content response) entry_points log [] with
    | (log', inl e) => (log', raise e)
    | (log', inr dataframes) =>
        (log', dataframe <- concat_blocks dataframes ;;
               ret (OutputValue dataframe))
    end
  else (log, raise (FetchFailed (status_code response))).

End Asset.
End Quality.

(** ** entsog.py: the windowed assets *)

Module Entsog.
Import Py.

(** A row of the table the API client returns: the fields the assets
    rename and keep, and the operator the labelling helper reads. *)
Record RawRow : Type := mkRaw {
  period_from : string;
  direction_key : string;
  point_label : string;
  operator_label : string;
  raw_value : cell
}.

Definition RawTable : Type := list RawRow.

(** One day, in the nanoseconds of a pandas [Timestamp]. *)
Definition day_ns : Z := 86400 * 10 ^ 9.

(** [pd.Timedelta(days=n)] *)
Definition Timedelta_days (n : Z) : Z := n * day_ns.

(** [np.arange(b, e, stride)] for a positive stride *)
Definition arange (b e stride : Z) : list Z :=
  map (fun i => b + Z.of_nat i * stride)%Z
      (seq 0 (Z.to_nat ((e - b + stride - 1) / stride))).

(** [pd.date_range(start, end, freq=...)] for a fixed-width frequency, as
    the regular-range generator of pandas computes it. *)
Definition date_range (start end_ stride : Z) : list Z :=
  let b := start in
  let e := (b + (end_ - b) / stride * stride + stride / 2 + 1)%Z in
  arange b e stride.

(** The helpers of [utils/entsog_utils.py] and [utils/common.py], which
    are not among the sources, and the pandas call on the period text. *)
Class Helpers : Type := {
  greek_operator_point_directions : list string;
  (** [entsog_api_call_with_retries(from, to, indicators, keys, context)] *)
  entsog_api_call_with_retries :
    Z -> Z -> list string -> list string -> result RawTable;
  label_potential_duplicates_with_tso : RawTable -> RawTable;
  (** [pd.to_datetime(_, utc=True)] on one period; [None] when it raises *)
  to_datetime_utc : string -> option Timestamp;
  (** [sanitize_df(data)], which works on the frame in place *)
  sanitize_df : LongTable -> LongTable
}.

Definition timestamp_eqb (a b : Timestamp) : bool :=
  match a, b with
  | Some x, Some y => (x =? y)%Z
  | None, None => true
  | _, _ => false
  end.

Definition key_eqb (a b : Timestamp * string * string) : bool :=
  let '(t1, p1, d1) := a in
  let '(t2, p2, d2) := b in
  timestamp_eqb t1 t2 && (p1 =? p2) && (d1 =? d2).

Definition occurrences (k : Timestamp * string * string) (t : LongTable)
  : nat :=
  List.length (filter (fun r => key_eqb k (key r)) t).

(** [index.duplicated(keep=False)] on one row *)
Definition duplicated (t : LongTable) (r : LongRecord) : bool :=
  (1 <? occurrences (key r) t)%nat.

(** [index.is_unique] *)
Definition is_unique (t : LongTable) : bool :=
  forallb (fun r => negb (duplicated t r)) t.

(** [data['value'] != ''] *)
Definition not_empty_string (r : LongRecord) : bool :=
  match value r with
  | CStr s => negb (s =? "")
  | _ => true
  end.

(** [data['value'].notna()] *)
Definition notna (r : LongRecord) : bool :=
  match value r with
  | CNaN => false
  | _ => true
  end.

Section Assets.
Context `{Helpers}.

(** The renaming of [direction_key], [period_from] and [point_label], and
    [pd.to_datetime] on the new [timestamp]. *)
Definition rename_and_parse (r : RawRow) : result LongRecord :=
  t <- of_option ValueError (to_datetime_utc (period_from r)) ;;
  ret (mkLong t (point_label r) (direction_key r) (raw_value r)).

(** Lines 39 to 54: what becomes of one sub-window table that is not
    empty. *)
Definition process (data : RawTable) : result LongTable :=
  let data := label_potential_duplicates_with_tso data in
  data <- mapM rename_and_parse data ;;
  let data := sanitize_df data in
  let data := filter not_empty_string data in
  let data := filter notna data in
  ret data.

(** The loop over [days_list]. *)
Fixpoint fetch_all (indicator : string) (days_list : list Z)
    (log : list log_record) (bidaily_data : list LongTable)
  : list log_record * result (list LongTable) :=
  match days_list with
  | [] => (log, ret bidaily_data)
  | day :: days' =>
      match entsog_api_call_with_retries day (day + Timedelta_days 1)
              [indicator] greek_operator_point_directions with
      | inl e => (log, raise e)
      | inr [] => fetch_all indicator days' log bidaily_data
      | inr data =>
          let log :=
            (log ++ [(Info, FetchedData day (day + Timedelta_days 1))])%list in
          match process data with
          | inl e => (log, raise e)
          | inr data =>
              fetch_all indicator days' log (bidaily_data ++ [data])%list
          end
      end
  end.

(** The body the four assets share; [start] and [end_] are the answer of
    [timewindow_to_ts] on the partition window.  [Output(value=None)] is
    [OutputValue None]. *)
Definition windowed_asset (indicator : string) (start end_ : Z)
  : list log_record * result (Output (option LongTable)) :=
  let log := [(Info, HandlingPartition start end_)] in
  let days_list := date_range start end_ (Timedelta_days 2) in
  match fetch_all indicator days_list log [] with
  | (log, inl e) => (log, raise e)
  | (log, inr bidaily_data) =>
      match bidaily_data with
      | [] => (log, ret (OutputValue None))
      | _ =>
          let complete_data := List.concat bidaily_data in
          let log :=
            if negb (is_unique complete_data)
            then (log ++ [(Warning,
                           FoundDuplicates
                             (filter (duplicated complete_data)
                                     complete_data))])%list
            else log in
          (log, ret (OutputValue (Some complete_data)))
      end
  end.

Definition entsog_flows_daily := windowed_asset "physical_flow".
Definition entsog_nominations_daily := windowed_asset "nomination".
Definition entsog_allocations_daily := windowed_asset "allocation".
Definition entsog_renominations_daily := windowed_asset "renomination".

End Assets.
End Entsog.

(** ** Sheets for the quality table *)

Module SampleQuality.

Definition labels16 : list cell :=
  map (fun i => CStr ("Unnamed: " ++ Sample.str_of_Z (Z.of_nat i))) (seq 0 16).

(** A row of titles: text in the first cell, nothing after it. *)
Definition title_row (s : string) : list cell :=
  CStr s :: repeat CNaN 15.

(** A row of records: the year, [c1], thirteen plain readings and
    [hydrocarbon_dew_point_max]. *)
Definition record_row (year : Z) (c1 hydrocarbon : cell) : list cell :=
  ([CNum (year # 1); c1] ++ repeat (CNum (1 # 1)) 13 ++ [hydrocarbon])%list.

(** Blocks for AGIA TRIADA and SIDIROKASTRO; no marker for KIPI and NEA
    MESIMVRIA. *)
Definition quality_sheet : DataFrame :=
  mkDataFrame labels16
    [title_row "Entry Point: AGIA TRIADA";
     title_row "Year";
     title_row "units";
     record_row 2008 (CStr "<1.2") (CStr "<1.2");
     record_row 2009 (CStr "-") (CNum (3 # 1));
     title_row "Entry Point: SIDIROKASTRO";
     title_row "Year";
     title_row "units";
     record_row 2008 (CNum (7 # 1)) (CNum (4 # 1))].

(** A sheet whose titles carry no marker at all. *)
Definition unmarked_sheet : DataFrame :=
  mkDataFrame labels16
    [title_row "AGIA TRIADA";
     title_row "Year";
     title_row "units";
     record_row 2008 (CNum (7 # 1)) (CNum (4 # 1))].

(** What the asset makes of the sheet in 2009. *)
Definition plain : list cell := repeat (CNum (1 # 1)) 13.

Definition agia_triada_block : Quality.Block :=
  [Quality.mkQuality (Some (Sample.year_start 2008)) (CStr "AGIA TRIADA")
     ([CStr "<1.2"] ++ plain ++ [CNum (12 # 10)]);
   Quality.mkQuality (Some (Sample.year_start 2009)) (CStr "AGIA TRIADA")
     ([CNaN] ++ plain ++ [CNum (3 # 1)])]%list.

Definition sidirokastro_block : Quality.Block :=
  [Quality.mkQuality (Some (Sample.year_start 2008)) (CStr "SIDIROKASTRO")
     ([CNum (7 # 1)] ++ plain ++ [CNum (4 # 1)])]%list.

End SampleQuality.

(** ** Notions the proofs share *)

(** A result that is not the fetch failure of the spreadsheet assets. *)
Definition not_fetch_failure {A} (r : Py.result A) : Prop :=
  forall c, r <> inl (Py.FetchFailed c).

(** The points of a list whose marker is absent from the sheet. *)
Definition missing_points `{PandasLib} (full_df : DataFrame)
    (points : list string) : list string :=
  filter (fun p => match Quality.start_row_of full_df p with
                   | None => true
                   | Some _ => false
                   end)
         points.

(** The blocks of the points whose marker is in the sheet, in the order
    of the points. *)
Definition found_blocks `{PandasLib} (current_year : Z) (full_df : DataFrame)
    (points : list string) : list (string * Quality.Block) :=
  flat_map
    (fun p =>
       match Quality.start_row_of full_df p with
       | Some start_row =>
           match Quality.make_block current_year full_df p start_row with
           | inr block => [(p, block)]
           | inl _ => []
           end
       | None => []
       end)
    points.

(** Every point whose marker is in the sheet has a block that is built
    without an exception. *)
Definition blocks_build `{PandasLib} (current_year : Z) (full_df : DataFrame)
    (points : list string) : Prop :=
  forall p start_row,
    In p points -> Quality.start_row_of full_df p = Some start_row ->
    exists block,
      Quality.make_block current_year full_df p start_row = inr block.


(** The record the quality asset logs for a point it skips. *)
Definition warn (p : string) : log_record :=
  (Warning, Quality.no_data_found p).

(** ** The requests of a partition, and the store behind the API *)

Module EntsogSpec.
Import Py Entsog.

(** The spans the loop of an asset asks for, in order: lines 29 and 32
    to 33 of [entsog_flows_daily]. *)
Definition request_spans (start end_ : Z) : list (Z * Z) :=
  map (fun day => (day, day + Timedelta_days 1)%Z)
      (date_range start end_ (Timedelta_days 2)).

(** The helpers with another API call in place of theirs. *)
Definition with_api (h : Helpers)
    (api : Z -> Z -> list string -> list string -> result RawTable)
  : Helpers :=
  Build_Helpers (@greek_operator_point_directions h) api
                (@label_potential_duplicates_with_tso h)
                (@to_datetime_utc h) (@sanitize_df h).

(** [not data.empty] *)
Definition has_rows (data : RawTable) : bool :=
  match data with
  | [] => false
  | _ => true
  end.

(** The answer of the API for the span that starts on [day]. *)
Definition fetched `{Helpers} (indicator : string) (day : Z)
    (data : RawTable) : Prop :=
  entsog_api_call_with_retries day (day + Timedelta_days 1) [indicator]
    greek_operator_point_directions = inr data.

(** A value that is neither the empty string nor null. *)
Definition has_value (r : LongRecord) : Prop :=
  value r <> CStr "" /\ value r <> CNaN.

(** A helper that treats its table one row at a time. *)
Definition rowwise {A} (f : list A -> list A) : Prop :=
  exists g : A -> A, forall t, f t = map g t.

(** Modelled from the spec: the remote query behind
    [entsog_api_call_with_retries], which is not among the sources.  The
    spec: "parameterized query by (identity keys, data kind, time window,
    country code); may return an empty result", fetching "observations
    for each narrow (2-day) sub-window".  The query answers with the
    observations of a store whose period lies in the window; whether each
    bound of the window belongs to it is left open by the spec, so both
    are flags. *)
Definition in_window (closed_from closed_to : bool) (from_ to_ t : Z) : bool :=
  (if closed_from then from_ <=? t else from_ <? t)%Z
  && (if closed_to then t <=? to_ else t <? to_)%Z.

Definition store_api (period : RawRow -> Z) (closed_from closed_to : bool)
    (store : RawTable) (from_ to_ : Z) (indicators keys : list string)
  : result RawTable :=
  ret (filter (fun r => in_window closed_from closed_to from_ to_ (period r))
              store).

(** The table the specification compares with: the reshaping of the one
    query over the whole partition. *)
Definition unsplit_asset `{Helpers} (indicator : string) (start end_ : Z)
  : result (Output (option LongTable)) :=
  data <- entsog_api_call_with_retries start end_ [indicator]
            greek_operator_point_directions ;;
  match data with
  | [] => ret (OutputValue None)
  | _ => t <- process data ;; ret (OutputValue (Some t))
  end.

End EntsogSpec.

(** ** A reading of the helpers, for the examples *)

Module SampleEntsog.
Import Py Entsog.

(** Days from the first of January 1970 to a civil date. *)
Definition days_from_civil (y m d : Z) : Z :=
  let y' := if (m <=? 2)%Z then (y - 1)%Z else y in
  let era := (y' / 400)%Z in
  let yoe := (y' - era * 400)%Z in
  let mp := if (m <=? 2)%Z then (m + 9)%Z else (m - 3)%Z in
  let doy := ((153 * mp + 2) / 5 + d - 1)%Z in
  let doe := (yoe * 365 + yoe / 4 - yoe / 100 + doy)%Z in
  (era * 146097 + doe - 719468)%Z.

(** A period written [YYYY-MM-DD], as midnight UTC in nanoseconds. *)
Definition parse_date (s : string) : option Z :=
  match Sample.Z_of_str (substring 0 4 s),
        Sample.Z_of_str (substring 5 2 s),
        Sample.Z_of_str (substring 8 2 s) with
  | Some y, Some m, Some d => Some (days_from_civil y m d * day_ns)%Z
  | _, _, _ => None
  end.

Definition to_datetime_utc (s : string) : option Timestamp :=
  option_map Some (parse_date s).

Definition period (r : RawRow) : Z :=
  match parse_date (period_from r) with
  | Some t => t
  | None => 0
  end.

(** The point label with the operator after it. *)
Definition label_row (r : RawRow) : RawRow :=
  mkRaw (period_from r) (direction_key r)
        (point_label r ++ " (" ++ operator_label r ++ ")")
        (operator_label r) (raw_value r).

Definition helpers_over
    (api : Z -> Z -> list string -> list string -> result RawTable)
  : Helpers :=
  Build_Helpers ["gr-tso-0001itp-00011exit"] api (map label_row)
                to_datetime_utc (fun t => t).

(** One observation a day from the first to the fourth of June 2020, the
    second day reported twice, the third without a value, and one
    observation on the second of July. *)
Definition obs1 : RawRow :=
  mkRaw "2020-06-01" "exit" "Sidirokastron" "DESFA" (CNum (10 # 1)).
Definition obs2 : RawRow :=
  mkRaw "2020-06-02" "exit" "Sidirokastron" "DESFA" (CNum (20 # 1)).
Definition obs2' : RawRow :=
  mkRaw "2020-06-02" "exit" "Sidirokastron" "DESFA" (CNum (21 # 1)).
Definition obs3 : RawRow :=
  mkRaw "2020-06-03" "exit" "Sidirokastron" "DESFA" (CStr "").
Definition obs4 : RawRow :=
  mkRaw "2020-06-04" "exit" "Sidirokastron" "DESFA" (CNum (40 # 1)).

Definition obs5 : RawRow :=
  mkRaw "2020-07-02" "exit" "Sidirokastron" "DESFA" (CNum (50 # 1)).

Definition store : RawTable := [obs1; obs2; obs2'; obs3; obs4; obs5].

(** The long record of an observation of the store. *)
Definition long (day : Z) (v : cell) : LongRecord :=
  mkLong (Some (days_from_civil 2020 6 day * day_ns)%Z)
         "Sidirokastron (DESFA)" "exit" v.

Definition june (d : Z) : Z := (days_from_civil 2020 6 d * day_ns)%Z.

(** The end of the monthly partition of June 2020. *)
Definition july_first : Z := (days_from_civil 2020 7 1 * day_ns)%Z.

(** The helpers over the store, the bounds of a window read as the flags
    say. *)
Definition helpers (closed_from closed_to : bool) : Helpers :=
  helpers_over (EntsogSpec.store_api period closed_from closed_to store).

(** The helpers over an API that never has data. *)
Definition helpers_no_data : Helpers :=
  helpers_over (fun _ _ _ _ => ret []).

(** What the API answers for the partition from the first to the third
    of June when both bounds of a window belong to it, and what the asset
    makes of the answers. *)
Definition answers : list RawTable := [[obs1; obs2; obs2']; [obs3; obs4]].

Definition tables : list LongTable :=
  [[long 1 (CNum (10 # 1)); long 2 (CNum (20 # 1)); long 2 (CNum (21 # 1))];
   [long 4 (CNum (40 # 1))]].

Definition opening_log : list log_record :=
  [(Info, HandlingPartition (june 1) (june 3));
   (Info, FetchedData (june 1) (june 2));
   (Info, FetchedData (june 3) (june 4))].

End SampleEntsog.

(** ** The long table, record by record *)

Module ReshaperSpec.

Section Table.
Context `{PandasLib}.

(** The text of a header cell. *)
Definition text_of (c : cell) : string :=
  match c with
  | CStr s => s
  | _ => EmptyString
  end.

(** The instant of a period cell that parses. *)
Definition instant_of (c : cell) : Timestamp :=
  match to_datetime c with
  | Some t => t
  | None => None
  end.

(** One record for each point column [j] and each data row [r], the
    columns in the order of the sheet and the rows in theirs within a
    column, the value being the cell of the sheet. *)
Definition expected_long (cells : list cell -> list cell)
    (body : list (list cell)) : LongTable :=
  let header := cells (hd [] body) in
  flat_map
    (fun j =>
       map (fun r =>
              mkLong (instant_of (nth 0 r CNaN))
                     (text_of (nth j header CNaN))
                     (DesfaSpec.position_type j)
                     (nth j (cells r) CNaN))
           (tl body))
    (seq 0 (List.length header)).

End Table.

(** Sheets the reshaper cannot read. *)

(** Five columns only. *)
Definition narrow_sheet : DataFrame :=
  mkDataFrame (firstn 5 (columns Sample.flows_sheet))
              (map (firstn 5) (rows Sample.flows_sheet)).

(** The GCV sheet cut after its seventh row: the titles, the header row
    and three more. *)
Definition short_gcv_sheet : DataFrame :=
  mkDataFrame (columns Sample.gcv_sheet) (firstn 7 (rows Sample.gcv_sheet)).

(** Four closing rows of notes. *)
Definition closing_rows : list (list cell) :=
  repeat (CStr "note" :: repeat CNaN 6) 4.

(** A number where the label of the second point column should be. *)
Definition numeric_header_sheet : DataFrame :=
  mkDataFrame (columns Sample.flows_sheet)
    (firstn 3 (rows Sample.flows_sheet)
     ++ [[CStr "ΗΜΕΡΑ"; CStr "SIDIROKASTRO"; CNum (2 # 1); CStr "AGIA TRIADA";
          CStr "NEA MESIMVRIA"; CNaN; CStr "SIDIROKASTRO"];
         [CNum (2008 # 1); CNum (10 # 1); CNum (20 # 1); CNum (30 # 1);
          CNum (40 # 1); CNaN; CNum (5 # 1)]]
     ++ closing_rows)%list.

(** A period that is no year. *)
Definition bad_period_sheet : DataFrame :=
  mkDataFrame (columns Sample.flows_sheet)
    (firstn 4 (rows Sample.flows_sheet)
     ++ [[CStr "n/a"; CNum (10 # 1); CNum (20 # 1); CNum (30 # 1);
          CNum (40 # 1); CNaN; CNum (5 # 1)]]
     ++ closing_rows)%list.

End ReshaperSpec.

(** ** The quality table: the years of a point and a narrow sheet *)

Module QualitySpec.

(** The first year a point has records for: line 159 of the source. *)
Definition first_year (search_string : string) : Z :=
  if Py.contains search_string "NEA MESIMVRIA" then 2021 else 2008.

(** The row holds the marker of the point. *)
Definition has_marker `{PandasLib} (full_df : DataFrame)
    (search_string : string) (r : list cell) : bool :=
  Py.contains (series_to_string (columns full_df) r)
              ("Entry Point: " ++ search_string).

(** The quality sheet cut to its first ten columns. *)
Definition narrow_sheet : DataFrame :=
  mkDataFrame (firstn 10 (columns SampleQuality.quality_sheet))
              (map (firstn 10) (rows SampleQuality.quality_sheet)).

End QualitySpec.

(** ** The windowed assets: the log and the answers *)

Module EntsogLog.
Import Py Entsog EntsogSpec.

(** The messages of the records of a log that are no warnings. *)
Definition infos (log : list log_record) : list message :=
  map snd (filter (fun r => negb (is_warning r)) log).

(** The days whose answer has rows. *)
Definition days_with_rows (days : list Z) (raws : list RawTable) : list Z :=
  map fst (filter (fun dr : Z * RawTable => has_rows (snd dr))
                  (combine days raws)).

(** The sub-window that starts on [day] fails with [e]: the API call
    raises it, or the processing of its answer does. *)
Definition fails_with `{Helpers} (indicator : string) (day : Z) (e : exn)
  : Prop :=
  entsog_api_call_with_retries day (day + Timedelta_days 1) [indicator]
    greek_operator_point_directions = inl e
  \/ exists data,
       fetched indicator day data /\ data <> [] /\ process data = inl e.

(** An API over the sample store that gives up on the third of June. *)
Definition failing_api (from_ to_ : Z) (indicators keys : list string)
  : result RawTable :=
  if (from_ =? SampleEntsog.june 3)%Z then raise HelperError
  else store_api SampleEntsog.period true true SampleEntsog.store
                 from_ to_ indicators keys.

(** An API that answers spans of one day as the sample store does and
    refuses every other span. *)
Definition one_day_api (from_ to_ : Z) (indicators keys : list string)
  : result RawTable :=
  if (to_ - from_ =? Timedelta_days 1)%Z
  then store_api SampleEntsog.period true true SampleEntsog.store
                 from_ to_ indicators keys
  else raise HelperError.

(** The helpers over a store whose only observation has no value. *)
Definition helpers_valueless : Helpers :=
  SampleEntsog.helpers_over
    (store_api SampleEntsog.period true true [SampleEntsog.obs3]).

End EntsogLog.
(** ** Strings *)

Section StringFacts.
Import Py.

Lemma length_append (x y : string) :
  String.length (x ++ y) = (String.length x + String.length y)%nat.
Proof. induction x as [|c x IH]; simpl; [reflexivity | now rewrite IH]. Qed.

Lemma substring_all (s : string) : substring 0 (String.length s) s = s.
Proof. induction s as [|c s IH]; simpl; [reflexivity | now rewrite IH]. Qed.

Lemma substring_skip_append (x y : string) :
  substring (String.length x) (String.length y) (x ++ y) = y.
Proof. induction x as [|c x IH]; simpl; [apply substring_all | exact IH]. Qed.

Lemma substring_take_append (x y : string) :
  substring 0 (String.length x) (x ++ y) = x.
Proof.
  induction x as [|c x IH]; simpl.
  - destruct y; reflexivity.
  - now rewrite IH.
Qed.

Lemma last_ascii_append (x y : string) :
  y <> EmptyString -> last_ascii (x ++ y) = last_ascii y.
Proof.
  intros Hy. induction x as [|c x IH]; simpl; [reflexivity|].
  rewrite IH. destruct (x ++ y) eqn:E; [|reflexivity].
  destruct x; simpl in E; [contradiction | discriminate].
Qed.

Lemma last_ascii_substring (s : string) (n m : nat) :
  (0 < m)%nat -> (n + m = String.length s)%nat ->
  last_ascii (substring n m s) = last_ascii s.
Proof.
  revert n. induction s as [|c s IH]; intros n Hm Hlen; simpl in Hlen.
  - lia.
  - destruct n as [|n].
    + simpl in Hlen. subst m. simpl substring. now rewrite substring_all.
    + simpl. rewrite IH by lia.
      destruct s; [simpl in Hlen; lia | reflexivity].
Qed.

Lemma endswith_append (x suf : string) : endswith (x ++ suf) suf = true.
Proof.
  unfold endswith. rewrite length_append.
  replace (String.length x + String.length suf - String.length suf)%nat
    with (String.length x) by lia.
  rewrite substring_skip_append, String.eqb_refl, andb_true_r.
  apply Nat.leb_le. lia.
Qed.

Lemma endswith_last (s suf : string) :
  suf <> EmptyString -> endswith s suf = true ->
  last_ascii s = last_ascii suf.
Proof.
  unfold endswith. intros Hs Hend.
  apply andb_true_iff in Hend. destruct Hend as [Hle Heq].
  apply Nat.leb_le in Hle. apply String.eqb_eq in Heq.
  assert (E := last_ascii_substring s
                 (String.length s - String.length suf) (String.length suf)).
  rewrite Heq in E. symmetry. apply E; [|lia].
  destruct suf; [contradiction | simpl; lia].
Qed.

Lemma endswith_exit_entry (x : string) :
  endswith (x ++ "_exit") "_entry" = false.
Proof.
  destruct (endswith (x ++ "_exit") "_entry") eqn:E; [|reflexivity].
  apply endswith_last in E; [|discriminate].
  rewrite last_ascii_append in E by discriminate. discriminate.
Qed.

Lemma drop_last_append (x suf : string) :
  drop_last (String.length suf) (x ++ suf) = x.
Proof.
  unfold drop_last. rewrite length_append.
  replace (String.length x + String.length suf - String.length suf)%nat
    with (String.length x) by lia.
  apply substring_take_append.
Qed.

Lemma remove_suffix_entry (x : string) :
  Desfa.remove_suffix (x ++ "_entry") = x.
Proof.
  unfold Desfa.remove_suffix. rewrite endswith_append.
  exact (drop_last_append x "_entry").
Qed.

Lemma remove_suffix_exit (x : string) :
  Desfa.remove_suffix (x ++ "_exit") = x.
Proof.
  unfold Desfa.remove_suffix. rewrite endswith_exit_entry.
  exact (drop_last_append x "_exit").
Qed.

Lemma label_entry (x : string) :
  Desfa.label_point_as_entry_or_exit (x ++ "_entry") = "entry".
Proof.
  unfold Desfa.label_point_as_entry_or_exit. now rewrite endswith_append.
Qed.

Lemma label_exit (x : string) :
  Desfa.label_point_as_entry_or_exit (x ++ "_exit") = "exit".
Proof.
  unfold Desfa.label_point_as_entry_or_exit. now rewrite endswith_exit_entry.
Qed.

End StringFacts.

(** ** Lists and the result monad *)

Section ListFacts.
Import Py.
Context {A B : Type}.

Lemma mapM_nth_error (f : A -> result B) (l : list A) :
  forall l', mapM f l = inr l' ->
  forall j y, nth_error l' j = Some y
              <-> exists x, nth_error l j = Some x /\ f x = inr y.
Proof.
  induction l as [|a l IH]; simpl; intros l' E j y.
  - injection E as <-. split.
    + destruct j; discriminate.
    + intros (x & Hx & _). destruct j; discriminate.
  - unfold bind in E. destruct (f a) as [e|b] eqn:Ea; [discriminate|].
    destruct (mapM f l) as [e|bs] eqn:El; [discriminate|].
    injection E as <-. destruct j as [|j]; simpl.
    + split.
      * intros [= <-]. now exists a.
      * intros (x & [= <-] & Hy). congruence.
    + now apply IH.
Qed.

Lemma mapM_length (f : A -> result B) (l : list A) :
  forall l', mapM f l = inr l' -> List.length l' = List.length l.
Proof.
  induction l as [|a l IH]; simpl; intros l' E.
  - now injection E as <-.
  - unfold bind in E. destruct (f a); [discriminate|].
    destruct (mapM f l) as [|bs]; [discriminate|].
    injection E as <-. simpl. now rewrite (IH bs).
Qed.

Lemma mapM_In (f : A -> result B) (l : list A) :
  forall l', mapM f l = inr l' ->
  forall y, In y l' <-> exists x, In x l /\ f x = inr y.
Proof.
  intros l' E y. split.
  - intros Hin. apply In_nth_error in Hin. destruct Hin as [j Hj].
    apply (mapM_nth_error f l l' E) in Hj. destruct Hj as (x & Hx & Hy).
    exists x. split; [eapply nth_error_In; eassumption | assumption].
  - intros (x & Hin & Hy). apply In_nth_error in Hin. destruct Hin as [j Hj].
    apply nth_error_In with (n := j).
    apply (mapM_nth_error f l l' E). now exists x.
Qed.

Lemma mapM_total (f : A -> result B) (l : list A) :
  Forall (fun x => exists y, f x = inr y) l -> exists l', mapM f l = inr l'.
Proof.
  induction 1 as [|a l [y Hy] _ [l' IH]]; simpl.
  - now exists [].
  - exists (y :: l'). unfold bind. now rewrite Hy, IH.
Qed.

Lemma In_combine_seq (l : list B) :
  forall s j y, In (j, y) (combine (seq s (List.length l)) l)
                <-> (s <= j)%nat /\ nth_error l (j - s) = Some y.
Proof.
  induction l as [|b l IH]; simpl; intros s j y.
  - split; [contradiction|]. intros [_ E]. destruct (j - s)%nat; discriminate.
  - rewrite IH. split.
    + intros [[= <- <-] | [Hle E]].
      * split; [lia|]. now rewrite Nat.sub_diag.
      * split; [lia|]. replace (j - s)%nat with (S (j - S s)) by lia.
        exact E.
    + intros [Hle E]. destruct (j - s)%nat as [|n] eqn:En.
      * left. injection E as <-. f_equal. lia.
      * right. split; [lia|]. replace (j - S s)%nat with n by lia. exact E.
Qed.

End ListFacts.

Lemma nth_error_lt {A} (l : list A) (n : nat) (x : A) :
  nth_error l n = Some x -> (n < List.length l)%nat.
Proof. intros E. apply nth_error_Some. congruence. Qed.

Lemma removelast_tl {A} (l : list A) : tl (removelast l) = removelast (tl l).
Proof. destruct l as [|a [|b l]]; reflexivity. Qed.

Lemma removelast_length {A} (l : list A) :
  List.length (removelast l) = (List.length l - 1)%nat.
Proof.
  induction l as [|a [|b l] IH]; try reflexivity.
  change (S (List.length (removelast (b :: l))) = (S (S (List.length l)) - 1)%nat).
  rewrite IH. simpl. lia.
Qed.

Lemma filter_map_commute {A B} (g : A -> B) (p : B -> bool) (l : list A) :
  filter p (map g l) = map g (filter (fun x => p (g x)) l).
Proof.
  induction l as [|a l IH]; simpl; [reflexivity|].
  destruct (p (g a)); simpl; now rewrite IH.
Qed.

(** ** The wide-to-long reshaper *)

Section ReshaperFacts.
Import Py Desfa DesfaSpec.
Context `{PandasLib}.

Lemma add_suffix_inr (suffix : string) (c : cell) (p : string) :
  add_suffix suffix c = inr p <-> exists x, c = CStr x /\ p = x ++ suffix.
Proof.
  destruct c as [s|q|]; simpl; split; try discriminate.
  - intros [= <-]. now exists s.
  - intros (x & [= <-] & ->). reflexivity.
  - intros (x & E & _). discriminate.
  - intros (x & E & _). discriminate.
Qed.

(** The suffixed labels, position by position. *)
Lemma suffix_headers_nth (h : list cell) (nh : list string) :
  suffix_headers h = inr nh ->
  forall j p, nth_error nh j = Some p
              <-> exists x, nth_error h j = Some (CStr x)
                            /\ p = x ++ DesfaSpec.position_suffix j.
Proof.
  unfold suffix_headers, bind. intros E j p.
  destruct (mapM (add_suffix "_entry") (firstn 4 h)) as [|a] eqn:Ea;
    [discriminate|].
  destruct (mapM (add_suffix "_exit") (skipn 4 h)) as [|b] eqn:Eb;
    [discriminate|].
  injection E as <-.
  assert (La := mapM_length _ _ _ Ea). rewrite length_firstn in La.
  unfold DesfaSpec.position_suffix. rewrite nth_error_app.
  destruct (Nat.ltb_spec j 4) as [Hj|Hj].
  - destruct (Nat.ltb_spec j (List.length a)) as [Hja|Hja].
    + rewrite (mapM_nth_error _ _ _ Ea), nth_error_firstn.
      destruct (Nat.ltb_spec j 4); [|lia].
      split; intros (x & Hx & Hp).
      * apply add_suffix_inr in Hp. destruct Hp as (s & -> & ->). now exists s.
      * exists (CStr x). split; [exact Hx|]. apply add_suffix_inr. now exists x.
    + assert (Hlen : (List.length h <= j)%nat) by lia.
      split.
      * intros Hb. apply (mapM_nth_error _ _ _ Eb) in Hb.
        destruct Hb as (x & Hx & _). rewrite nth_error_skipn in Hx.
        apply nth_error_lt in Hx. lia.
      * intros (x & Hx & _). apply nth_error_lt in Hx. lia.
  - destruct (Nat.ltb_spec j (List.length a)) as [Hja|Hja]; [lia|].
    rewrite (mapM_nth_error _ _ _ Eb), nth_error_skipn.
    assert (Hidx : nth_error h (4 + (j - List.length a)) = nth_error h j).
    { destruct (Nat.le_gt_cases 4 (List.length h)) as [H4|H4].
      - f_equal. lia.
      - rewrite (proj2 (nth_error_None h j)) by lia.
        apply nth_error_None. lia. }
    rewrite Hidx. split; intros (x & Hx & Hp).
    + apply add_suffix_inr in Hp. destruct Hp as (s & -> & ->). now exists s.
    + exists (CStr x). split; [exact Hx|]. apply add_suffix_inr. now exists x.
Qed.

Lemma suffix_headers_length (h : list cell) (nh : list string) :
  suffix_headers h = inr nh -> List.length nh = List.length h.
Proof.
  unfold suffix_headers, bind. intros E.
  destruct (mapM (add_suffix "_entry") (firstn 4 h)) as [|a] eqn:Ea;
    [discriminate|].
  destruct (mapM (add_suffix "_exit") (skipn 4 h)) as [|b] eqn:Eb;
    [discriminate|].
  injection E as <-.
  rewrite length_app, (mapM_length _ _ _ Ea), (mapM_length _ _ _ Eb).
  rewrite <- length_app. now rewrite firstn_skipn.
Qed.

Lemma suffix_headers_total (h : list cell) :
  Forall (fun c => is_str c = true) h -> exists nh, suffix_headers h = inr nh.
Proof.
  intros Hh. unfold suffix_headers, bind.
  assert (Hall : forall suf l, Forall (fun c => is_str c = true) l ->
                 exists l', mapM (add_suffix suf) l = inr l').
  { intros suf l Hl. apply mapM_total.
    eapply Forall_impl; [|exact Hl]. intros [s| |] Hs; try discriminate.
    now exists (s ++ suf). }
  destruct (Hall "_entry" (firstn 4 h)) as [a ->].
  { rewrite <- (firstn_skipn 4 h) in Hh. now apply Forall_app in Hh. }
  destruct (Hall "_exit" (skipn 4 h)) as [b ->].
  { rewrite <- (firstn_skipn 4 h) in Hh. now apply Forall_app in Hh. }
  now exists (a ++ b)%list.
Qed.

Lemma melt_In (names : list string) (trows : list (Timestamp * list cell))
    (t : Timestamp) (p : string) (v : cell) :
  In (t, p, v) (melt names trows)
  <-> exists j tr, nth_error names j = Some p /\ In tr trows
                   /\ t = fst tr /\ v = nth j (snd tr) CNaN.
Proof.
  unfold melt. rewrite in_flat_map. split.
  - intros ([j n] & Hjn & Hin). apply In_combine_seq in Hjn.
    destruct Hjn as [_ Hn]. rewrite Nat.sub_0_r in Hn.
    apply in_map_iff in Hin. destruct Hin as (tr & E & Htr).
    simpl in E. injection E as <- <- <-. exists j, tr. auto.
  - intros (j & tr & Hn & Htr & -> & ->). exists (j, p). split.
    + apply In_combine_seq. split; [lia | now rewrite Nat.sub_0_r].
    + apply in_map_iff. now exists tr.
Qed.

Lemma key_label_and_strip (t : Timestamp) (x : string) (j : nat) (v : cell) :
  key (label_and_strip (t, x ++ DesfaSpec.position_suffix j, v))
  = (t, x, position_type j).
Proof.
  unfold key, DesfaSpec.position_suffix, position_type. simpl.
  destruct (j <? 4)%nat.
  - now rewrite remove_suffix_entry, label_entry.
  - now rewrite remove_suffix_exit, label_exit.
Qed.

Lemma parse_timestamps_In (df : DataFrame)
    (trows : list (Timestamp * list cell)) :
  parse_timestamps df = inr trows ->
  forall tr, In tr trows
             <-> exists r, In r (rows df)
                           /\ to_datetime (nth 0 r CNaN) = Some (fst tr)
                           /\ snd tr = tl r.
Proof.
  unfold parse_timestamps. intros E tr. rewrite (mapM_In _ _ _ E).
  split; intros (r & Hr & Hp); exists r; (split; [exact Hr|]).
  - unfold bind, of_option in Hp.
    destruct (to_datetime (nth 0 r CNaN)); [|discriminate].
    now injection Hp as <-.
  - destruct Hp as [-> Hs]. destruct tr as [t vs]. simpl in *. now subst.
Qed.

(** The keys of the long table, in the terms of the frame that
    [wide_to_long] receives. *)
Lemma wide_to_long_keys (d : DataFrame) (out : LongTable) :
  wide_to_long d = inr out ->
  forall k, In k (map key out) <-> in_cross_product (@tl cell) (rows d) k.
Proof.
  unfold wide_to_long, bind. intros E k.
  destruct (first_row_tail d) as [|h] eqn:Eh; [discriminate|].
  destruct (suffix_headers h) as [|nh] eqn:Enh; [discriminate|].
  destruct (set_columns ("timestamp" :: nh) d) as [|d1] eqn:Ed1;
    [discriminate|].
  destruct (parse_timestamps (drop_header_row d1)) as [|trows] eqn:Et;
    [discriminate|].
  injection E as <-.
  unfold first_row_tail in Eh. destruct (rows d) as [|r0 rs] eqn:Er;
    [discriminate|]. injection Eh as <-.
  unfold set_columns in Ed1.
  destruct (_ =? _)%nat in Ed1; [|discriminate]. injection Ed1 as <-.
  unfold drop_header_row in Et. simpl in Et. rewrite Er in Et. simpl in Et.
  assert (Hrows := parse_timestamps_In _ _ Et). simpl in Hrows.
  unfold in_cross_product. simpl. rewrite map_map. rewrite in_map_iff.
  split.
  - intros ([[t p] v] & <- & Hin). apply melt_In in Hin.
    destruct Hin as (j & tr & Hn & Htr & -> & ->).
    apply (suffix_headers_nth _ _ Enh) in Hn. destruct Hn as (x & Hx & ->).
    apply Hrows in Htr. destruct Htr as (r & Hr & Ht & _).
    exists r, j, x, (fst tr). repeat split; try assumption.
    apply key_label_and_strip.
  - intros (r & j & x & t & Hr & Hx & Ht & ->).
    exists (t, x ++ DesfaSpec.position_suffix j, nth j (tl r) CNaN). split.
    + apply key_label_and_strip.
    + apply melt_In. exists j, (t, tl r). repeat split.
      * apply (suffix_headers_nth _ _ Enh). now exists x.
      * apply Hrows. now exists r.
Qed.

(** A readable rectangular frame is reshaped without an exception. *)
Lemma wide_to_long_total (d : DataFrame) :
  rectangular d -> readable (@tl cell) (rows d) ->
  (0 < List.length (columns d))%nat ->
  exists out, wide_to_long d = inr out.
Proof.
  intros Hrect (Hne & Hstr & Hts) Hcols. unfold wide_to_long, bind.
  unfold first_row_tail, ret. destruct (rows d) as [|r0 rs] eqn:Er;
    [contradiction|]. simpl in Hstr, Hts.
  destruct (suffix_headers_total _ Hstr) as [nh Enh]. rewrite Enh.
  unfold set_columns. simpl.
  assert (Hw : List.length r0 = List.length (columns d)).
  { unfold rectangular in Hrect. rewrite Er in Hrect.
    now inversion Hrect. }
  rewrite (suffix_headers_length _ _ Enh).
  assert (Hlen : S (List.length (tl r0)) = List.length (columns d)).
  { destruct r0; simpl in *; lia. }
  rewrite <- Hlen, Nat.eqb_refl.
  unfold ret, drop_header_row, parse_timestamps. simpl. rewrite Er. simpl.
  destruct (mapM_total
              (fun r => t <- of_option ValueError (to_datetime (nth 0 r CNaN)) ;;
                        ret (t, tl r)) rs) as [trows ->].
  { eapply Forall_impl; [|exact Hts]. intros r Hr. unfold bind, of_option. simpl in Hr.
    destruct (to_datetime (nth 0 r CNaN)) as [t|]; [|congruence].
    now exists (t, tl r). }
  eauto.
Qed.

End ReshaperFacts.

Section SheetFacts.
Import Py Desfa DesfaSpec.
Context `{PandasLib}.

Lemma remove_nth_length {A} (i : nat) (l : list A) :
  (i < List.length l)%nat ->
  List.length (remove_nth i l) = (List.length l - 1)%nat.
Proof.
  intros Hi. unfold remove_nth.
  rewrite length_app, length_firstn, length_skipn. lia.
Qed.

Lemma remove_nth_head (r : list cell) :
  nth 0 (remove_nth 5 r) CNaN = nth 0 r CNaN.
Proof. destruct r; reflexivity. Qed.

Lemma remove_nth_point_cells (r : list cell) :
  tl (remove_nth 5 r) = flows_point_cells r.
Proof. destruct r; reflexivity. Qed.

Lemma is_aggregate_remove_nth (r : list cell) :
  is_aggregate (remove_nth 5 r) = is_aggregate r.
Proof. unfold is_aggregate. now rewrite remove_nth_head. Qed.

Lemma gcv_row_head (r : list cell) :
  (2 <= List.length r)%nat -> nth 0 (gcv_row r) CNaN = nth 0 r CNaN.
Proof.
  unfold DesfaSpec.gcv_row. intros Hr.
  destruct r as [|a [|b [|c [|d [|e [|f [|g r]]]]]]]; simpl in Hr;
    try lia; reflexivity.
Qed.

Lemma gcv_row_point_cells (r : list cell) :
  tl (gcv_row r) = gcv_point_cells r.
Proof.
  unfold DesfaSpec.gcv_row, gcv_point_cells.
  now rewrite removelast_tl, remove_nth_point_cells.
Qed.

Lemma flows_strip_inr (df d : DataFrame) :
  flows_strip df = inr d ->
  (5 < List.length (columns df))%nat
  /\ columns d = remove_nth 5 (columns df)
  /\ rows d = map (remove_nth 5) (flows_body df).
Proof.
  unfold flows_strip, drop_column, bind. intros E.
  destruct (Nat.ltb_spec 5 (List.length (columns df))) as [Hc|Hc];
    [|discriminate].
  injection E as <-. split; [exact Hc|]. split; [reflexivity|].
  unfold flows_body, drop_aggregates, drop_first_rows. cbn [rows columns].
  rewrite skipn_map, filter_map_commute.
  f_equal. apply filter_ext. intros r. now rewrite is_aggregate_remove_nth.
Qed.

Lemma gcv_strip_inr (df d : DataFrame) :
  gcv_strip df = inr d ->
  (5 < List.length (columns df))%nat
  /\ columns d = removelast (remove_nth 5 (columns df))
  /\ rows d = map gcv_row (gcv_body df).
Proof.
  unfold gcv_strip, drop_column, bind. intros E.
  destruct (Nat.ltb_spec 5 (List.length (columns df))) as [Hc|Hc];
    [|discriminate].
  injection E as <-. split; [exact Hc|]. split; [reflexivity|].
  unfold gcv_body, DesfaSpec.gcv_row, drop_last_rows, drop_last_column,
    drop_first_rows. cbn [rows columns].
  rewrite skipn_map, map_map, length_map, firstn_map. reflexivity.
Qed.

Lemma strip_total (df : DataFrame) :
  (5 < List.length (columns df))%nat ->
  (exists d, flows_strip df = inr d) /\ (exists d, gcv_strip df = inr d).
Proof.
  intros Hc. unfold flows_strip, gcv_strip, drop_column, bind.
  destruct (Nat.ltb_spec 5 (List.length (columns df))); [|lia].
  split; eexists; reflexivity.
Qed.

Lemma flows_body_incl (df : DataFrame) (r : list cell) :
  In r (flows_body df) -> In r (rows df).
Proof.
  unfold flows_body. intros Hr. apply filter_In in Hr. destruct Hr as [Hr _].
  rewrite <- (firstn_skipn 3 (rows df)). apply in_or_app. now right.
Qed.

Lemma gcv_body_incl (df : DataFrame) (r : list cell) :
  In r (gcv_body df) -> In r (rows df).
Proof.
  unfold gcv_body. intros Hr.
  rewrite <- (firstn_skipn 3 (rows df)). apply in_or_app. right.
  rewrite <- (firstn_skipn (List.length (skipn 3 (rows df)) - 4)
                           (skipn 3 (rows df))).
  apply in_or_app. now left.
Qed.

(** The cross product read on the stripped frame is the one read on the
    sheet. *)
Lemma cross_product_map (g cells : list cell -> list cell)
    (body : list (list cell)) :
  (forall r, In r body -> nth 0 (g r) CNaN = nth 0 r CNaN) ->
  (forall r, tl (g r) = cells r) ->
  forall k, in_cross_product (@tl cell) (map g body) k
            <-> in_cross_product cells body k.
Proof.
  intros Hhead Hcells k. unfold in_cross_product.
  destruct body as [|r0 rs]; simpl.
  - split; intros (r & _ & _ & _ & [] & _).
  - split.
    + intros (r' & j & h & t & Hr & Hh & Ht & ->).
      apply in_map_iff in Hr. destruct Hr as (r & <- & Hr).
      exists r, j, h, t. rewrite <- Hcells.
      rewrite Hhead in Ht by (now right). auto.
    + intros (r & j & h & t & Hr & Hh & Ht & ->).
      exists (g r), j, h, t. rewrite Hcells.
      rewrite Hhead by (now right). auto using in_map.
Qed.

Lemma readable_map (g cells : list cell -> list cell)
    (body : list (list cell)) :
  (forall r, In r body -> nth 0 (g r) CNaN = nth 0 r CNaN) ->
  (forall r, tl (g r) = cells r) ->
  readable cells body -> readable (@tl cell) (map g body).
Proof.
  intros Hhead Hcells (Hne & Hstr & Hts).
  destruct body as [|r0 rs]; [contradiction|].
  unfold readable. cbn [map hd tl] in *.
  repeat split; [discriminate | now rewrite Hcells |].
  apply Forall_map. rewrite Forall_forall in *. intros r Hr.
  rewrite Hhead by (now right). auto.
Qed.

Lemma flows_keys (df : DataFrame) (out : LongTable) :
  desfa_flows_daily (mkResponse 200 df) = inr (OutputValue out) ->
  forall k, In k (map key out)
            <-> in_cross_product flows_point_cells (flows_body df) k.
Proof.
  unfold desfa_flows_daily, bind. simpl. intros E k.
  destruct (flows_strip df) as [|d] eqn:Ed; [discriminate|].
  destruct (wide_to_long d) as [|t] eqn:Et; [discriminate|].
  injection E as <-. rewrite (wide_to_long_keys _ _ Et).
  destruct (flows_strip_inr _ _ Ed) as (_ & _ & ->).
  apply cross_product_map.
  - intros r _. apply remove_nth_head.
  - apply remove_nth_point_cells.
Qed.

Lemma key_map_values (f : cell -> cell) (t : LongTable) :
  map key (map_values f t) = map key t.
Proof. unfold map_values. rewrite map_map. reflexivity. Qed.

Lemma gcv_keys (df : DataFrame) (out : LongTable) :
  rectangular df ->
  desfa_ng_gcv_daily (mkResponse 200 df) = inr (OutputValue out) ->
  forall k, In k (map key out)
            <-> in_cross_product gcv_point_cells (gcv_body df) k.
Proof.
  unfold desfa_ng_gcv_daily, bind. simpl. intros Hrect E k.
  destruct (gcv_strip df) as [|d] eqn:Ed; [discriminate|].
  destruct (wide_to_long d) as [|t] eqn:Et; [discriminate|].
  injection E as <-. rewrite key_map_values, (wide_to_long_keys _ _ Et).
  destruct (gcv_strip_inr _ _ Ed) as (Hc & _ & ->).
  apply cross_product_map.
  - intros r Hr. apply gcv_row_head. apply gcv_body_incl in Hr.
    unfold rectangular in Hrect. rewrite Forall_forall in Hrect.
    rewrite (Hrect r Hr). lia.
  - apply gcv_row_point_cells.
Qed.

Lemma flows_total (df : DataFrame) :
  rectangular df -> (5 < List.length (columns df))%nat ->
  readable flows_point_cells (flows_body df) ->
  exists out, desfa_flows_daily (mkResponse 200 df) = inr (OutputValue out).
Proof.
  intros Hrect Hc Hread. unfold desfa_flows_daily, bind. simpl.
  destruct (strip_total df Hc) as [[d Ed] _]. rewrite Ed.
  destruct (flows_strip_inr _ _ Ed) as (_ & Hcols & Hrows).
  destruct (wide_to_long_total d) as [out ->]; [| | |now exists out].
  - unfold rectangular in *. rewrite Hrows, Hcols. apply Forall_map.
    rewrite Forall_forall in *. intros r Hr. apply flows_body_incl in Hr.
    rewrite !remove_nth_length; rewrite ?(Hrect r Hr); auto.
  - rewrite Hrows. apply (readable_map _ flows_point_cells); auto.
    + intros r _. apply remove_nth_head.
    + apply remove_nth_point_cells.
  - rewrite Hcols, remove_nth_length; lia.
Qed.

Lemma gcv_total (df : DataFrame) :
  rectangular df -> (5 < List.length (columns df))%nat ->
  readable gcv_point_cells (gcv_body df) ->
  exists out, desfa_ng_gcv_daily (mkResponse 200 df) = inr (OutputValue out).
Proof.
  intros Hrect Hc Hread. unfold desfa_ng_gcv_daily, bind. simpl.
  destruct (strip_total df Hc) as [_ [d Ed]]. rewrite Ed.
  destruct (gcv_strip_inr _ _ Ed) as (_ & Hcols & Hrows).
  destruct (wide_to_long_total d) as [out ->]; [| | |eexists; reflexivity].
  - unfold rectangular in *. rewrite Hrows, Hcols. apply Forall_map.
    rewrite Forall_forall in *. intros r Hr. apply gcv_body_incl in Hr.
    unfold DesfaSpec.gcv_row. rewrite !removelast_length, !remove_nth_length;
      rewrite ?(Hrect r Hr); auto.
  - rewrite Hrows. apply (readable_map _ gcv_point_cells); auto.
    + intros r Hr. apply gcv_row_head. apply gcv_body_incl in Hr.
      unfold rectangular in Hrect. rewrite Forall_forall in Hrect.
      rewrite (Hrect r Hr). lia.
    + apply gcv_row_point_cells.
  - rewrite Hcols, removelast_length, remove_nth_length; lia.
Qed.

End SheetFacts.

(** ** The claims on the spreadsheet assets *)

(** C1.  For the two wide sheets (Flows and GCV), read without an
    exception, the asset returns a long table whose (timestamp, point_id,
    point_type) keys are exactly the cross product of the retained data
    rows and the declared point columns, the type of a point being
    "entry" for the first four point columns and "exit" for the others. *)
Theorem wide_to_long_cross_product `{PandasLib} (flows gcv : DataFrame) :
  rectangular flows -> rectangular gcv ->
  (5 < List.length (columns flows))%nat ->
  (5 < List.length (columns gcv))%nat ->
  DesfaSpec.readable DesfaSpec.flows_point_cells (DesfaSpec.flows_body flows) ->
  DesfaSpec.readable DesfaSpec.gcv_point_cells (DesfaSpec.gcv_body gcv) ->
  (exists out,
     Desfa.desfa_flows_daily (mkResponse 200 flows) = inr (OutputValue out)
     /\ forall k, In k (map key out)
                  <-> DesfaSpec.in_cross_product DesfaSpec.flows_point_cells
                        (DesfaSpec.flows_body flows) k)
  /\ (exists out,
        Desfa.desfa_ng_gcv_daily (mkResponse 200 gcv) = inr (OutputValue out)
        /\ forall k, In k (map key out)
                     <-> DesfaSpec.in_cross_product DesfaSpec.gcv_point_cells
                           (DesfaSpec.gcv_body gcv) k).
Proof.
  intros Rf Rg Cf Cg Hf Hg. split.
  - destruct (flows_total flows Rf Cf Hf) as [out E].
    exists out. split; [exact E|]. now apply flows_keys.
  - destruct (gcv_total gcv Rg Cg Hg) as [out E].
    exists out. split; [exact E|]. now apply gcv_keys.
Qed.

Lemma sample_flows_rectangular : rectangular Sample.flows_sheet.
Proof. repeat constructor. Defined.

Lemma sample_gcv_rectangular : rectangular Sample.gcv_sheet.
Proof. repeat constructor. Defined.

(** Closed facts about a sheet, one cell at a time. *)
Ltac closed_fact :=
  match goal with
  | |- _ <> _ => let E := fresh in intro E; vm_compute in E; discriminate E
  | |- _ = _ => vm_compute; reflexivity
  end.

Ltac closed_forall :=
  repeat (first [apply Forall_nil | apply Forall_cons; [closed_fact|]]).

Lemma sample_flows_readable :
  @DesfaSpec.readable Sample.pandas DesfaSpec.flows_point_cells
    (@DesfaSpec.flows_body Sample.pandas Sample.flows_sheet).
Proof.
  pose (b := @DesfaSpec.flows_body Sample.pandas Sample.flows_sheet).
  change (@DesfaSpec.readable Sample.pandas DesfaSpec.flows_point_cells b).
  vm_compute in b. subst b. unfold DesfaSpec.readable.
  split; [discriminate|]. split.
  - cbv [hd DesfaSpec.flows_point_cells tl firstn skipn app]. closed_forall.
  - cbv [tl]. closed_forall.
Defined.

Lemma sample_gcv_readable :
  @DesfaSpec.readable Sample.pandas DesfaSpec.gcv_point_cells
    (DesfaSpec.gcv_body Sample.gcv_sheet).
Proof.
  pose (b := DesfaSpec.gcv_body Sample.gcv_sheet).
  change (@DesfaSpec.readable Sample.pandas DesfaSpec.gcv_point_cells b).
  vm_compute in b. subst b. unfold DesfaSpec.readable.
  split; [discriminate|]. split.
  - cbv [hd DesfaSpec.gcv_point_cells DesfaSpec.flows_point_cells tl firstn
         skipn app removelast]. closed_forall.
  - cbv [tl]. closed_forall.
Defined.

Lemma wide_to_long_cross_product_witness :
  rectangular Sample.flows_sheet /\ rectangular Sample.gcv_sheet
  /\ (5 < List.length (columns Sample.flows_sheet))%nat
  /\ (5 < List.length (columns Sample.gcv_sheet))%nat
  /\ (exists out,
        @Desfa.desfa_flows_daily Sample.pandas
          (mkResponse 200 Sample.flows_sheet) = inr (OutputValue out)
        /\ forall k, In k (map key out)
                     <-> @DesfaSpec.in_cross_product Sample.pandas
                           DesfaSpec.flows_point_cells
                           (@DesfaSpec.flows_body Sample.pandas
                              Sample.flows_sheet) k)
  /\ (exists out,
        @Desfa.desfa_ng_gcv_daily Sample.pandas
          (mkResponse 200 Sample.gcv_sheet) = inr (OutputValue out)
        /\ forall k, In k (map key out)
                     <-> @DesfaSpec.in_cross_product Sample.pandas
                           DesfaSpec.gcv_point_cells
                           (DesfaSpec.gcv_body Sample.gcv_sheet) k).
Proof.
  split; [exact sample_flows_rectangular|].
  split; [exact sample_gcv_rectangular|].
  split; [simpl; lia|]. split; [simpl; lia|].
  apply (@wide_to_long_cross_product Sample.pandas
           Sample.flows_sheet Sample.gcv_sheet).
  - exact sample_flows_rectangular.
  - exact sample_gcv_rectangular.
  - simpl; lia.
  - simpl; lia.
  - exact sample_flows_readable.
  - exact sample_gcv_readable.
Defined.

Example sample_flows_output :
  @Desfa.desfa_flows_daily Sample.pandas (mkResponse 200 Sample.flows_sheet)
  = inr (OutputValue
      [mkLong (Some 1199145600000000000%Z) "SIDIROKASTRO" "entry" (CNum (10 # 1));
       mkLong (Some 1230768000000000000%Z) "SIDIROKASTRO" "entry" (CNum (11 # 1));
       mkLong (Some 1199145600000000000%Z) "KIPI" "entry" (CNum (20 # 1));
       mkLong (Some 1230768000000000000%Z) "KIPI" "entry" (CNum (21 # 1));
       mkLong (Some 1199145600000000000%Z) "AGIA TRIADA" "entry" (CNum (30 # 1));
       mkLong (Some 1230768000000000000%Z) "AGIA TRIADA" "entry" (CNum (31 # 1));
       mkLong (Some 1199145600000000000%Z) "NEA MESIMVRIA" "entry" (CStr "-");
       mkLong (Some 1230768000000000000%Z) "NEA MESIMVRIA" "entry" (CNum (41 # 1));
       mkLong (Some 1199145600000000000%Z) "SIDIROKASTRO" "exit" (CNum (5 # 1));
       mkLong (Some 1230768000000000000%Z) "SIDIROKASTRO" "exit" (CNum (6 # 1))]).
Proof. vm_compute. reflexivity. Qed.

(** ** Exceptions of the spreadsheet assets *)

Section FetchFacts.
Import Py.
Context `{PandasLib}.

Lemma not_fetch_bind {A B} (c : result A) (k : A -> result B) :
  not_fetch_failure c -> (forall x, not_fetch_failure (k x)) ->
  not_fetch_failure (bind c k).
Proof.
  unfold not_fetch_failure, bind. intros Hc Hk s.
  destruct c as [e|x]; [|apply Hk].
  intros E. apply (Hc s). congruence.
Qed.

Lemma not_fetch_ret {A} (x : A) : not_fetch_failure (ret x).
Proof. intros c. discriminate. Qed.

Lemma not_fetch_of_option {A} (e : exn) (o : option A) :
  (forall c, e <> FetchFailed c) -> not_fetch_failure (of_option e o).
Proof.
  intros He c. destruct o; simpl; [discriminate|].
  unfold raise. intros [= E]. now apply (He c).
Qed.

Lemma not_fetch_mapM {A B} (f : A -> result B) (l : list A) :
  (forall x, not_fetch_failure (f x)) -> not_fetch_failure (mapM f l).
Proof.
  intros Hf. induction l as [|a l IH]; simpl.
  - apply not_fetch_ret.
  - apply not_fetch_bind; [apply Hf|]. intros y.
    apply not_fetch_bind; [exact IH|]. intros ys. apply not_fetch_ret.
Qed.

Lemma not_fetch_add_suffix (suffix : string) (c : cell) :
  not_fetch_failure (Desfa.add_suffix suffix c).
Proof. intros s. destruct c; discriminate. Qed.

Lemma not_fetch_drop_column (i : nat) (df : DataFrame) :
  not_fetch_failure (Desfa.drop_column i df).
Proof. intros s. unfold Desfa.drop_column. destruct (_ <? _)%nat; discriminate. Qed.

Lemma not_fetch_wide_to_long (df : DataFrame) :
  not_fetch_failure (Desfa.wide_to_long df).
Proof.
  unfold Desfa.wide_to_long.
  apply not_fetch_bind.
  { intros s. unfold Desfa.first_row_tail. destruct (rows df); discriminate. }
  intros h. apply not_fetch_bind.
  { unfold Desfa.suffix_headers.
    apply not_fetch_bind; [apply not_fetch_mapM, not_fetch_add_suffix|].
    intros a.
    apply not_fetch_bind; [apply not_fetch_mapM, not_fetch_add_suffix|].
    intros b. apply not_fetch_ret. }
  intros nh. apply not_fetch_bind.
  { intros s. unfold Desfa.set_columns. destruct (_ =? _)%nat; discriminate. }
  intros d1. apply not_fetch_bind; [|intros; apply not_fetch_ret].
  unfold Desfa.parse_timestamps. apply not_fetch_mapM. intros r.
  apply not_fetch_bind; [|intros; apply not_fetch_ret].
  apply not_fetch_of_option. discriminate.
Qed.

Lemma not_fetch_make_block (year : Z) (df : DataFrame) (p : string) (s : Z) :
  not_fetch_failure (Quality.make_block year df p s).
Proof.
  unfold Quality.make_block. apply not_fetch_bind.
  { intros c. unfold Quality.cut_block. destruct (_ =? _)%nat; discriminate. }
  intros cut. apply not_fetch_bind.
  { unfold Quality.index_block. apply not_fetch_mapM. intros r.
    apply not_fetch_bind; [|intros; apply not_fetch_ret].
    apply not_fetch_of_option. discriminate. }
  intros block. unfold Quality.clean_hydrocarbon.
  destruct (Quality.dtype_is_object _); [|apply not_fetch_ret].
  apply not_fetch_bind; [|intros; apply not_fetch_ret].
  apply not_fetch_mapM. intros c. apply not_fetch_of_option. discriminate.
Qed.

Lemma not_fetch_collect (year : Z) (df : DataFrame) (points : list string) :
  forall log d, not_fetch_failure (snd (Quality.collect year df points log d)).
Proof.
  induction points as [|p points IH]; simpl; intros log d.
  - apply not_fetch_ret.
  - destruct (Quality.start_row_of df p) as [s|]; [|apply IH].
    destruct (Quality.make_block year df p s) as [e|b] eqn:E; [|apply IH].
    simpl. intros c [= ->]. exact (not_fetch_make_block _ _ _ _ c E).
Qed.

Lemma fetch_gate {A} (body : result A) (status c : Z) :
  not_fetch_failure body ->
  (if (status =? 200)%Z then body else raise (FetchFailed status))
  = inl (FetchFailed c)
  <-> status = c /\ c <> 200%Z.
Proof.
  intros Hb. destruct (Z.eqb_spec status 200) as [E|E]; split.
  - intros F. now apply Hb in F.
  - intros [<- Hc]. contradiction.
  - intros [= <-]. now split.
  - intros [<- _]. reflexivity.
Qed.

Lemma not_fetch_quality_body (year : Z) (df : DataFrame)
    (log : list log_record) :
  not_fetch_failure
    (snd (match Quality.collect year df Quality.entry_points log [] with
          | (log', inl e) => (log', raise e)
          | (log', inr dataframes) =>
              (log', dataframe <- Quality.concat_blocks dataframes ;;
                     ret (OutputValue dataframe))
          end)).
Proof.
  assert (N := not_fetch_collect year df Quality.entry_points log []).
  destruct (Quality.collect _ _ _ _ _) as [log' [e|d]]; simpl in *.
  - intros c [= ->]. now apply (N c).
  - intros c. destruct d; discriminate.
Qed.

End FetchFacts.

(** C5.  Each spreadsheet asset ends with the fetch failure, carrying the
    status, exactly when the status of the one response it is given is
    not 200: a status other than 200 yields that exception and no table,
    and a status of 200 never does.  The quality asset has logged its
    opening record and nothing else by then. *)
Theorem non_200_is_fatal `{PandasLib} (current_year : Z)
    (response : Response) (c : Z) :
  (Desfa.desfa_flows_daily response = inl (Py.FetchFailed c)
   <-> status_code response = c /\ c <> 200%Z)
  /\ (Desfa.desfa_ng_gcv_daily response = inl (Py.FetchFailed c)
      <-> status_code response = c /\ c <> 200%Z)
  /\ (snd (Quality.desfa_ng_quality_yearly current_year response)
        = inl (Py.FetchFailed c)
      <-> status_code response = c /\ c <> 200%Z)
  /\ (status_code response <> 200%Z ->
      Quality.desfa_ng_quality_yearly current_year response
      = ([(Info, Text "Handling single partition.")],
         inl (Py.FetchFailed (status_code response)))).
Proof.
  split; [|split; [|split]].
  - apply fetch_gate. apply not_fetch_bind.
    + unfold Desfa.flows_strip. apply not_fetch_bind;
        [apply not_fetch_drop_column | intros; apply not_fetch_ret].
    + intros d. apply not_fetch_bind; [apply not_fetch_wide_to_long|].
      intros t. apply not_fetch_ret.
  - apply fetch_gate. apply not_fetch_bind.
    + unfold Desfa.gcv_strip. apply not_fetch_bind;
        [apply not_fetch_drop_column | intros; apply not_fetch_ret].
    + intros d. apply not_fetch_bind; [apply not_fetch_wide_to_long|].
      intros t. apply not_fetch_ret.
  - unfold Quality.desfa_ng_quality_yearly.
    rewrite <- (fetch_gate _ (status_code response) c
                  (not_fetch_quality_body current_year (content response)
                     [(Info, Text "Handling single partition.")])).
    destruct (status_code response =? 200)%Z; reflexivity.
  - intros Hs. unfold Quality.desfa_ng_quality_yearly.
    destruct (Z.eqb_spec (status_code response) 200); [contradiction|].
    reflexivity.
Qed.

Lemma non_200_is_fatal_witness :
  @Desfa.desfa_flows_daily Sample.pandas (mkResponse 404 Sample.flows_sheet)
  = inl (Py.FetchFailed 404)
  /\ @Quality.desfa_ng_quality_yearly Sample.pandas 2009
       (mkResponse 404 SampleQuality.quality_sheet)
     = ([(Info, Text "Handling single partition.")],
        inl (Py.FetchFailed 404)).
Proof.
  destruct (@non_200_is_fatal Sample.pandas 2009
              (mkResponse 404 Sample.flows_sheet) 404) as (F & _).
  destruct (@non_200_is_fatal Sample.pandas 2009
              (mkResponse 404 SampleQuality.quality_sheet) 404)
    as (_ & _ & _ & Q).
  split.
  - apply F. split; [reflexivity | discriminate].
  - apply Q. discriminate.
Defined.

(** ** The quality table *)

Section QualityFacts.
Import Py Quality.
Context `{PandasLib}.

(** The loop logs one warning for each point whose marker is missing, in
    the order of the points, and nothing else. *)
Lemma collect_log (year : Z) (df : DataFrame) (points : list string) :
  forall log d log' d',
    collect year df points log d = (log', inr d') ->
    log' = (log ++ map warn (missing_points df points))%list.
Proof.
  unfold missing_points.
  induction points as [|p points IH]; simpl; intros log d log' d' E.
  - injection E as <- _. now rewrite app_nil_r.
  - destruct (start_row_of df p) as [s|].
    + destruct (make_block year df p s) as [e|b]; [discriminate|].
      now apply IH in E.
    + apply IH in E. rewrite E, <- app_assoc. reflexivity.
Qed.

Lemma collect_all_missing (year : Z) (df : DataFrame) (points : list string) :
  (forall p, In p points -> start_row_of df p = None) ->
  forall log d,
    collect year df points log d = ((log ++ map warn points)%list, inr d).
Proof.
  induction points as [|p points IH]; simpl; intros Hmiss log d.
  - now rewrite app_nil_r.
  - rewrite (Hmiss p) by now left.
    rewrite IH by (intros q Hq; apply Hmiss; now right).
    now rewrite <- app_assoc.
Qed.

Lemma warnings_app (l1 l2 : list log_record) :
  warnings (l1 ++ l2) = (warnings l1 ++ warnings l2)%list.
Proof. unfold warnings. now rewrite filter_app, map_app. Qed.

Lemma warnings_warn (points : list string) :
  warnings (map warn points) = map no_data_found points.
Proof.
  unfold warnings. induction points as [|p points IH]; simpl;
    [reflexivity | now rewrite IH].
Qed.

Lemma quality_200 (year : Z) (df : DataFrame) :
  desfa_ng_quality_yearly year (mkResponse 200 df)
  = match collect year df entry_points
            [(Info, Text "Handling single partition.")] [] with
    | (log', inl e) => (log', raise e)
    | (log', inr dataframes) =>
        (log', dataframe <- concat_blocks dataframes ;;
               ret (OutputValue dataframe))
    end.
Proof. reflexivity. Qed.

(** When the asset returns, its warnings are those of the missing points,
    one each. *)
Lemma quality_warnings (year : Z) (df : DataFrame)
    (log : list log_record) (out : Output Block) :
  desfa_ng_quality_yearly year (mkResponse 200 df) = (log, inr out) ->
  warnings log = map no_data_found (missing_points df entry_points).
Proof.
  rewrite quality_200. intros E.
  destruct (collect year df entry_points _ []) as [log' [e|d]] eqn:Ec;
    [discriminate|].
  apply collect_log in Ec. injection E as <- _. subst log'.
  rewrite warnings_app. unfold warnings at 1. cbn [filter is_warning fst map].
  now rewrite warnings_warn.
Qed.

Lemma dict_set_fresh {V} (k : string) (v : V) (d : list (string * V)) :
  ~ In k (map fst d) -> dict_set k v d = (d ++ [(k, v)])%list.
Proof.
  induction d as [|[k' v'] d IH]; simpl; intros Hk; [reflexivity|].
  destruct (String.eqb_spec k' k) as [->|_]; [tauto|].
  rewrite IH by tauto. reflexivity.
Qed.

Lemma found_blocks_keys (year : Z) (df : DataFrame) (points : list string)
    (p : string) :
  In p (map fst (found_blocks year df points)) -> In p points.
Proof.
  unfold found_blocks. intros Hin. apply in_map_iff in Hin.
  destruct Hin as ([q b] & <- & Hq). apply in_flat_map in Hq.
  destruct Hq as (q' & Hq' & Hb).
  destruct (start_row_of df q'); [|contradiction].
  destruct (make_block year df q' z); [contradiction|].
  destruct Hb as [[= <- _]|[]]. exact Hq'.
Qed.

(** The loop over points that are distinct and not yet in the dict, when
    every block builds. *)
Lemma collect_found (year : Z) (df : DataFrame) (points : list string) :
  NoDup points -> blocks_build year df points ->
  forall log d,
    (forall p, In p points -> ~ In p (map fst d)) ->
    collect year df points log d
    = ((log ++ map warn (missing_points df points))%list,
       inr (d ++ found_blocks year df points)%list).
Proof.
  unfold missing_points, found_blocks.
  induction points as [|p points IH]; intros Hnd Hbuild log d Hfresh.
  - simpl. now rewrite !app_nil_r.
  - inversion Hnd as [|x xs Hp Hnd']; subst.
    assert (Hbuild' : blocks_build year df points).
    { intros q s Hq. apply Hbuild. now right. }
    cbn [collect filter flat_map].
    destruct (start_row_of df p) as [s|] eqn:Es.
    + destruct (Hbuild p s (or_introl eq_refl) Es) as [b Eb]. rewrite Eb.
      rewrite dict_set_fresh by (apply Hfresh; now left).
      rewrite IH; auto.
      * now rewrite <- app_assoc.
      * intros q Hq Hin. rewrite map_app in Hin. apply in_app_or in Hin.
        destruct Hin as [Hin|[<-|[]]]; [|contradiction].
        apply (Hfresh q); [now right | exact Hin].
    + rewrite IH; auto.
      * now rewrite <- app_assoc.
      * intros q Hq. apply Hfresh. now right.
Qed.

(** X7.  When a marker is found and every block builds, the asset returns the
    blocks of the points that were found, and has warned once for each
    point that was not. *)
Lemma quality_returns_found (year : Z) (df : DataFrame) :
  blocks_build year df entry_points ->
  found_blocks year df entry_points <> [] ->
  desfa_ng_quality_yearly year (mkResponse 200 df)
  = ((Info, Text "Handling single partition.")
       :: map warn (missing_points df entry_points),
     inr (OutputValue
            (List.concat (map snd (found_blocks year df entry_points))))).
Proof.
  intros Hbuild Hne. rewrite quality_200.
  rewrite (collect_found year df entry_points); auto.
  - cbn [app]. destruct (found_blocks year df entry_points) as [|pb l];
      [contradiction|]. unfold concat_blocks, bind, ret. reflexivity.
  - unfold entry_points.
    repeat (constructor; [simpl; intuition discriminate|]). constructor.
Qed.

End QualityFacts.

(** C6.  On a sheet that holds none of the four markers the asset logs
    its four warnings, one for each point, and then ends with the
    [ValueError] of [pd.concat] on no blocks: no result is returned. *)
Theorem all_markers_missing_raises `{PandasLib} (current_year : Z)
    (full_df : DataFrame) :
  (forall p, In p Quality.entry_points ->
             Quality.start_row_of full_df p = None) ->
  Quality.desfa_ng_quality_yearly current_year (mkResponse 200 full_df)
  = ((Info, Text "Handling single partition.")
       :: map warn Quality.entry_points,
     inl Py.ValueError).
Proof.
  intros Hmiss. rewrite quality_200.
  now rewrite (collect_all_missing current_year _ _ Hmiss).
Qed.

Lemma all_markers_missing_raises_witness :
  (forall p, In p Quality.entry_points ->
             @Quality.start_row_of Sample.pandas
               SampleQuality.unmarked_sheet p = None)
  /\ @Quality.desfa_ng_quality_yearly Sample.pandas 2009
       (mkResponse 200 SampleQuality.unmarked_sheet)
     = ((Info, Text "Handling single partition.")
          :: map warn Quality.entry_points,
        inl Py.ValueError).
Proof.
  assert (Hmiss : forall p, In p Quality.entry_points ->
                    @Quality.start_row_of Sample.pandas
                      SampleQuality.unmarked_sheet p = None).
  { intros p [<-|[<-|[<-|[<-|[]]]]]; vm_compute; reflexivity. }
  split; [exact Hmiss|].
  exact (@all_markers_missing_raises Sample.pandas 2009
           SampleQuality.unmarked_sheet Hmiss).
Defined.

Section BlockFacts.
Import Py Quality.
Context `{PandasLib}.


Lemma nth_set_nth {A} (l : list A) :
  forall j k v d,
    nth k (set_nth j v l) d
    = if ((k =? j) && (j <? List.length l))%nat then v else nth k l d.
Proof.
  induction l as [|a l IH]; intros j k v d.
  - replace (j <? List.length (@nil A))%nat with false by (now destruct j).
    rewrite andb_false_r. now destruct j, k.
  - destruct j as [|j], k as [|k]; simpl; try reflexivity.
    rewrite IH. reflexivity.
Qed.




Lemma nth_map_dash (l : list cell) (j : nat) :
  nth j (map replace_dash_with_nan l) CNaN
  = replace_dash_with_nan (nth j l CNaN).
Proof. exact (map_nth replace_dash_with_nan l CNaN j). Qed.





End BlockFacts.


(** ** The sub-windows of a partition *)

Section DateRange.
Import Py Entsog EntsogSpec.


Lemma date_range_empty (start end_ stride : Z) :
  (0 < stride)%Z -> (end_ < start)%Z -> date_range start end_ stride = [].
Proof.
  intros Hs Hlt. unfold date_range, arange.
  set (n := ((end_ - start) / stride)%Z).
  assert (Hn : (n < 0)%Z) by (apply Z.div_lt_upper_bound; lia).
  replace (start + n * stride + stride / 2 + 1 - start + stride - 1)%Z
    with ((stride / 2 + stride) + n * stride)%Z by lia.
  rewrite Z.div_add by lia.
  assert (H1 : ((stride / 2 + stride) / stride = 1)%Z).
  { symmetry. apply (Z.div_unique_pos _ _ 1 (stride / 2)); [|lia].
    split; [apply Z.div_pos; lia | apply Z.div_lt_upper_bound; lia]. }
  rewrite H1. replace (Z.to_nat (1 + n)) with 0%nat by lia. reflexivity.
Qed.

Lemma two_days : Timedelta_days 2 = (Timedelta_days 1 + Timedelta_days 1)%Z.
Proof. reflexivity. Qed.

Lemma one_day_pos : (0 < Timedelta_days 1)%Z.
Proof. reflexivity. Qed.

End DateRange.


(** ** The windowed assets *)

Section WindowedFacts.
Import Py Entsog EntsogSpec.
Context `{Helpers}.

(** The loop adds no warning to the log. *)
Lemma fetch_all_warnings (indicator : string) (days : list Z) :
  forall log acc log' r,
    fetch_all indicator days log acc = (log', r) ->
    warnings log' = warnings log.
Proof.
  induction days as [|day days IH]; simpl; intros log acc log' r E.
  - now injection E as <- _.
  - destruct (entsog_api_call_with_retries _ _ _ _) as [e|[|row data]].
    + now injection E as <- _.
    + now apply IH in E.
    + assert (Hw : warnings
                     (log ++ [(Info, FetchedData day (day + Timedelta_days 1))])
                   = warnings log).
      { unfold warnings. rewrite filter_app. simpl. now rewrite app_nil_r. }
      destruct (process (row :: data)) as [e|t].
      * injection E as <- _. exact Hw.
      * apply IH in E. now rewrite E.
Qed.

(** The tables of the loop, given what the API answers for each span and
    what the processing makes of the answers that have rows. *)
Lemma fetch_all_tables (indicator : string) (days : list Z) :
  forall raws tables log acc,
    Forall2 (fetched indicator) days raws ->
    mapM process (filter has_rows raws) = inr tables ->
    snd (fetch_all indicator days log acc) = inr (acc ++ tables)%list.
Proof.
  unfold fetched.
  induction days as [|day days IH]; intros raws tables log acc Hf Hp;
    inversion Hf as [|d raw ds raws' Hd Hrest]; subst; simpl in *.
  - injection Hp as <-. now rewrite app_nil_r.
  - rewrite Hd. destruct raw as [|row data]; simpl in Hp.
    + now apply (IH raws').
    + unfold bind in Hp. destruct (process (row :: data)) as [|t];
        [discriminate|].
      destruct (mapM process (filter has_rows raws')) as [|ts] eqn:Ets;
        [discriminate|].
      injection Hp as <-. rewrite (IH raws' ts) by auto.
      now rewrite <- app_assoc.
Qed.

Lemma fetch_all_no_data (indicator : string) (days : list Z) :
  forall raws log acc,
    Forall2 (fetched indicator) days raws ->
    Forall (fun raw => raw = []) raws ->
    fetch_all indicator days log acc = (log, inr acc).
Proof.
  unfold fetched.
  induction days as [|day days IH]; intros raws log acc Hf He;
    inversion Hf as [|d raw ds raws' Hd Hrest]; subst; cbn [fetch_all].
  - reflexivity.
  - inversion He as [|x xs Hx Hxs]; subst. rewrite Hd. now apply (IH raws').
Qed.

(** What leaves [process] has a value. *)
Lemma process_has_value (data : RawTable) (t : LongTable) :
  process data = inr t -> Forall has_value t.
Proof.
  unfold process, bind. intros E.
  destruct (mapM rename_and_parse _) as [|rows]; [discriminate|].
  injection E as <-. apply Forall_forall. intros r Hr.
  apply filter_In in Hr. destruct Hr as [Hr Hna].
  apply filter_In in Hr. destruct Hr as [_ Hne].
  unfold has_value, notna, not_empty_string in *.
  destruct (value r) as [s| |]; split; try discriminate.
  intros [= ->]. discriminate.
Qed.

Lemma fetch_all_has_value (indicator : string) (days : list Z) :
  forall log acc log' ts,
    fetch_all indicator days log acc = (log', inr ts) ->
    Forall (Forall has_value) acc -> Forall (Forall has_value) ts.
Proof.
  induction days as [|day days IH]; simpl; intros log acc log' ts E Hacc.
  - now injection E as _ <-.
  - destruct (entsog_api_call_with_retries _ _ _ _) as [e|[|row data]];
      [discriminate | eauto |].
    destruct (process (row :: data)) as [e|t] eqn:Ep; [discriminate|].
    apply IH in E; [exact E|]. apply Forall_app. split; [exact Hacc|].
    constructor; [|constructor]. eapply process_has_value; eassumption.
Qed.

(** The asset in the terms of its loop. *)
Lemma windowed_asset_inr (indicator : string) (start end_ : Z)
    (log : list log_record) (out : Output (option LongTable)) :
  windowed_asset indicator start end_ = (log, inr out) ->
  exists log0 bidaily,
    fetch_all indicator (date_range start end_ (Timedelta_days 2))
      [(Info, HandlingPartition start end_)] [] = (log0, inr bidaily)
    /\ ((bidaily = [] /\ out = OutputValue None /\ log = log0)
        \/ (bidaily <> [] /\ out = OutputValue (Some (List.concat bidaily))
            /\ log = if is_unique (List.concat bidaily) then log0
                     else (log0 ++ [(Warning,
                             FoundDuplicates
                               (filter (duplicated (List.concat bidaily))
                                       (List.concat bidaily)))])%list)).
Proof.
  unfold windowed_asset. intros E.
  destruct (fetch_all _ _ _ _) as [log0 [e|bidaily]]; [discriminate|].
  exists log0, bidaily. split; [reflexivity|].
  destruct bidaily as [|t ts].
  - left. injection E as <- <-. auto.
  - right. injection E as <- <-. split; [discriminate|]. split; [reflexivity|].
    now destruct (is_unique _).
Qed.

End WindowedFacts.

(** C4.  Let the API answer every sub-window request of a partition, and
    let the processing of the answers that have rows go through.  If no
    answer has rows, the asset logs its opening record only and returns
    [Output(value=None)], neither an exception nor a table; if some
    answer has rows, it returns the concatenation, in order, of the
    processed tables of the answers that have rows.  The four assets are
    this one at their indicator. *)
Theorem empty_window_or_concatenation `{Entsog.Helpers} (indicator : string)
    (start end_ : Z) (raws : list Entsog.RawTable)
    (tables : list LongTable) :
  Forall2 (EntsogSpec.fetched indicator)
          (Entsog.date_range start end_ (Entsog.Timedelta_days 2)) raws ->
  Py.mapM Entsog.process (filter EntsogSpec.has_rows raws) = inr tables ->
  (Forall (fun raw => raw = []) raws ->
   Entsog.windowed_asset indicator start end_
   = ([(Info, HandlingPartition start end_)], inr (OutputValue None)))
  /\ (Exists (fun raw => raw <> []) raws ->
      snd (Entsog.windowed_asset indicator start end_)
      = inr (OutputValue (Some (List.concat tables)))
      /\ List.length tables
         = List.length (filter EntsogSpec.has_rows raws)).
Proof.
  intros Hf Hp. split.
  - intros He. unfold Entsog.windowed_asset.
    now rewrite (fetch_all_no_data indicator _ raws _ _ Hf He).
  - intros Hex.
    assert (Hlen := mapM_length _ _ _ Hp).
    assert (Hne : tables <> []).
    { intros ->. simpl in Hlen. apply Exists_exists in Hex.
      destruct Hex as (raw & Hin & Hraw).
      assert (Hin' : In raw (filter EntsogSpec.has_rows raws)).
      { apply filter_In. split; [exact Hin|]. now destruct raw. }
      destruct (filter EntsogSpec.has_rows raws); [contradiction|discriminate]. }
    split; [|exact Hlen].
    assert (Ht := fetch_all_tables indicator _ raws tables
                    [(Info, HandlingPartition start end_)] [] Hf Hp).
    unfold Entsog.windowed_asset.
    destruct (Entsog.fetch_all _ _ _ _) as [log0 r]. simpl in Ht. subst r.
    destruct tables; [contradiction|]. reflexivity.
Qed.

(** C9.  Every row of the table an asset returns has a value that is
    neither the empty string nor null: the rows without one are dropped
    from each sub-window table before it is appended. *)
Theorem returned_rows_have_value `{Entsog.Helpers} (indicator : string)
    (start end_ : Z) (log : list log_record) (complete_data : LongTable) :
  Entsog.windowed_asset indicator start end_
  = (log, inr (OutputValue (Some complete_data))) ->
  Forall EntsogSpec.has_value complete_data.
Proof.
  intros E. apply windowed_asset_inr in E.
  destruct E as (log0 & bidaily & Ef & [(_ & [=] & _) | (_ & [= ->] & _)]).
  apply fetch_all_has_value in Ef; [|constructor].
  apply Forall_forall. intros r Hr. apply in_concat in Hr.
  destruct Hr as (t & Ht & Hr). rewrite Forall_forall in Ef.
  specialize (Ef t Ht). rewrite Forall_forall in Ef. auto.
Qed.

(** C3.  When an asset returns a table, the table is the concatenation of
    the sub-window tables as they were appended, and the log holds no
    warning if the key of the table is unique and otherwise exactly one,
    which carries every row whose key occurs more than once; those rows
    are all still in the returned table. *)
Theorem duplicates_warned_not_removed `{Entsog.Helpers} (indicator : string)
    (start end_ : Z) (log : list log_record) (complete_data : LongTable) :
  Entsog.windowed_asset indicator start end_
  = (log, inr (OutputValue (Some complete_data))) ->
  (exists log0 bidaily_data,
      Entsog.fetch_all indicator
        (Entsog.date_range start end_ (Entsog.Timedelta_days 2))
        [(Info, HandlingPartition start end_)] [] = (log0, inr bidaily_data)
      /\ complete_data = List.concat bidaily_data)
  /\ warnings log
     = (if Entsog.is_unique complete_data then []
        else [FoundDuplicates
                (filter (Entsog.duplicated complete_data) complete_data)])
  /\ forall r, In r complete_data ->
               (1 < Entsog.occurrences (key r) complete_data)%nat ->
               In r (filter (Entsog.duplicated complete_data) complete_data).
Proof.
  intros E. apply windowed_asset_inr in E.
  destruct E as (log0 & bidaily & Ef & [(_ & [=] & _) | (_ & [= ->] & ->)]).
  split; [now exists log0, bidaily|]. split.
  - assert (Hw := fetch_all_warnings _ _ _ _ _ _ Ef).
    destruct (Entsog.is_unique _); [exact Hw|].
    rewrite warnings_app, Hw. reflexivity.
  - intros r Hr Hocc. apply filter_In. split; [exact Hr|].
    unfold Entsog.duplicated. now apply Nat.ltb_lt.
Qed.

(** The days of a sample partition, computed. *)
Ltac compute_days :=
  match goal with
  | |- context [Entsog.date_range ?a ?b ?c] =>
      let l := eval vm_compute in (Entsog.date_range a b c) in
      change (Entsog.date_range a b c) with l
  end.

Lemma sample_answers :
  Forall2 (@EntsogSpec.fetched (SampleEntsog.helpers true true) "physical_flow")
          (Entsog.date_range (SampleEntsog.june 1) (SampleEntsog.june 3)
                             (Entsog.Timedelta_days 2))
          SampleEntsog.answers.
Proof.
  compute_days. unfold SampleEntsog.answers.
  repeat (constructor; [unfold EntsogSpec.fetched; vm_compute; reflexivity|]).
  constructor.
Defined.

Lemma sample_run :
  @Entsog.windowed_asset (SampleEntsog.helpers true true) "physical_flow"
    (SampleEntsog.june 1) (SampleEntsog.june 3)
  = ((SampleEntsog.opening_log
        ++ [(Warning,
             FoundDuplicates [SampleEntsog.long 2 (CNum (20 # 1));
                              SampleEntsog.long 2 (CNum (21 # 1))])])%list,
     inr (OutputValue (Some (List.concat SampleEntsog.tables)))).
Proof. vm_compute. reflexivity. Defined.

Lemma empty_window_or_concatenation_witness :
  Forall2 (@EntsogSpec.fetched (SampleEntsog.helpers true true) "physical_flow")
          (Entsog.date_range (SampleEntsog.june 1) (SampleEntsog.june 3)
                             (Entsog.Timedelta_days 2))
          SampleEntsog.answers
  /\ Py.mapM (@Entsog.process (SampleEntsog.helpers true true))
             (filter EntsogSpec.has_rows SampleEntsog.answers)
     = inr SampleEntsog.tables
  /\ snd (@Entsog.windowed_asset (SampleEntsog.helpers true true)
            "physical_flow" (SampleEntsog.june 1) (SampleEntsog.june 3))
     = inr (OutputValue (Some (List.concat SampleEntsog.tables))).
Proof.
  assert (Hp : Py.mapM (@Entsog.process (SampleEntsog.helpers true true))
                 (filter EntsogSpec.has_rows SampleEntsog.answers)
               = inr SampleEntsog.tables) by (vm_compute; reflexivity).
  split; [exact sample_answers|]. split; [exact Hp|].
  apply (@empty_window_or_concatenation (SampleEntsog.helpers true true)
           "physical_flow" _ _ _ _ sample_answers Hp).
  apply Exists_cons_hd. discriminate.
Defined.

Lemma returned_rows_have_value_witness :
  @Entsog.windowed_asset (SampleEntsog.helpers true true) "physical_flow"
    (SampleEntsog.june 1) (SampleEntsog.june 3)
  = ((SampleEntsog.opening_log
        ++ [(Warning,
             FoundDuplicates [SampleEntsog.long 2 (CNum (20 # 1));
                              SampleEntsog.long 2 (CNum (21 # 1))])])%list,
     inr (OutputValue (Some (List.concat SampleEntsog.tables))))
  /\ Forall EntsogSpec.has_value (List.concat SampleEntsog.tables).
Proof.
  split; [exact sample_run|].
  exact (@returned_rows_have_value (SampleEntsog.helpers true true)
           "physical_flow" _ _ _ _ sample_run).
Defined.

Lemma duplicates_warned_not_removed_witness :
  @Entsog.windowed_asset (SampleEntsog.helpers true true) "physical_flow"
    (SampleEntsog.june 1) (SampleEntsog.june 3)
  = ((SampleEntsog.opening_log
        ++ [(Warning,
             FoundDuplicates [SampleEntsog.long 2 (CNum (20 # 1));
                              SampleEntsog.long 2 (CNum (21 # 1))])])%list,
     inr (OutputValue (Some (List.concat SampleEntsog.tables))))
  /\ warnings
    (SampleEntsog.opening_log
       ++ [(Warning,
            FoundDuplicates [SampleEntsog.long 2 (CNum (20 # 1));
                             SampleEntsog.long 2 (CNum (21 # 1))])])
  = (if Entsog.is_unique (List.concat SampleEntsog.tables) then []
     else [FoundDuplicates
             (filter (Entsog.duplicated (List.concat SampleEntsog.tables))
                     (List.concat SampleEntsog.tables))]).
Proof.
  split; [exact sample_run|].
  exact (proj1 (proj2 (@duplicates_warned_not_removed
                         (SampleEntsog.helpers true true)
                         "physical_flow" _ _ _ _ sample_run))).
Defined.

(** ** The key of a table and the requests of an asset *)

Section KeyFacts.
Import Py Entsog EntsogSpec.

Lemma timestamp_eqb_eq (a b : Timestamp) : timestamp_eqb a b = true <-> a = b.
Proof.
  destruct a as [x|], b as [y|]; simpl; split; try discriminate;
    try reflexivity.
  - intros E. apply Z.eqb_eq in E. now subst.
  - intros [= ->]. apply Z.eqb_refl.
Qed.

Lemma key_eqb_eq (a b : Timestamp * string * string) :
  key_eqb a b = true <-> a = b.
Proof.
  destruct a as [[t1 p1] d1], b as [[t2 p2] d2]. unfold key_eqb.
  rewrite !andb_true_iff, timestamp_eqb_eq, !String.eqb_eq.
  split; [intros [[-> ->] ->]; reflexivity | intros [= -> -> ->]; auto].
Qed.

Lemma key_dec (a b : Timestamp * string * string) : {a = b} + {a <> b}.
Proof.
  destruct (key_eqb a b) eqn:E.
  - left. now apply key_eqb_eq.
  - right. intros Hab. apply key_eqb_eq in Hab. congruence.
Defined.

Lemma occurrences_count (k : Timestamp * string * string) (t : LongTable) :
  occurrences k t = count_occ key_dec (map key t) k.
Proof.
  unfold occurrences. induction t as [|r t IH]; simpl; [reflexivity|].
  destruct (key_dec (key r) k) as [E|E].
  - subst k. rewrite (proj2 (key_eqb_eq _ _) eq_refl). simpl.
    f_equal. exact IH.
  - destruct (key_eqb k (key r)) eqn:Ek; [|exact IH].
    apply key_eqb_eq in Ek. congruence.
Qed.

(** [is_unique] says that no key occurs twice. *)
Lemma is_unique_NoDup (t : LongTable) :
  is_unique t = true <-> NoDup (map key t).
Proof.
  unfold is_unique, duplicated. rewrite forallb_forall, NoDup_count_occ.
  split.
  - intros Hall k.
    destruct (in_dec key_dec k (map key t)) as [Hin|Hout].
    + apply in_map_iff in Hin. destruct Hin as (r & <- & Hr).
      specialize (Hall r Hr). rewrite <- occurrences_count.
      apply negb_true_iff, Nat.ltb_ge in Hall. exact Hall.
    + apply (count_occ_not_In key_dec) in Hout. rewrite Hout. lia.
  - intros Hcount r _. rewrite occurrences_count.
    apply negb_true_iff, Nat.ltb_ge. apply Hcount.
Qed.

(** The loop reads the API at the spans of its days and nowhere else. *)
Lemma fetch_all_only_spans (h : Helpers)
    (api : Z -> Z -> list string -> list string -> result RawTable)
    (indicator : string) (days : list Z) :
  (forall day, In day days ->
     api day (day + Timedelta_days 1)%Z [indicator]
         (@greek_operator_point_directions h)
     = @entsog_api_call_with_retries h day (day + Timedelta_days 1)%Z
         [indicator] (@greek_operator_point_directions h)) ->
  forall log acc,
    @fetch_all (with_api h api) indicator days log acc
    = @fetch_all h indicator days log acc.
Proof.
  induction days as [|day days IH]; intros Hagree log acc; [reflexivity|].
  cbn [fetch_all]. change (@entsog_api_call_with_retries (with_api h api))
    with api.
  change (@greek_operator_point_directions (with_api h api))
    with (@greek_operator_point_directions h).
  rewrite (Hagree day) by now left.
  destruct (entsog_api_call_with_retries _ _ _ _) as [e|[|row data]];
    [reflexivity | apply IH; intros; apply Hagree; now right |].
  change (@process (with_api h api) (row :: data))
    with (@process h (row :: data)).
  destruct (process (row :: data)); [reflexivity|].
  apply IH. intros. apply Hagree. now right.
Qed.

(** X11.  An asset reads the API at the spans of its partition and
    nowhere else: with another API call that agrees with the one of the
    helpers on those spans, the run is the same, log and result. *)
Lemma windowed_asset_only_spans (h : Helpers)
    (api : Z -> Z -> list string -> list string -> result RawTable)
    (indicator : string) (start end_ : Z) :
  (forall span, In span (request_spans start end_) ->
     api (fst span) (snd span) [indicator] (@greek_operator_point_directions h)
     = @entsog_api_call_with_retries h (fst span) (snd span) [indicator]
         (@greek_operator_point_directions h)) ->
  @windowed_asset (with_api h api) indicator start end_
  = @windowed_asset h indicator start end_.
Proof.
  intros Hagree. unfold windowed_asset.
  rewrite fetch_all_only_spans; [reflexivity|].
  intros day Hday.
  apply (Hagree (day, (day + Timedelta_days 1)%Z)).
  unfold request_spans. apply in_map_iff. now exists day.
Qed.

End KeyFacts.

(** ** Splitting a partition *)

Section SplitFacts.
Import Py Entsog EntsogSpec.
Context `{Helpers}.

Lemma mapM_app {A B} (f : A -> result B) (a b : list A) (w : list B) :
  mapM f (a ++ b)%list = inr w ->
  exists ta tb, mapM f a = inr ta /\ mapM f b = inr tb /\ w = (ta ++ tb)%list.
Proof.
  revert w. induction a as [|x a IH]; simpl; intros w E.
  - exists [], w. auto.
  - unfold bind in *. destruct (f x) as [|y]; [discriminate|].
    destruct (mapM f (a ++ b)%list) as [|ys] eqn:Eab; [discriminate|].
    injection E as <-. destruct (IH ys eq_refl) as (ta & tb & -> & -> & ->).
    exists (y :: ta), tb. auto.
Qed.

Hypothesis label_rowwise : rowwise label_potential_duplicates_with_tso.
Hypothesis sanitize_rowwise : rowwise sanitize_df.

Lemma process_nil : process [] = inr [].
Proof.
  destruct label_rowwise as [g Hg], sanitize_rowwise as [s Hs].
  unfold process. rewrite Hg. simpl. now rewrite Hs.
Qed.

(** With helpers that work row by row, processing goes through a
    concatenation. *)
Lemma process_app (a b : RawTable) (w : LongTable) :
  process (a ++ b)%list = inr w ->
  exists ta tb, process a = inr ta /\ process b = inr tb
                /\ w = (ta ++ tb)%list.
Proof.
  destruct label_rowwise as [g Hg], sanitize_rowwise as [s Hs].
  unfold process. rewrite !Hg, map_app. unfold bind. intros E.
  destruct (mapM rename_and_parse (map g a ++ map g b)%list) as [|rows] eqn:Em;
    [discriminate|].
  destruct (mapM_app _ _ _ _ Em) as (ra & rb & -> & -> & ->).
  injection E as <-. rewrite !Hs, map_app, !filter_app. eauto.
Qed.

Lemma process_concat (raws : list RawTable) :
  forall whole,
    process (List.concat raws) = inr whole ->
    exists tables,
      mapM process (filter has_rows raws) = inr tables
      /\ List.concat tables = whole.
Proof.
  induction raws as [|raw raws IH]; simpl; intros whole E.
  - rewrite process_nil in E. injection E as <-. now exists [].
  - destruct (process_app _ _ _ E) as (ta & tb & Ea & Eb & ->).
    destruct (IH tb Eb) as (tables & Et & <-).
    destruct raw as [|row data]; simpl.
    + rewrite process_nil in Ea. injection Ea as <-. now exists tables.
    + unfold bind. rewrite Ea, Et. now exists (ta :: tables).
Qed.

Lemma has_rows_tables (raws : list RawTable) (tables : list LongTable) :
  mapM process (filter has_rows raws) = inr tables ->
  existsb has_rows raws = false -> tables = [].
Proof.
  intros Et Hnone.
  assert (Hf : filter has_rows raws = []).
  { clear Et. induction raws as [|raw raws IH]; [reflexivity|].
    simpl in Hnone. apply orb_false_iff in Hnone.
    destruct Hnone as [Hraw Hrest]. simpl. rewrite Hraw. now apply IH. }
  rewrite Hf in Et. now injection Et as <-.
Qed.

Lemma has_rows_some (raws : list RawTable) (tables : list LongTable) :
  mapM process (filter has_rows raws) = inr tables ->
  existsb has_rows raws = true -> tables <> [].
Proof.
  intros Et Hsome ->. apply mapM_length in Et. simpl in Et.
  apply existsb_exists in Hsome. destruct Hsome as (raw & Hin & Hraw).
  assert (Hin' : In raw (filter has_rows raws)) by now apply filter_In.
  destruct (filter has_rows raws); [contradiction | discriminate].
Qed.

End SplitFacts.

(** With labelling and sanitising helpers that work row by row, the
    table an asset returns for a partition is the reshaping of the
    concatenation of what the API answered for the sub-window requests. *)
Theorem split_is_reshape_of_concatenation `{Entsog.Helpers}
    (indicator : string) (start end_ : Z) (raws : list Entsog.RawTable)
    (whole : LongTable) :
  EntsogSpec.rowwise Entsog.label_potential_duplicates_with_tso ->
  EntsogSpec.rowwise Entsog.sanitize_df ->
  Forall2 (EntsogSpec.fetched indicator)
          (Entsog.date_range start end_ (Entsog.Timedelta_days 2)) raws ->
  Entsog.process (List.concat raws) = inr whole ->
  snd (Entsog.windowed_asset indicator start end_)
  = inr (OutputValue
           (if existsb EntsogSpec.has_rows raws then Some whole else None)).
Proof.
  intros Hl Hs Hf Hw.
  destruct (process_concat Hl Hs raws whole Hw) as (tables & Et & <-).
  assert (Ht := fetch_all_tables indicator _ raws tables
                  [(Info, HandlingPartition start end_)] [] Hf Et).
  unfold Entsog.windowed_asset.
  destruct (Entsog.fetch_all _ _ _ _) as [log0 r]. simpl in Ht. subst r.
  destruct (existsb EntsogSpec.has_rows raws) eqn:Ex.
  - assert (Hne := has_rows_some raws tables Et Ex).
    destruct tables; [contradiction | reflexivity].
  - now rewrite (has_rows_tables raws tables Et Ex).
Qed.

Lemma sample_rowwise (cf ct : bool) :
  EntsogSpec.rowwise
    (@Entsog.label_potential_duplicates_with_tso (SampleEntsog.helpers cf ct))
  /\ EntsogSpec.rowwise (@Entsog.sanitize_df (SampleEntsog.helpers cf ct)).
Proof.
  split.
  - exists SampleEntsog.label_row. reflexivity.
  - exists (fun r => r). intros t. simpl. now rewrite map_id.
Defined.

Lemma split_is_reshape_of_concatenation_witness :
  Forall2 (@EntsogSpec.fetched (SampleEntsog.helpers true true) "physical_flow")
          (Entsog.date_range (SampleEntsog.june 1) (SampleEntsog.june 3)
                             (Entsog.Timedelta_days 2))
          SampleEntsog.answers
  /\ @Entsog.process (SampleEntsog.helpers true true)
       (List.concat SampleEntsog.answers)
     = inr (List.concat SampleEntsog.tables)
  /\ snd (@Entsog.windowed_asset (SampleEntsog.helpers true true)
            "physical_flow" (SampleEntsog.june 1) (SampleEntsog.june 3))
     = inr (OutputValue (Some (List.concat SampleEntsog.tables))).
Proof.
  assert (Hw : @Entsog.process (SampleEntsog.helpers true true)
                 (List.concat SampleEntsog.answers)
               = inr (List.concat SampleEntsog.tables))
    by (vm_compute; reflexivity).
  split; [exact sample_answers|]. split; [exact Hw|].
  exact (@split_is_reshape_of_concatenation (SampleEntsog.helpers true true)
           "physical_flow" _ _ _ _
           (proj1 (sample_rowwise true true))
           (proj2 (sample_rowwise true true)) sample_answers Hw).
Defined.

(** C8 on the monthly partition of June 2020, from the first of June to
    the first of July.  [pd.date_range] includes the end of the window,
    so the loop asks for the first to the second of June, the third to
    the fourth, ..., and the first to the second of July, a span past the
    end of the partition.  Over a store with observations on the first
    four days of June and on the second of July, whichever bounds of a
    window belong to it, the table of the asset is not the reshaping of
    the one query over the partition. *)
Theorem split_differs_from_unsplit :
  In (SampleEntsog.july_first,
      (SampleEntsog.july_first + Entsog.Timedelta_days 1)%Z)
     (EntsogSpec.request_spans (SampleEntsog.june 1) SampleEntsog.july_first)
  /\ snd (@Entsog.windowed_asset (SampleEntsog.helpers true true)
            "physical_flow" (SampleEntsog.june 1) SampleEntsog.july_first)
     <> @EntsogSpec.unsplit_asset (SampleEntsog.helpers true true)
          "physical_flow" (SampleEntsog.june 1) SampleEntsog.july_first
  /\ snd (@Entsog.windowed_asset (SampleEntsog.helpers true false)
            "physical_flow" (SampleEntsog.june 1) SampleEntsog.july_first)
     <> @EntsogSpec.unsplit_asset (SampleEntsog.helpers true false)
          "physical_flow" (SampleEntsog.june 1) SampleEntsog.july_first
  /\ snd (@Entsog.windowed_asset (SampleEntsog.helpers false true)
            "physical_flow" (SampleEntsog.june 1) SampleEntsog.july_first)
     <> @EntsogSpec.unsplit_asset (SampleEntsog.helpers false true)
          "physical_flow" (SampleEntsog.june 1) SampleEntsog.july_first
  /\ snd (@Entsog.windowed_asset (SampleEntsog.helpers false false)
            "physical_flow" (SampleEntsog.june 1) SampleEntsog.july_first)
     <> @EntsogSpec.unsplit_asset (SampleEntsog.helpers false false)
          "physical_flow" (SampleEntsog.june 1) SampleEntsog.july_first.
Proof.
  split.
  - unfold EntsogSpec.request_spans. apply in_map_iff.
    exists SampleEntsog.july_first. split; [reflexivity|].
    compute_days. vm_compute. do 15 right. left. reflexivity.
  - repeat split; intros E; vm_compute in E; discriminate E.
Qed.

(** The two tables when both bounds of a window belong to it: the asset
    has the observation of the second of July, the one query has not. *)
Example split_and_unsplit_closed :
  snd (@Entsog.windowed_asset (SampleEntsog.helpers true true)
         "physical_flow" (SampleEntsog.june 1) SampleEntsog.july_first)
  = inr (OutputValue
           (Some [SampleEntsog.long 1 (CNum (10 # 1));
                  SampleEntsog.long 2 (CNum (20 # 1));
                  SampleEntsog.long 2 (CNum (21 # 1));
                  SampleEntsog.long 4 (CNum (40 # 1));
                  SampleEntsog.long 32 (CNum (50 # 1))]))
  /\ @EntsogSpec.unsplit_asset (SampleEntsog.helpers true true)
       "physical_flow" (SampleEntsog.june 1) SampleEntsog.july_first
     = inr (OutputValue
              (Some [SampleEntsog.long 1 (CNum (10 # 1));
                     SampleEntsog.long 2 (CNum (20 # 1));
                     SampleEntsog.long 2 (CNum (21 # 1));
                     SampleEntsog.long 4 (CNum (40 # 1))])).
Proof. split; vm_compute; reflexivity. Qed.

(** ** The sample sheets, run *)

Example sample_quality_output :
  @Quality.desfa_ng_quality_yearly Sample.pandas 2009
    (mkResponse 200 SampleQuality.quality_sheet)
  = ([(Info, Text "Handling single partition.");
      warn "KIPI"; warn "NEA MESIMVRIA"],
     inr (OutputValue (SampleQuality.agia_triada_block
                         ++ SampleQuality.sidirokastro_block)%list)).
Proof. vm_compute. reflexivity. Qed.

Lemma sample_block :
  @Quality.make_block Sample.pandas 2009 SampleQuality.quality_sheet
    "AGIA TRIADA" 3
  = inr SampleQuality.agia_triada_block.
Proof. vm_compute. reflexivity. Defined.




(** C2 on the flows sheet.  The sample sheet holds the dash in the
    NEA MESIMVRIA column of 2008; [desfa_flows_daily] returns that cell
    as the text "-", where [desfa_ng_gcv_daily] returns the missing
    value for the dashes of its sheet. *)
Theorem flows_keeps_dash :
  nth 4 (nth 4 (rows Sample.flows_sheet) []) CNaN = CStr "-"
  /\ (exists out,
        @Desfa.desfa_flows_daily Sample.pandas
          (mkResponse 200 Sample.flows_sheet) = inr (OutputValue out)
        /\ In (mkLong (Some (Sample.year_start 2008)) "NEA MESIMVRIA" "entry"
                      (CStr "-")) out)
  /\ (exists out,
        @Desfa.desfa_ng_gcv_daily Sample.pandas
          (mkResponse 200 Sample.gcv_sheet) = inr (OutputValue out)
        /\ In (mkLong (Some (Sample.year_start 2011)) "KIPI" "entry" CNaN)
              out).
Proof.
  split; [reflexivity|]. split.
  - eexists. split; [exact sample_flows_output|].
    do 6 right. left. reflexivity.
  - eexists. split; [vm_compute; reflexivity|].
    right. left. reflexivity.
Qed.

Section DashFacts.
Import Py Desfa.
Context `{PandasLib}.

Lemma replace_dash_not_dash (c : cell) : replace_dash_with_nan c <> CStr "-".
Proof.
  destruct c as [s| |]; simpl; try discriminate.
  destruct (String.eqb_spec s "-"); [discriminate|congruence].
Qed.

(** The GCV table holds no dash in its [value] column. *)
Lemma gcv_no_dash (response : Response) (out : LongTable) :
  desfa_ng_gcv_daily response = inr (OutputValue out) ->
  Forall (fun r => value r <> CStr "-") out.
Proof.
  unfold desfa_ng_gcv_daily, bind. intros E.
  destruct (_ =? 200)%Z; [|discriminate].
  destruct (gcv_strip _) as [|d]; [discriminate|].
  destruct (wide_to_long d) as [|t]; [discriminate|].
  injection E as <-. unfold map_values. apply Forall_map.
  apply Forall_forall. intros r _. apply replace_dash_not_dash.
Qed.

(** The flows table holds the cells of the sheet as they are. *)
Lemma flows_values_untouched (d : DataFrame) (out : LongTable) :
  wide_to_long d = inr out ->
  Forall (fun r => exists row j, In row (tl (rows d))
                                 /\ value r = nth j (tl row) CNaN) out.
Proof.
  unfold wide_to_long, bind. intros E.
  destruct (first_row_tail d) as [|h]; [discriminate|].
  destruct (suffix_headers h) as [|nh]; [discriminate|].
  destruct (set_columns ("timestamp" :: nh) d) as [|d1] eqn:Ed1;
    [discriminate|].
  destruct (parse_timestamps (drop_header_row d1)) as [|trows] eqn:Et;
    [discriminate|].
  injection E as <-.
  unfold set_columns in Ed1.
  destruct (_ =? _)%nat in Ed1; [|discriminate]. injection Ed1 as <-.
  assert (Hrows := parse_timestamps_In _ _ Et). simpl in Hrows.
  apply Forall_map. apply Forall_forall. intros [[t p] v] Hin.
  apply melt_In in Hin. destruct Hin as (j & tr & _ & Htr & _ & ->).
  apply Hrows in Htr. destruct Htr as (row & Hrow & _ & ->).
  exists row, j. auto.
Qed.

End DashFacts.

Section QualityDashFacts.
Import Py Quality.
Context `{PandasLib}.

Lemma set_column_In (j : nat) (col : list cell) (b : Block) (row : QualityRow) :
  In row (set_column j col b) ->
  exists r v, In r b /\ q_values row = set_nth j v (q_values r).
Proof.
  unfold set_column. intros Hin. apply in_map_iff in Hin.
  destruct Hin as ([r v] & <- & Hrv). apply in_combine_l in Hrv.
  now exists r, v.
Qed.

(** In a block, no value column but [hydrocarbon_dew_point_max], whose
    cells may have gone through [np.float64], holds a dash. *)
Lemma make_block_no_dash (year : Z) (df : DataFrame) (p : string) (s : Z)
    (block : Block) :
  make_block year df p s = inr block ->
  forall row j, In row block -> j <> hydrocarbon ->
                nth j (q_values row) CNaN <> CStr "-".
Proof.
  unfold make_block, bind. intros E row j Hrow Hj.
  destruct (cut_block df s _) as [|cut]; [discriminate|].
  destruct (index_block p cut) as [|b0]; [discriminate|].
  assert (Hmap : forall r, In r (block_map replace_dash_with_nan b0) ->
                           nth j (q_values r) CNaN <> CStr "-").
  { intros r Hr. unfold block_map in Hr. apply in_map_iff in Hr.
    destruct Hr as (r0 & <- & _). simpl. rewrite nth_map_dash.
    apply replace_dash_not_dash. }
  unfold clean_hydrocarbon in E.
  destruct (dtype_is_object _).
  - unfold bind in E. destruct (mapM strip_less_than _) as [|col];
      [discriminate|]. injection E as <-.
    apply set_column_In in Hrow. destruct Hrow as (r & v & Hr & ->).
    rewrite nth_set_nth.
    destruct (Nat.eqb_spec j hydrocarbon) as [->|_]; [contradiction|].
    now apply Hmap.
  - injection E as <-. now apply Hmap.
Qed.

End QualityDashFacts.

(** ** More on the wide-to-long reshaper *)

(** X1.  The tag round trip of [remove_suffix] and
    [label_point_as_entry_or_exit]: whatever the label of a point is,
    also when it ends in "_entry" or "_exit" itself, the tagged label
    gives back the type of its tag and the label. *)
Theorem suffix_tag_round_trip (x : string) :
  Desfa.label_point_as_entry_or_exit (x ++ "_entry") = "entry"
  /\ Desfa.remove_suffix (x ++ "_entry") = x
  /\ Desfa.label_point_as_entry_or_exit (x ++ "_exit") = "exit"
  /\ Desfa.remove_suffix (x ++ "_exit") = x.
Proof.
  repeat split.
  - apply label_entry.
  - apply remove_suffix_entry.
  - apply label_exit.
  - apply remove_suffix_exit.
Qed.

Section TableFacts.
Import Py Desfa DesfaSpec ReshaperSpec.
Context `{PandasLib}.

Lemma mapM_map {A B} (f : A -> result B) (g : A -> B) (l : list A) :
  forall l', mapM f l = inr l' ->
  (forall x y, In x l -> f x = inr y -> y = g x) ->
  l' = map g l.
Proof.
  induction l as [|a l IH]; simpl; intros l' E Hg.
  - now injection E as <-.
  - unfold bind in E. destruct (f a) as [|b] eqn:Ea; [discriminate|].
    destruct (mapM f l) as [|bs]; [discriminate|]. injection E as <-.
    rewrite (Hg a b) by auto. f_equal. apply IH; auto.
Qed.

Lemma combine_seq_nth {A} (l : list A) (d : A) :
  forall s, combine (seq s (List.length l)) l
            = map (fun j => (j, nth (j - s) l d)) (seq s (List.length l)).
Proof.
  induction l as [|a l IH]; intros s; [reflexivity|].
  cbn [List.length seq combine map]. rewrite Nat.sub_diag. f_equal.
  rewrite IH. apply map_ext_in. intros j Hj. apply in_seq in Hj.
  replace (j - s)%nat with (S (j - S s)) by lia. reflexivity.
Qed.

Lemma label_and_strip_tagged (t : Timestamp) (x : string) (j : nat)
    (v : cell) :
  label_and_strip (t, x ++ position_suffix j, v)
  = mkLong t x (position_type j) v.
Proof.
  unfold position_suffix, position_type. simpl.
  destruct (j <? 4)%nat.
  - now rewrite remove_suffix_entry, label_entry.
  - now rewrite remove_suffix_exit, label_exit.
Qed.

(** The table of [wide_to_long], in the terms of the frame it receives. *)
Lemma wide_to_long_exact (d : DataFrame) (out : LongTable) :
  wide_to_long d = inr out -> out = expected_long (@tl cell) (rows d).
Proof.
  unfold wide_to_long, bind. intros E.
  destruct (first_row_tail d) as [|h] eqn:Eh; [discriminate|].
  destruct (suffix_headers h) as [|nh] eqn:Enh; [discriminate|].
  destruct (set_columns ("timestamp" :: nh) d) as [|d1] eqn:Ed1;
    [discriminate|].
  destruct (parse_timestamps (drop_header_row d1)) as [|trows] eqn:Et;
    [discriminate|].
  injection E as <-.
  unfold first_row_tail in Eh. destruct (rows d) as [|r0 rs] eqn:Er;
    [discriminate|]. injection Eh as <-.
  unfold set_columns in Ed1.
  destruct (_ =? _)%nat in Ed1; [|discriminate]. injection Ed1 as <-.
  unfold drop_header_row, parse_timestamps in Et. cbn [rows] in Et.
  rewrite Er in Et. cbn [tl] in Et.
  apply (mapM_map _ (fun r => (instant_of (nth 0 r CNaN), tl r))) in Et.
  2:{ intros r y _ Hy. unfold bind, of_option, instant_of in *.
      destruct (to_datetime (nth 0 r CNaN)); [|discriminate].
      now injection Hy as <-. }
  subst trows. unfold expected_long, melt. cbn [hd tl].
  rewrite (combine_seq_nth nh EmptyString), flat_map_concat_map, !map_map.
  rewrite flat_map_concat_map, (suffix_headers_length _ _ Enh).
  rewrite concat_map, map_map.
  f_equal. apply map_ext_in. intros j Hj. apply in_seq in Hj.
  rewrite !map_map. apply map_ext. intros r. cbn [fst snd].
  rewrite Nat.sub_0_r.
  destruct (nth_error nh j) as [p|] eqn:Ep.
  - rewrite (nth_error_nth _ _ _ Ep).
    apply (suffix_headers_nth _ _ Enh) in Ep. destruct Ep as (x & Hx & ->).
    rewrite (nth_error_nth _ _ _ Hx). apply label_and_strip_tagged.
  - apply nth_error_None in Ep.
    rewrite (suffix_headers_length _ _ Enh) in Ep. lia.
Qed.

Lemma expected_long_map (g cells : list cell -> list cell)
    (body : list (list cell)) :
  (forall r, In r body -> nth 0 (g r) CNaN = nth 0 r CNaN) ->
  (forall r, tl (g r) = cells r) ->
  cells [] = [] ->
  expected_long (@tl cell) (map g body) = expected_long cells body.
Proof.
  intros Hhead Hcells Hnil. unfold expected_long.
  destruct body as [|r0 rs]; cbn [map hd tl].
  - now rewrite Hnil.
  - rewrite Hcells. apply flat_map_ext. intros j. rewrite map_map.
    apply map_ext_in. intros r Hr.
    rewrite Hcells, Hhead by (now right). reflexivity.
Qed.

Lemma flat_map_map_length {A B C} (F : A -> B -> C) (l : list B)
    (js : list A) :
  List.length (flat_map (fun j => map (F j) l) js)
  = (List.length js * List.length l)%nat.
Proof.
  induction js as [|j js IH]; [reflexivity|].
  cbn [flat_map]. rewrite length_app, length_map, IH. reflexivity.
Qed.

Lemma expected_long_length (cells : list cell -> list cell)
    (body : list (list cell)) :
  List.length (expected_long cells body)
  = (List.length (cells (hd [] body)) * List.length (tl body))%nat.
Proof.
  unfold expected_long.
  rewrite flat_map_map_length, length_seq. reflexivity.
Qed.

End TableFacts.

(** X2.  The table of [desfa_flows_daily], record by record: for each point
    column in the order of the sheet and, within it, each data row in
    order, one record with the parsed period, the header label, the type
    of the column position and the cell of the sheet unchanged; so the
    table has as many records as point columns times data rows. *)
Theorem flows_table_exact `{PandasLib} (df : DataFrame) (out : LongTable) :
  Desfa.desfa_flows_daily (mkResponse 200 df) = inr (OutputValue out) ->
  out = ReshaperSpec.expected_long DesfaSpec.flows_point_cells
          (DesfaSpec.flows_body df)
  /\ List.length out
     = (List.length
          (DesfaSpec.flows_point_cells (hd [] (DesfaSpec.flows_body df)))
        * List.length (tl (DesfaSpec.flows_body df)))%nat.
Proof.
  unfold Desfa.desfa_flows_daily, Py.bind. cbn [status_code content].
  change (200 =? 200)%Z with true. cbv iota. intros E.
  destruct (Desfa.flows_strip df) as [|d] eqn:Ed; [discriminate|].
  destruct (Desfa.wide_to_long d) as [|t] eqn:Et; [discriminate|].
  injection E as <-. apply wide_to_long_exact in Et.
  destruct (flows_strip_inr _ _ Ed) as (_ & _ & Hrows). rewrite Hrows in Et.
  rewrite expected_long_map with (cells := DesfaSpec.flows_point_cells) in Et.
  - split; [exact Et|]. rewrite Et. apply expected_long_length.
  - intros r _. apply remove_nth_head.
  - apply remove_nth_point_cells.
  - reflexivity.
Qed.

Lemma flows_table_exact_witness :
  @Desfa.desfa_flows_daily Sample.pandas (mkResponse 200 Sample.flows_sheet)
  = inr (OutputValue
           (@ReshaperSpec.expected_long Sample.pandas
              DesfaSpec.flows_point_cells
              (@DesfaSpec.flows_body Sample.pandas Sample.flows_sheet)))
  /\ List.length
       (@ReshaperSpec.expected_long Sample.pandas DesfaSpec.flows_point_cells
          (@DesfaSpec.flows_body Sample.pandas Sample.flows_sheet))
     = 10%nat.
Proof.
  assert (E : @Desfa.desfa_flows_daily Sample.pandas
                (mkResponse 200 Sample.flows_sheet)
              = inr (OutputValue
                       (@ReshaperSpec.expected_long Sample.pandas
                          DesfaSpec.flows_point_cells
                          (@DesfaSpec.flows_body Sample.pandas
                             Sample.flows_sheet))))
    by (vm_compute; reflexivity).
  split; [exact E|].
  destruct (@flows_table_exact Sample.pandas _ _ E) as [_ Hlen].
  rewrite Hlen. vm_compute. reflexivity.
Defined.

(** ** When the reshaper returns, and how it fails *)

Section FailureFacts.
Import Py Desfa DesfaSpec.
Context `{PandasLib}.

Lemma add_suffix_is_str (suffix : string) (c : cell) (p : string) :
  add_suffix suffix c = inr p -> is_str c = true.
Proof. destruct c; simpl; [reflexivity | discriminate | discriminate]. Qed.

Lemma mapM_Forall {A B} (f : A -> result B) (P : A -> Prop) (l : list A) :
  forall l', mapM f l = inr l' ->
  (forall x y, f x = inr y -> P x) -> Forall P l.
Proof.
  induction l as [|a l IH]; simpl; intros l' E HP; [constructor|].
  unfold bind in E. destruct (f a) as [|b] eqn:Ea; [discriminate|].
  destruct (mapM f l) as [|bs]; [discriminate|].
  constructor; [eapply HP; eassumption | eapply IH; eauto].
Qed.

(** A frame that [wide_to_long] reshapes is readable. *)
Lemma wide_to_long_readable (d : DataFrame) (out : LongTable) :
  wide_to_long d = inr out -> readable (@tl cell) (rows d).
Proof.
  unfold wide_to_long, bind. intros E.
  destruct (first_row_tail d) as [|h] eqn:Eh; [discriminate|].
  destruct (suffix_headers h) as [|nh] eqn:Enh; [discriminate|].
  destruct (set_columns ("timestamp" :: nh) d) as [|d1] eqn:Ed1;
    [discriminate|].
  destruct (parse_timestamps (drop_header_row d1)) as [|trows] eqn:Et;
    [discriminate|].
  unfold first_row_tail in Eh. destruct (rows d) as [|r0 rs] eqn:Er;
    [discriminate|]. injection Eh as <-.
  unfold set_columns in Ed1.
  destruct (_ =? _)%nat in Ed1; [|discriminate]. injection Ed1 as <-.
  unfold drop_header_row, parse_timestamps in Et. cbn [rows] in Et.
  rewrite Er in Et. cbn [tl] in Et.
  unfold readable. cbn [hd tl]. split; [discriminate|]. split.
  - unfold suffix_headers, bind in Enh.
    destruct (mapM (add_suffix "_entry") (firstn 4 (tl r0))) as [|a] eqn:Ea;
      [discriminate|].
    destruct (mapM (add_suffix "_exit") (skipn 4 (tl r0))) as [|b] eqn:Eb;
      [discriminate|].
    rewrite <- (firstn_skipn 4 (tl r0)). apply Forall_app. split.
    + eapply mapM_Forall; [exact Ea|]. intros x y. apply add_suffix_is_str.
    + eapply mapM_Forall; [exact Eb|]. intros x y. apply add_suffix_is_str.
  - eapply mapM_Forall; [exact Et|]. intros r y Hy. cbv beta in Hy.
    unfold bind, of_option in Hy.
    destruct (to_datetime (nth 0 r CNaN)); [discriminate | discriminate].
Qed.

Lemma readable_unmap (g cells : list cell -> list cell)
    (body : list (list cell)) :
  (forall r, In r body -> nth 0 (g r) CNaN = nth 0 r CNaN) ->
  (forall r, tl (g r) = cells r) ->
  readable (@tl cell) (map g body) -> readable cells body.
Proof.
  intros Hhead Hcells (Hne & Hstr & Hts).
  destruct body as [|r0 rs]; [contradiction|].
  unfold readable. cbn [map hd tl] in *.
  rewrite Hcells in Hstr. repeat split; [discriminate | exact Hstr |].
  rewrite Forall_map in Hts. rewrite Forall_forall in *. intros r Hr.
  rewrite <- Hhead by (now right). auto.
Qed.

(** A cell that is no text stops the suffixing with a [TypeError]. *)
Lemma mapM_add_suffix_type_error (suffix : string) (l : list cell) :
  Exists (fun c => is_str c = false) l ->
  mapM (add_suffix suffix) l = inl TypeError.
Proof.
  induction l as [|c l IH]; intros Hex; [inversion Hex|].
  simpl. destruct c as [s| |]; try reflexivity.
  inversion Hex as [? ? Hc|? ? Hl]; subst; [discriminate|].
  unfold bind. simpl. now rewrite IH.
Qed.

Lemma mapM_add_suffix_result (suffix : string) (l : list cell) :
  (exists l', mapM (add_suffix suffix) l = inr l')
  \/ mapM (add_suffix suffix) l = inl TypeError.
Proof.
  induction l as [|c l IH]; [left; now exists []|].
  simpl. destruct c as [s| |]; try (right; reflexivity).
  unfold bind. simpl. destruct IH as [[l' ->] | ->];
    [left; eexists; reflexivity | right; reflexivity].
Qed.

Lemma suffix_headers_type_error (h : list cell) :
  Exists (fun c => is_str c = false) h -> suffix_headers h = inl TypeError.
Proof.
  intros Hex. unfold suffix_headers, bind.
  rewrite <- (firstn_skipn 4 h) in Hex. apply Exists_app in Hex.
  destruct Hex as [Ha|Hb].
  - now rewrite (mapM_add_suffix_type_error _ _ Ha).
  - destruct (mapM_add_suffix_result "_entry" (firstn 4 h)) as [[a ->]| ->];
      [|reflexivity].
    now rewrite (mapM_add_suffix_type_error _ _ Hb).
Qed.

Lemma parse_timestamps_value_error (d : DataFrame) :
  Exists (fun r => to_datetime (nth 0 r CNaN) = None) (rows d) ->
  parse_timestamps d = inl ValueError.
Proof.
  unfold parse_timestamps. induction (rows d) as [|r rs IH]; intros Hex;
    [inversion Hex|].
  simpl. unfold bind, of_option.
  destruct (to_datetime (nth 0 r CNaN)) eqn:Er; [|reflexivity]. simpl.
  inversion Hex as [? ? Hr|? ? Hrs]; subst; [congruence|].
  unfold parse_timestamps, bind, of_option in IH. now rewrite IH.
Qed.

(** The four ways [wide_to_long] ends on a rectangular frame. *)
Lemma wide_to_long_failures (d : DataFrame) :
  rectangular d ->
  (rows d = [] -> wide_to_long d = inl IndexError)
  /\ (rows d <> [] ->
      Exists (fun c => is_str c = false) (tl (hd [] (rows d))) ->
      wide_to_long d = inl TypeError)
  /\ (rows d <> [] -> (0 < List.length (columns d))%nat ->
      Forall (fun c => is_str c = true) (tl (hd [] (rows d))) ->
      Exists (fun r => to_datetime (nth 0 r CNaN) = None) (tl (rows d)) ->
      wide_to_long d = inl ValueError).
Proof.
  intros Hrect. unfold wide_to_long, bind, first_row_tail.
  split; [intros ->; reflexivity|]. split.
  - destruct (rows d) as [|r0 rs]; [contradiction|]. intros _ Hex.
    cbn [hd] in Hex. unfold ret.
    now rewrite (suffix_headers_type_error _ Hex).
  - destruct (rows d) as [|r0 rs] eqn:Er; [contradiction|].
    intros _ Hcols Hstr Hex. cbn [hd tl] in *. unfold ret.
    destruct (suffix_headers_total _ Hstr) as [nh Enh]. rewrite Enh.
    unfold set_columns. cbn [List.length].
    assert (Hw : List.length r0 = List.length (columns d)).
    { unfold rectangular in Hrect. rewrite Er in Hrect. now inversion Hrect. }
    rewrite (suffix_headers_length _ _ Enh).
    assert (Hlen : S (List.length (tl r0)) = List.length (columns d)).
    { destruct r0; simpl in *; lia. }
    rewrite Hlen, Nat.eqb_refl. unfold ret. cbv iota beta.
    rewrite parse_timestamps_value_error; [reflexivity|].
    unfold drop_header_row. cbn [rows]. now rewrite Er.
Qed.

Lemma rectangular_flows_strip (df d : DataFrame) :
  rectangular df -> flows_strip df = inr d ->
  rectangular d /\ (0 < List.length (columns d))%nat.
Proof.
  intros Hrect Ed. destruct (flows_strip_inr _ _ Ed) as (Hc & Hcols & Hrows).
  split.
  - unfold rectangular in *. rewrite Hrows, Hcols. apply Forall_map.
    rewrite Forall_forall in *. intros r Hr. apply flows_body_incl in Hr.
    rewrite !remove_nth_length; rewrite ?(Hrect r Hr); auto.
  - rewrite Hcols, remove_nth_length; lia.
Qed.

Lemma rectangular_gcv_strip (df d : DataFrame) :
  rectangular df -> gcv_strip df = inr d ->
  rectangular d /\ (0 < List.length (columns d))%nat.
Proof.
  intros Hrect Ed. destruct (gcv_strip_inr _ _ Ed) as (Hc & Hcols & Hrows).
  split.
  - unfold rectangular in *. rewrite Hrows, Hcols. apply Forall_map.
    rewrite Forall_forall in *. intros r Hr. apply gcv_body_incl in Hr.
    unfold DesfaSpec.gcv_row.
    rewrite !removelast_length, !remove_nth_length;
      rewrite ?(Hrect r Hr); auto.
  - rewrite Hcols, removelast_length, remove_nth_length; lia.
Qed.

Lemma gcv_row_head_in (df : DataFrame) :
  rectangular df -> (5 < List.length (columns df))%nat ->
  forall r, In r (gcv_body df) ->
            nth 0 (gcv_row r) CNaN = nth 0 r CNaN.
Proof.
  intros Hrect Hc r Hr. apply gcv_row_head. apply gcv_body_incl in Hr.
  unfold rectangular in Hrect. rewrite Forall_forall in Hrect.
  rewrite (Hrect r Hr). lia.
Qed.

End FailureFacts.

(** X3.  On a rectangular sheet of at least six columns, [desfa_flows_daily]
    and [desfa_ng_gcv_daily] return a table exactly when the sheet is
    readable: there is a header row, its point labels are all text, and
    the period of every data row parses. *)
Theorem reshaper_returns_iff_readable `{PandasLib} (df : DataFrame) :
  rectangular df -> (5 < List.length (columns df))%nat ->
  ((exists out, Desfa.desfa_flows_daily (mkResponse 200 df)
                = inr (OutputValue out))
   <-> DesfaSpec.readable DesfaSpec.flows_point_cells
         (DesfaSpec.flows_body df))
  /\ ((exists out, Desfa.desfa_ng_gcv_daily (mkResponse 200 df)
                   = inr (OutputValue out))
      <-> DesfaSpec.readable DesfaSpec.gcv_point_cells
            (DesfaSpec.gcv_body df)).
Proof.
  intros Hrect Hc. split; split.
  - intros [out E]. unfold Desfa.desfa_flows_daily, Py.bind in E.
    cbn [status_code content] in E. change (200 =? 200)%Z with true in E.
    cbv iota in E.
    destruct (Desfa.flows_strip df) as [|d] eqn:Ed; [discriminate|].
    destruct (Desfa.wide_to_long d) as [|t] eqn:Et; [discriminate|].
    apply wide_to_long_readable in Et.
    destruct (flows_strip_inr _ _ Ed) as (_ & _ & Hrows). rewrite Hrows in Et.
    apply (readable_unmap (Desfa.remove_nth 5)); auto.
    + intros r _. apply remove_nth_head.
    + apply remove_nth_point_cells.
  - now apply flows_total.
  - intros [out E]. unfold Desfa.desfa_ng_gcv_daily, Py.bind in E.
    cbn [status_code content] in E. change (200 =? 200)%Z with true in E.
    cbv iota in E.
    destruct (Desfa.gcv_strip df) as [|d] eqn:Ed; [discriminate|].
    destruct (Desfa.wide_to_long d) as [|t] eqn:Et; [discriminate|].
    apply wide_to_long_readable in Et.
    destruct (gcv_strip_inr _ _ Ed) as (_ & _ & Hrows). rewrite Hrows in Et.
    apply (readable_unmap DesfaSpec.gcv_row); auto.
    + now apply gcv_row_head_in.
    + apply gcv_row_point_cells.
  - now apply gcv_total.
Qed.

Lemma reshaper_returns_iff_readable_witness :
  rectangular Sample.flows_sheet
  /\ (5 < List.length (columns Sample.flows_sheet))%nat
  /\ exists out, @Desfa.desfa_flows_daily Sample.pandas
                   (mkResponse 200 Sample.flows_sheet)
                 = inr (OutputValue out).
Proof.
  split; [exact sample_flows_rectangular|]. split; [simpl; lia|].
  apply (proj1 (@reshaper_returns_iff_readable Sample.pandas
                  Sample.flows_sheet sample_flows_rectangular
                  ltac:(simpl; lia))).
  exact sample_flows_readable.
Defined.

(** X4.  [df.columns[5]] and [df.iloc[0, 1:]] out of range: a sheet of five
    columns or fewer ends both assets with an [IndexError], and so does a
    sheet of at least six columns whose body is empty, which for the GCV
    sheet is every sheet of seven rows or fewer. *)
Theorem narrow_or_short_sheet_raises_index_error `{PandasLib}
    (df : DataFrame) :
  ((List.length (columns df) <= 5)%nat ->
   Desfa.desfa_flows_daily (mkResponse 200 df) = inl Py.IndexError
   /\ Desfa.desfa_ng_gcv_daily (mkResponse 200 df) = inl Py.IndexError)
  /\ ((5 < List.length (columns df))%nat ->
      DesfaSpec.flows_body df = [] ->
      Desfa.desfa_flows_daily (mkResponse 200 df) = inl Py.IndexError)
  /\ ((5 < List.length (columns df))%nat ->
      (List.length (rows df) <= 7)%nat ->
      Desfa.desfa_ng_gcv_daily (mkResponse 200 df) = inl Py.IndexError).
Proof.
  unfold Desfa.desfa_flows_daily, Desfa.desfa_ng_gcv_daily, Py.bind.
  cbn [status_code content]. change (200 =? 200)%Z with true. cbv iota.
  split; [|split].
  - intros Hc. unfold Desfa.flows_strip, Desfa.gcv_strip, Desfa.drop_column,
      Py.bind.
    destruct (Nat.ltb_spec 5 (List.length (columns df))); [lia|].
    split; reflexivity.
  - intros Hc Hbody. destruct (strip_total df Hc) as [[d Ed] _]. rewrite Ed.
    destruct (flows_strip_inr _ _ Ed) as (_ & _ & Hrows).
    rewrite Hbody in Hrows. unfold Desfa.wide_to_long, Py.bind,
      Desfa.first_row_tail. now rewrite Hrows.
  - intros Hc Hlen. destruct (strip_total df Hc) as [_ [d Ed]]. rewrite Ed.
    destruct (gcv_strip_inr _ _ Ed) as (_ & _ & Hrows).
    assert (Hbody : DesfaSpec.gcv_body df = []).
    { unfold DesfaSpec.gcv_body.
      replace (List.length (skipn 3 (rows df)) - 4)%nat with 0%nat;
        [reflexivity|]. rewrite length_skipn. lia. }
    rewrite Hbody in Hrows. unfold Desfa.wide_to_long, Py.bind,
      Desfa.first_row_tail. now rewrite Hrows.
Qed.

Lemma narrow_or_short_sheet_raises_index_error_witness :
  (List.length (columns ReshaperSpec.narrow_sheet) <= 5)%nat
  /\ @Desfa.desfa_flows_daily Sample.pandas
       (mkResponse 200 ReshaperSpec.narrow_sheet) = inl Py.IndexError
  /\ (5 < List.length (columns ReshaperSpec.short_gcv_sheet))%nat
  /\ (List.length (rows ReshaperSpec.short_gcv_sheet) <= 7)%nat
  /\ @Desfa.desfa_ng_gcv_daily Sample.pandas
       (mkResponse 200 ReshaperSpec.short_gcv_sheet) = inl Py.IndexError.
Proof.
  destruct (@narrow_or_short_sheet_raises_index_error Sample.pandas
              ReshaperSpec.narrow_sheet) as (Hn & _ & _).
  destruct (@narrow_or_short_sheet_raises_index_error Sample.pandas
              ReshaperSpec.short_gcv_sheet) as (_ & _ & Hs).
  split; [simpl; lia|]. split; [apply Hn; simpl; lia|].
  split; [simpl; lia|]. split; [simpl; lia|].
  apply Hs; simpl; lia.
Defined.

Section DefectFacts.
Import Py Desfa DesfaSpec.
Context `{PandasLib}.

(** The defects of a sheet body, read on the stripped frame. *)
Lemma defects_map (g cells : list cell -> list cell)
    (body : list (list cell)) :
  (forall r, In r body -> nth 0 (g r) CNaN = nth 0 r CNaN) ->
  (forall r, tl (g r) = cells r) ->
  body <> [] ->
  map g body <> []
  /\ (Exists (fun c => is_str c = false) (cells (hd [] body)) ->
      Exists (fun c => is_str c = false) (tl (hd [] (map g body))))
  /\ (Forall (fun c => is_str c = true) (cells (hd [] body)) ->
      Forall (fun c => is_str c = true) (tl (hd [] (map g body))))
  /\ (Exists (fun r => to_datetime (nth 0 r CNaN) = None) (tl body) ->
      Exists (fun r => to_datetime (nth 0 r CNaN) = None)
             (tl (map g body))).
Proof.
  intros Hhead Hcells Hne. destruct body as [|r0 rs]; [contradiction|].
  cbn [map hd tl]. rewrite Hcells. repeat split; auto; [discriminate|].
  intros Hex. apply Exists_exists in Hex. destruct Hex as (r & Hr & Hnone).
  apply Exists_exists. exists (g r). split; [now apply in_map|].
  rewrite Hhead by (now right). exact Hnone.
Qed.

Lemma flows_defects (df : DataFrame) :
  rectangular df -> (5 < List.length (columns df))%nat ->
  flows_body df <> [] ->
  (Exists (fun c => is_str c = false)
          (flows_point_cells (hd [] (flows_body df))) ->
   desfa_flows_daily (mkResponse 200 df) = inl TypeError)
  /\ (Forall (fun c => is_str c = true)
             (flows_point_cells (hd [] (flows_body df))) ->
      Exists (fun r => to_datetime (nth 0 r CNaN) = None)
             (tl (flows_body df)) ->
      desfa_flows_daily (mkResponse 200 df) = inl ValueError).
Proof.
  intros Hrect Hc Hne. unfold desfa_flows_daily, bind.
  cbn [status_code content]. change (200 =? 200)%Z with true. cbv iota.
  destruct (strip_total df Hc) as [[d Ed] _]. rewrite Ed.
  destruct (rectangular_flows_strip _ _ Hrect Ed) as [Hrd Hcd].
  destruct (flows_strip_inr _ _ Ed) as (_ & _ & Hrows).
  destruct (defects_map (remove_nth 5) flows_point_cells (flows_body df))
    as (Hne' & Hty & Hstr & Hval); auto.
  { intros r _. apply remove_nth_head. }
  { apply remove_nth_point_cells. }
  rewrite <- Hrows in *.
  destruct (wide_to_long_failures d Hrd) as (_ & Ht & Hv). split.
  - intros Hex. now rewrite Ht by auto.
  - intros Hs Hex. now rewrite Hv by auto.
Qed.

Lemma gcv_defects (df : DataFrame) :
  rectangular df -> (5 < List.length (columns df))%nat ->
  gcv_body df <> [] ->
  (Exists (fun c => is_str c = false)
          (gcv_point_cells (hd [] (gcv_body df))) ->
   desfa_ng_gcv_daily (mkResponse 200 df) = inl TypeError)
  /\ (Forall (fun c => is_str c = true)
             (gcv_point_cells (hd [] (gcv_body df))) ->
      Exists (fun r => to_datetime (nth 0 r CNaN) = None)
             (tl (gcv_body df)) ->
      desfa_ng_gcv_daily (mkResponse 200 df) = inl ValueError).
Proof.
  intros Hrect Hc Hne. unfold desfa_ng_gcv_daily, bind.
  cbn [status_code content]. change (200 =? 200)%Z with true. cbv iota.
  destruct (strip_total df Hc) as [_ [d Ed]]. rewrite Ed.
  destruct (rectangular_gcv_strip _ _ Hrect Ed) as [Hrd Hcd].
  destruct (gcv_strip_inr _ _ Ed) as (_ & _ & Hrows).
  destruct (defects_map gcv_row gcv_point_cells (gcv_body df))
    as (Hne' & Hty & Hstr & Hval); auto.
  { now apply gcv_row_head_in. }
  { apply gcv_row_point_cells. }
  rewrite <- Hrows in *.
  destruct (wide_to_long_failures d Hrd) as (_ & Ht & Hv). split.
  - intros Hex. now rewrite Ht by auto.
  - intros Hs Hex. now rewrite Hv by auto.
Qed.

End DefectFacts.

(** X5.  [x + "_entry"] on a header cell that is no text: a rectangular sheet
    of at least six columns whose header row has such a cell under a
    point column ends [desfa_flows_daily] and [desfa_ng_gcv_daily] with a
    [TypeError], before any period is parsed. *)
Theorem non_text_header_raises_type_error `{PandasLib} (flows gcv : DataFrame) :
  rectangular flows -> rectangular gcv ->
  (5 < List.length (columns flows))%nat ->
  (5 < List.length (columns gcv))%nat ->
  DesfaSpec.flows_body flows <> [] -> DesfaSpec.gcv_body gcv <> [] ->
  Exists (fun c => is_str c = false)
         (DesfaSpec.flows_point_cells (hd [] (DesfaSpec.flows_body flows))) ->
  Exists (fun c => is_str c = false)
         (DesfaSpec.gcv_point_cells (hd [] (DesfaSpec.gcv_body gcv))) ->
  Desfa.desfa_flows_daily (mkResponse 200 flows) = inl Py.TypeError
  /\ Desfa.desfa_ng_gcv_daily (mkResponse 200 gcv) = inl Py.TypeError.
Proof.
  intros Rf Rg Cf Cg Bf Bg Hf Hg. split.
  - now apply (flows_defects flows Rf Cf Bf).
  - now apply (gcv_defects gcv Rg Cg Bg).
Qed.

(** X6.  [pd.to_datetime] on a period it cannot parse: a rectangular sheet of
    at least six columns with a header row of text labels and a data row
    whose period does not parse ends both assets with a [ValueError]. *)
Theorem unparsable_period_raises_value_error `{PandasLib}
    (flows gcv : DataFrame) :
  rectangular flows -> rectangular gcv ->
  (5 < List.length (columns flows))%nat ->
  (5 < List.length (columns gcv))%nat ->
  DesfaSpec.flows_body flows <> [] -> DesfaSpec.gcv_body gcv <> [] ->
  Forall (fun c => is_str c = true)
         (DesfaSpec.flows_point_cells (hd [] (DesfaSpec.flows_body flows))) ->
  Forall (fun c => is_str c = true)
         (DesfaSpec.gcv_point_cells (hd [] (DesfaSpec.gcv_body gcv))) ->
  Exists (fun r => to_datetime (nth 0 r CNaN) = None)
         (tl (DesfaSpec.flows_body flows)) ->
  Exists (fun r => to_datetime (nth 0 r CNaN) = None)
         (tl (DesfaSpec.gcv_body gcv)) ->
  Desfa.desfa_flows_daily (mkResponse 200 flows) = inl Py.ValueError
  /\ Desfa.desfa_ng_gcv_daily (mkResponse 200 gcv) = inl Py.ValueError.
Proof.
  intros Rf Rg Cf Cg Bf Bg Sf Sg Hf Hg. split.
  - now apply (flows_defects flows Rf Cf Bf).
  - now apply (gcv_defects gcv Rg Cg Bg).
Qed.

(** A sample sheet is rectangular and wide enough. *)
Ltac sample_shape :=
  match goal with
  | |- rectangular _ => repeat constructor
  | |- (_ < _)%nat => simpl; lia
  | |- _ <> [] => vm_compute; discriminate
  end.

Lemma non_text_header_raises_type_error_witness :
  rectangular ReshaperSpec.numeric_header_sheet
  /\ @Desfa.desfa_flows_daily Sample.pandas
       (mkResponse 200 ReshaperSpec.numeric_header_sheet) = inl Py.TypeError
  /\ @Desfa.desfa_ng_gcv_daily Sample.pandas
       (mkResponse 200 ReshaperSpec.numeric_header_sheet) = inl Py.TypeError.
Proof.
  assert (R : rectangular ReshaperSpec.numeric_header_sheet)
    by sample_shape.
  split; [exact R|].
  apply (@non_text_header_raises_type_error Sample.pandas
           ReshaperSpec.numeric_header_sheet
           ReshaperSpec.numeric_header_sheet R R);
    try sample_shape.
  - apply Exists_cons_tl, Exists_cons_hd. reflexivity.
  - apply Exists_cons_tl, Exists_cons_hd. reflexivity.
Defined.

Lemma unparsable_period_raises_value_error_witness :
  rectangular ReshaperSpec.bad_period_sheet
  /\ @Desfa.desfa_flows_daily Sample.pandas
       (mkResponse 200 ReshaperSpec.bad_period_sheet) = inl Py.ValueError
  /\ @Desfa.desfa_ng_gcv_daily Sample.pandas
       (mkResponse 200 ReshaperSpec.bad_period_sheet) = inl Py.ValueError.
Proof.
  assert (R : rectangular ReshaperSpec.bad_period_sheet) by sample_shape.
  split; [exact R|].
  apply (@unparsable_period_raises_value_error Sample.pandas
           ReshaperSpec.bad_period_sheet ReshaperSpec.bad_period_sheet R R);
    try sample_shape.
  - repeat (constructor; [reflexivity|]). constructor.
  - repeat (constructor; [reflexivity|]). constructor.
  - apply Exists_cons_hd. vm_compute. reflexivity.
  - apply Exists_cons_hd. vm_compute. reflexivity.
Defined.

(** ** More on the quality table *)

Lemma quality_returns_found_witness :
  @blocks_build Sample.pandas 2009 SampleQuality.quality_sheet
    Quality.entry_points
  /\ @found_blocks Sample.pandas 2009 SampleQuality.quality_sheet
       Quality.entry_points <> []
  /\ @Quality.desfa_ng_quality_yearly Sample.pandas 2009
       (mkResponse 200 SampleQuality.quality_sheet)
     = ((Info, Text "Handling single partition.")
          :: map warn (@missing_points Sample.pandas
                         SampleQuality.quality_sheet Quality.entry_points),
        inr (OutputValue
               (List.concat
                  (map snd (@found_blocks Sample.pandas 2009
                              SampleQuality.quality_sheet
                              Quality.entry_points))))).
Proof.
  assert (Hb : @blocks_build Sample.pandas 2009 SampleQuality.quality_sheet
                 Quality.entry_points).
  { intros p s [<-|[<-|[<-|[<-|[]]]]] Hs; vm_compute in Hs;
      first [discriminate Hs
            | injection Hs as <-; eexists; vm_compute; reflexivity]. }
  assert (Hf : @found_blocks Sample.pandas 2009 SampleQuality.quality_sheet
                 Quality.entry_points <> [])
    by (vm_compute; discriminate).
  split; [exact Hb|]. split; [exact Hf|].
  exact (@quality_returns_found Sample.pandas 2009
           SampleQuality.quality_sheet Hb Hf).
Defined.

Section SearchFacts.
Import Py Quality QualitySpec.
Context `{PandasLib}.

Lemma find_start_row_some (labels : list cell) (marker : string)
    (rs : list (list cell)) :
  forall k s,
    find_start_row labels marker rs k = Some s
    <-> exists i r,
          nth_error rs i = Some r
          /\ contains (series_to_string labels r) marker = true
          /\ (forall i' r', (i' < i)%nat -> nth_error rs i' = Some r' ->
                contains (series_to_string labels r') marker = false)
          /\ s = (k + Z.of_nat i + 3)%Z.
Proof.
  induction rs as [|r0 rs IH]; intros k s; cbn [find_start_row].
  - split; [discriminate|]. intros (i & r & Hr & _). destruct i; discriminate.
  - destruct (contains (series_to_string labels r0) marker) eqn:E0.
    + split.
      * intros [= <-]. exists 0%nat, r0. repeat split; auto; [|lia].
        intros i' r' Hi. lia.
      * intros (i & r & Hr & Hhit & Hfirst & ->).
        destruct i as [|i]; [f_equal; lia|].
        specialize (Hfirst 0%nat r0 ltac:(lia) eq_refl). congruence.
    + rewrite IH. split.
      * intros (i & r & Hr & Hhit & Hfirst & ->).
        exists (S i), r. repeat split; auto; [|lia].
        intros [|i'] r' Hi Hr'; simpl in Hr'; [congruence|].
        apply (Hfirst i' r'); [lia | exact Hr'].
      * intros (i & r & Hr & Hhit & Hfirst & ->).
        destruct i as [|i]; simpl in Hr; [congruence|].
        exists i, r. repeat split; auto; [|lia].
        intros i' r' Hi Hr'. apply (Hfirst (S i') r'); [lia | exact Hr'].
Qed.

Lemma find_start_row_none (labels : list cell) (marker : string)
    (rs : list (list cell)) :
  forall k,
    find_start_row labels marker rs k = None
    <-> Forall (fun r => contains (series_to_string labels r) marker = false)
               rs.
Proof.
  induction rs as [|r0 rs IH]; intros k; cbn [find_start_row].
  - split; [constructor | reflexivity].
  - destruct (contains (series_to_string labels r0) marker) eqn:E0.
    + split; [discriminate|]. intros Hall. inversion Hall. congruence.
    + rewrite IH. split; [now constructor | intros Hall; now inversion Hall].
Qed.

Lemma clean_hydrocarbon_length (b b' : Block) :
  clean_hydrocarbon b = inr b' -> List.length b' = List.length b.
Proof.
  unfold clean_hydrocarbon, bind. destruct (dtype_is_object _).
  - destruct (mapM strip_less_than (column hydrocarbon b)) as [|col] eqn:Ec;
      [discriminate|]. intros [= <-]. apply mapM_length in Ec.
    unfold set_column, column in *.
    rewrite length_map, length_combine, Ec, length_map. lia.
  - now intros [= <-].
Qed.

Lemma make_block_length (year : Z) (df : DataFrame) (p : string) (s : Z)
    (block : Block) :
  make_block year df p s = inr block ->
  List.length block
  = List.length (slice s (end_row_of year s df p) (rows df)).
Proof.
  unfold make_block, bind. intros E.
  destruct (cut_block df s _) as [|cut] eqn:Ecut; [discriminate|].
  destruct (index_block p cut) as [|b0] eqn:Eb0; [discriminate|].
  apply clean_hydrocarbon_length in E. rewrite E.
  unfold block_map. rewrite length_map.
  unfold index_block in Eb0. rewrite (mapM_length _ _ _ Eb0).
  unfold cut_block in Ecut. destruct (_ =? 16)%nat in Ecut; [|discriminate].
  injection Ecut as <-. now rewrite length_map.
Qed.

Lemma slice_length {A} (a b : Z) (l : list A) :
  (0 <= a)%Z -> (0 <= b <= Z.of_nat (List.length l))%Z ->
  Z.of_nat (List.length (slice a b l))
  = Z.max 0 (b - Z.min a (Z.of_nat (List.length l)))%Z.
Proof.
  intros Ha Hb. unfold slice, slice_bound.
  rewrite length_firstn, length_skipn.
  destruct (Z.ltb_spec a 0); [lia|]. destruct (Z.ltb_spec b 0); lia.
Qed.

Lemma make_block_narrow (year : Z) (df : DataFrame) (p : string) (s : Z) :
  (List.length (columns df) < 16)%nat ->
  make_block year df p s = inl ValueError.
Proof.
  intros Hn. unfold make_block, bind, cut_block.
  rewrite length_firstn.
  destruct (Nat.eqb_spec (Nat.min 16 (List.length (columns df))) 16);
    [lia | reflexivity].
Qed.

Lemma collect_raises (year : Z) (df : DataFrame) (e : exn)
    (points : list string) :
  (forall p s, In p points -> start_row_of df p = Some s ->
               make_block year df p s = inl e) ->
  (exists p, In p points /\ start_row_of df p <> None) ->
  forall log d, snd (collect year df points log d) = inl e.
Proof.
  induction points as [|p points IH]; intros Hfail (q & Hq & Hfound) log d.
  - contradiction.
  - cbn [collect]. destruct (start_row_of df p) as [s|] eqn:Es.
    + rewrite (Hfail p s) by auto using in_eq. reflexivity.
    + apply IH.
      * intros p' s' Hp'. apply Hfail. now right.
      * destruct Hq as [<-|Hq]; [congruence|]. now exists q.
Qed.

End SearchFacts.

(** X8.  The search for the marker of a point: the start row is three rows
    below the first row of the sheet whose printed form holds
    "Entry Point: " and the name, and there is none exactly when no row
    holds it. *)
Theorem marker_search_first_match `{PandasLib} (full_df : DataFrame)
    (search_string : string) :
  (forall s,
     Quality.start_row_of full_df search_string = Some s
     <-> exists i r,
           nth_error (rows full_df) i = Some r
           /\ QualitySpec.has_marker full_df search_string r = true
           /\ (forall i' r', (i' < i)%nat ->
                 nth_error (rows full_df) i' = Some r' ->
                 QualitySpec.has_marker full_df search_string r' = false)
           /\ s = (Z.of_nat i + 3)%Z)
  /\ (Quality.start_row_of full_df search_string = None
      <-> Forall (fun r => QualitySpec.has_marker full_df search_string r
                           = false) (rows full_df)).
Proof.
  unfold Quality.start_row_of, QualitySpec.has_marker. split.
  - intros s. rewrite find_start_row_some. reflexivity.
  - apply find_start_row_none.
Qed.

(** X9.  The rows of a block: from the first year of the point to the current
    year there is at most one row a year, and exactly one when the sheet
    reaches that far below the start row. *)
Theorem block_rows_bound `{PandasLib} (current_year : Z)
    (full_df : DataFrame) (search_string : string) (start_row : Z)
    (block : Quality.Block) :
  Quality.make_block current_year full_df search_string start_row
  = inr block ->
  (0 <= start_row)%Z ->
  (QualitySpec.first_year search_string <= current_year)%Z ->
  let years := (current_year - QualitySpec.first_year search_string + 1)%Z in
  (Z.of_nat (List.length block) <= years)%Z
  /\ ((start_row + years <= Z.of_nat (List.length (rows full_df)))%Z ->
      Z.of_nat (List.length block) = years).
Proof.
  intros E Hs Hy years. rewrite (make_block_length _ _ _ _ _ E).
  assert (He : Quality.end_row_of current_year start_row full_df search_string
               = Z.min (start_row + years)
                       (Z.of_nat (List.length (rows full_df)))).
  { unfold Quality.end_row_of, years, QualitySpec.first_year.
    destruct (Py.contains search_string "NEA MESIMVRIA"); f_equal; lia. }
  assert (Hpos : (1 <= years)%Z) by (unfold years; lia).
  rewrite He, slice_length by lia. lia.
Qed.

Lemma block_rows_bound_witness :
  @Quality.make_block Sample.pandas 2009 SampleQuality.quality_sheet
    "AGIA TRIADA" 3
  = inr SampleQuality.agia_triada_block
  /\ (Z.of_nat (List.length SampleQuality.agia_triada_block)
      <= 2009 - QualitySpec.first_year "AGIA TRIADA" + 1)%Z.
Proof.
  split; [exact sample_block|].
  apply (@block_rows_bound Sample.pandas 2009 SampleQuality.quality_sheet
           "AGIA TRIADA" 3 _ sample_block); vm_compute; discriminate.
Defined.

(** X10.  [block.columns = [...]] on a narrow sheet: when the sheet has fewer
    than sixteen columns and the marker of some point is found, the
    asset ends with a [ValueError]. *)
Theorem narrow_quality_sheet_raises_value_error `{PandasLib}
    (current_year : Z) (full_df : DataFrame) :
  (List.length (columns full_df) < 16)%nat ->
  (exists p, In p Quality.entry_points
             /\ Quality.start_row_of full_df p <> None) ->
  snd (Quality.desfa_ng_quality_yearly current_year (mkResponse 200 full_df))
  = inl Py.ValueError.
Proof.
  intros Hn Hfound. rewrite quality_200.
  assert (E := collect_raises current_year full_df Py.ValueError
                 Quality.entry_points
                 (fun p s _ _ => make_block_narrow current_year full_df p s Hn)
                 Hfound [(Info, Text "Handling single partition.")] []).
  destruct (Quality.collect _ _ _ _ _) as [log r]. simpl in E. now subst r.
Qed.

Lemma narrow_quality_sheet_raises_value_error_witness :
  (List.length (columns QualitySpec.narrow_sheet) < 16)%nat
  /\ snd (@Quality.desfa_ng_quality_yearly Sample.pandas 2009
            (mkResponse 200 QualitySpec.narrow_sheet))
     = inl Py.ValueError.
Proof.
  assert (Hn : (List.length (columns QualitySpec.narrow_sheet) < 16)%nat)
    by (vm_compute; lia).
  split; [exact Hn|].
  apply (@narrow_quality_sheet_raises_value_error Sample.pandas 2009
           QualitySpec.narrow_sheet Hn).
  exists "AGIA TRIADA". split; [now left|]. vm_compute. discriminate.
Defined.

(** ** More on the windowed assets *)

Lemma windowed_asset_only_spans_witness :
  (forall span,
     In span (EntsogSpec.request_spans (SampleEntsog.june 1)
                                       (SampleEntsog.june 3)) ->
     EntsogLog.one_day_api (fst span) (snd span) ["physical_flow"]
       (@Entsog.greek_operator_point_directions
          (SampleEntsog.helpers true true))
     = @Entsog.entsog_api_call_with_retries (SampleEntsog.helpers true true)
         (fst span) (snd span) ["physical_flow"]
         (@Entsog.greek_operator_point_directions
            (SampleEntsog.helpers true true)))
  /\ @Entsog.windowed_asset
       (EntsogSpec.with_api (SampleEntsog.helpers true true)
                            EntsogLog.one_day_api)
       "physical_flow" (SampleEntsog.june 1) (SampleEntsog.june 3)
     = @Entsog.windowed_asset (SampleEntsog.helpers true true)
         "physical_flow" (SampleEntsog.june 1) (SampleEntsog.june 3).
Proof.
  assert (Hagree : forall span,
            In span (EntsogSpec.request_spans (SampleEntsog.june 1)
                                              (SampleEntsog.june 3)) ->
            EntsogLog.one_day_api (fst span) (snd span) ["physical_flow"]
              (@Entsog.greek_operator_point_directions
                 (SampleEntsog.helpers true true))
            = @Entsog.entsog_api_call_with_retries
                (SampleEntsog.helpers true true)
                (fst span) (snd span) ["physical_flow"]
                (@Entsog.greek_operator_point_directions
                   (SampleEntsog.helpers true true))).
  { intros span Hin.
    assert (Hs : EntsogSpec.request_spans (SampleEntsog.june 1)
                                          (SampleEntsog.june 3)
                 = [(SampleEntsog.june 1, SampleEntsog.june 2);
                    (SampleEntsog.june 3, SampleEntsog.june 4)])
      by (vm_compute; reflexivity).
    rewrite Hs in Hin.
    destruct Hin as [<-|[<-|[]]]; vm_compute; reflexivity. }
  split; [exact Hagree|].
  exact (windowed_asset_only_spans (SampleEntsog.helpers true true)
           EntsogLog.one_day_api "physical_flow" _ _ Hagree).
Defined.

Section RunFacts.
Import Py Entsog EntsogSpec EntsogLog.
Context `{Helpers}.

Lemma forallb_false {A} (p : A -> bool) (l : list A) :
  forallb p l = false -> exists x, In x l /\ p x = false.
Proof.
  induction l as [|a l IH]; simpl; [discriminate|].
  destruct (p a) eqn:Ea; simpl.
  - intros E. destruct (IH E) as (x & Hx & Hp). exists x. auto.
  - intros _. exists a. auto.
Qed.

Lemma filter_length_le {A} (p q : A -> bool) (l : list A) :
  (forall x, In x l -> p x = true -> q x = true) ->
  (List.length (filter p l) <= List.length (filter q l))%nat.
Proof.
  induction l as [|a l IH]; intros Hpq; [reflexivity|]. simpl.
  assert (IH' := IH (fun x Hx => Hpq x (or_intror Hx))).
  destruct (p a) eqn:Ea.
  - rewrite (Hpq a (or_introl eq_refl) Ea). simpl. lia.
  - destruct (q a); simpl; lia.
Qed.

(** A table whose key is not unique lists at least two rows as
    duplicated. *)
Lemma duplicated_at_least_two (t : LongTable) :
  is_unique t = false ->
  (2 <= List.length (filter (duplicated t) t))%nat.
Proof.
  intros Hu. apply forallb_false in Hu. destruct Hu as (r & Hr & Hd).
  apply negb_false_iff in Hd. unfold duplicated in Hd.
  apply Nat.ltb_lt in Hd. unfold occurrences in Hd.
  eapply Nat.le_trans; [exact Hd|]. apply filter_length_le.
  intros x Hx Hk. apply key_eqb_eq in Hk. unfold duplicated.
  rewrite <- Hk. apply Nat.ltb_lt. exact Hd.
Qed.

Lemma warnings_infos_only (log : list log_record) :
  Forall (fun r => is_warning r = false) log -> warnings log = [].
Proof.
  unfold warnings. induction 1 as [|r log Hr _ IH]; [reflexivity|].
  simpl. now rewrite Hr.
Qed.

(** The log of the loop: one record for each day whose answer has rows. *)
Lemma fetch_all_log (indicator : string) (days : list Z) :
  forall raws tables log acc,
    Forall2 (fetched indicator) days raws ->
    mapM process (filter has_rows raws) = inr tables ->
    fst (fetch_all indicator days log acc)
    = (log ++ map (fun d => (Info, FetchedData d (d + Timedelta_days 1)%Z))
                  (days_with_rows days raws))%list.
Proof.
  unfold fetched, days_with_rows.
  induction days as [|day days IH]; intros raws tables log acc Hf Hp;
    inversion Hf as [|d raw ds raws' Hd Hrest]; subst; cbn [fetch_all].
  - simpl. now rewrite app_nil_r.
  - rewrite Hd. cbn [combine filter snd].
    destruct raw as [|row data]; cbn [has_rows filter] in *.
    + now apply (IH raws' tables).
    + cbn [mapM] in Hp. unfold bind in Hp.
      destruct (process (row :: data)) as [|t]; [discriminate|].
      destruct (mapM process (filter has_rows raws')) as [|ts] eqn:Ets;
        [discriminate|].
      rewrite (IH raws' ts) by auto. cbn [map fst].
      now rewrite <- app_assoc.
Qed.

Lemma fetch_all_raises (indicator : string) (e : exn) (day : Z)
    (post : list Z) :
  fails_with indicator day e ->
  forall pre raws tables log acc,
    Forall2 (fetched indicator) pre raws ->
    mapM process (filter has_rows raws) = inr tables ->
    snd (fetch_all indicator (pre ++ day :: post) log acc) = inl e.
Proof.
  intros Hfail. unfold fetched.
  induction pre as [|d pre IH]; intros raws tables log acc Hf Hp;
    inversion Hf as [|d' raw ds raws' Hd Hrest]; subst;
    cbn [app fetch_all].
  - destruct Hfail as [-> | (data & Hdata & Hne & Hproc)]; [reflexivity|].
    unfold fetched in Hdata. rewrite Hdata.
    destruct data as [|row data]; [contradiction|]. now rewrite Hproc.
  - rewrite Hd. destruct raw as [|row data]; cbn [has_rows filter] in Hp.
    + now apply (IH raws' tables).
    + cbn [mapM] in Hp. unfold bind in Hp.
      destruct (process (row :: data)) as [|t]; [discriminate|].
      destruct (mapM process (filter has_rows raws')) as [|ts] eqn:Ets;
        [discriminate|].
      now apply (IH raws' ts).
Qed.

Lemma infos_app (l1 l2 : list log_record) :
  infos (l1 ++ l2) = (infos l1 ++ infos l2)%list.
Proof. unfold infos. now rewrite filter_app, map_app. Qed.

Lemma infos_info_records (ms : list message) :
  infos (map (fun m => (Info, m)) ms) = ms.
Proof.
  unfold infos. induction ms as [|m ms IH]; [reflexivity|].
  simpl. now rewrite IH.
Qed.

End RunFacts.

(** X12.  The warning and the key: when an asset returns a table, its log
    holds no warning exactly when no two rows of the table share their
    (timestamp, point_id, point_type) key. *)
Theorem no_warning_iff_unique_keys `{Entsog.Helpers} (indicator : string)
    (start end_ : Z) (log : list log_record) (complete_data : LongTable) :
  Entsog.windowed_asset indicator start end_
  = (log, inr (OutputValue (Some complete_data))) ->
  (warnings log = [] <-> NoDup (map key complete_data)).
Proof.
  intros E. apply windowed_asset_inr in E.
  destruct E as (log0 & bidaily & Ef & [(_ & [=] & _) | (_ & [= ->] & ->)]).
  assert (Hw := fetch_all_warnings _ _ _ _ _ _ Ef).
  rewrite <- is_unique_NoDup.
  destruct (Entsog.is_unique (List.concat bidaily)).
  - split; [reflexivity | intros _; exact Hw].
  - rewrite warnings_app, Hw. split; discriminate.
Qed.

Lemma no_warning_iff_unique_keys_witness :
  @Entsog.windowed_asset (SampleEntsog.helpers true true) "physical_flow"
    (SampleEntsog.june 1) (SampleEntsog.june 3)
  = ((SampleEntsog.opening_log
        ++ [(Warning,
             FoundDuplicates [SampleEntsog.long 2 (CNum (20 # 1));
                              SampleEntsog.long 2 (CNum (21 # 1))])])%list,
     inr (OutputValue (Some (List.concat SampleEntsog.tables))))
  /\ ~ NoDup (map key (List.concat SampleEntsog.tables)).
Proof.
  split; [exact sample_run|]. intros Hnd.
  apply (@no_warning_iff_unique_keys (SampleEntsog.helpers true true)
           "physical_flow" _ _ _ _ sample_run) in Hnd.
  discriminate Hnd.
Defined.

(** X13.  The warning never lists a single row: the table it carries has at
    least two rows. *)
Theorem duplicates_listed_at_least_two `{Entsog.Helpers} (indicator : string)
    (start end_ : Z) (log : list log_record) (complete_data : LongTable)
    (duplicates : LongTable) :
  Entsog.windowed_asset indicator start end_
  = (log, inr (OutputValue (Some complete_data))) ->
  In (FoundDuplicates duplicates) (warnings log) ->
  (2 <= List.length duplicates)%nat.
Proof.
  intros E Hin. apply windowed_asset_inr in E.
  destruct E as (log0 & bidaily & Ef & [(_ & [=] & _) | (_ & [= ->] & ->)]).
  assert (Hw := fetch_all_warnings _ _ _ _ _ _ Ef).
  destruct (Entsog.is_unique (List.concat bidaily)) eqn:Hu.
  - rewrite Hw in Hin. contradiction.
  - rewrite warnings_app, Hw in Hin. destruct Hin as [[= <-]|[]].
    now apply duplicated_at_least_two.
Qed.

Lemma duplicates_listed_at_least_two_witness :
  @Entsog.windowed_asset (SampleEntsog.helpers true true) "physical_flow"
    (SampleEntsog.june 1) (SampleEntsog.june 3)
  = ((SampleEntsog.opening_log
        ++ [(Warning,
             FoundDuplicates [SampleEntsog.long 2 (CNum (20 # 1));
                              SampleEntsog.long 2 (CNum (21 # 1))])])%list,
     inr (OutputValue (Some (List.concat SampleEntsog.tables))))
  /\ (2 <= List.length [SampleEntsog.long 2 (CNum (20 # 1));
                        SampleEntsog.long 2 (CNum (21 # 1))])%nat.
Proof.
  split; [exact sample_run|].
  apply (@duplicates_listed_at_least_two (SampleEntsog.helpers true true)
           "physical_flow" _ _ _ _ _ sample_run).
  vm_compute. left. reflexivity.
Defined.

(** X14.  A failing sub-window ends the run: when the API call of a sub-window
    raises, or the processing of its answer does, after the sub-windows
    before it went through, the asset ends with that exception and
    returns nothing of what it had fetched. *)
Theorem sub_window_failure_aborts `{Entsog.Helpers} (indicator : string)
    (start end_ : Z) (pre post : list Z) (day : Z) (e : Py.exn)
    (raws : list Entsog.RawTable) (tables : list LongTable) :
  Entsog.date_range start end_ (Entsog.Timedelta_days 2)
  = (pre ++ day :: post)%list ->
  Forall2 (EntsogSpec.fetched indicator) pre raws ->
  Py.mapM Entsog.process (filter EntsogSpec.has_rows raws) = inr tables ->
  EntsogLog.fails_with indicator day e ->
  snd (Entsog.windowed_asset indicator start end_) = inl e.
Proof.
  intros Hdays Hf Hp Hfail. unfold Entsog.windowed_asset. rewrite Hdays.
  assert (E := fetch_all_raises indicator e day post Hfail pre raws tables
                 [(Info, HandlingPartition start end_)] [] Hf Hp).
  destruct (Entsog.fetch_all _ _ _ _) as [log r]. simpl in E. now subst r.
Qed.

Lemma sub_window_failure_aborts_witness :
  Entsog.date_range (SampleEntsog.june 1) (SampleEntsog.june 3)
                    (Entsog.Timedelta_days 2)
  = ([SampleEntsog.june 1] ++ SampleEntsog.june 3 :: [])%list
  /\ @EntsogLog.fails_with (SampleEntsog.helpers_over EntsogLog.failing_api)
       "physical_flow" (SampleEntsog.june 3) Py.HelperError
  /\ snd (@Entsog.windowed_asset
            (SampleEntsog.helpers_over EntsogLog.failing_api)
            "physical_flow" (SampleEntsog.june 1) (SampleEntsog.june 3))
     = inl Py.HelperError.
Proof.
  assert (Hd : Entsog.date_range (SampleEntsog.june 1) (SampleEntsog.june 3)
                 (Entsog.Timedelta_days 2)
               = ([SampleEntsog.june 1] ++ SampleEntsog.june 3 :: [])%list)
    by (vm_compute; reflexivity).
  assert (Hfail : @EntsogLog.fails_with
                    (SampleEntsog.helpers_over EntsogLog.failing_api)
                    "physical_flow" (SampleEntsog.june 3) Py.HelperError)
    by (left; vm_compute; reflexivity).
  split; [exact Hd|]. split; [exact Hfail|].
  apply (@sub_window_failure_aborts
           (SampleEntsog.helpers_over EntsogLog.failing_api)
           "physical_flow" _ _ _ _ _ _
           [[SampleEntsog.obs1; SampleEntsog.obs2; SampleEntsog.obs2']]
           [[SampleEntsog.long 1 (CNum (10 # 1));
             SampleEntsog.long 2 (CNum (20 # 1));
             SampleEntsog.long 2 (CNum (21 # 1))]]
           Hd).
  - constructor; [unfold EntsogSpec.fetched; vm_compute; reflexivity|].
    constructor.
  - vm_compute. reflexivity.
  - exact Hfail.
Defined.

(** X15.  A window that ends before it starts: the asset asks the API for
    nothing and returns [Output(value=None)], whatever the helpers are. *)
Theorem inverted_window_returns_none `{Entsog.Helpers} (indicator : string)
    (start end_ : Z) :
  (end_ < start)%Z ->
  Entsog.windowed_asset indicator start end_
  = ([(Info, HandlingPartition start end_)], inr (OutputValue None)).
Proof.
  intros Hlt. unfold Entsog.windowed_asset.
  rewrite date_range_empty by (reflexivity || exact Hlt). reflexivity.
Qed.

Lemma inverted_window_returns_none_witness :
  (SampleEntsog.june 1 < SampleEntsog.june 3)%Z
  /\ @Entsog.windowed_asset (SampleEntsog.helpers true true) "physical_flow"
       (SampleEntsog.june 3) (SampleEntsog.june 1)
     = ([(Info, HandlingPartition (SampleEntsog.june 3) (SampleEntsog.june 1))],
        inr (OutputValue None)).
Proof.
  assert (Hlt : (SampleEntsog.june 1 < SampleEntsog.june 3)%Z)
    by (vm_compute; reflexivity).
  split; [exact Hlt|].
  exact (@inverted_window_returns_none (SampleEntsog.helpers true true)
           "physical_flow" _ _ Hlt).
Defined.

(** X16.  Rows without a value: when some sub-window answers with rows and
    every processed table comes out empty, the asset returns a table of
    no rows, not [Output(value=None)]. *)
Theorem valueless_rows_give_empty_table `{Entsog.Helpers}
    (indicator : string) (start end_ : Z) (raws : list Entsog.RawTable)
    (tables : list LongTable) :
  Forall2 (EntsogSpec.fetched indicator)
          (Entsog.date_range start end_ (Entsog.Timedelta_days 2)) raws ->
  Py.mapM Entsog.process (filter EntsogSpec.has_rows raws) = inr tables ->
  existsb EntsogSpec.has_rows raws = true ->
  Forall (fun t => t = []) tables ->
  snd (Entsog.windowed_asset indicator start end_)
  = inr (OutputValue (Some [])).
Proof.
  intros Hf Hp Hsome Hempty.
  assert (Hne := has_rows_some raws tables Hp Hsome).
  assert (Ht := fetch_all_tables indicator _ raws tables
                  [(Info, HandlingPartition start end_)] [] Hf Hp).
  unfold Entsog.windowed_asset.
  destruct (Entsog.fetch_all _ _ _ _) as [log0 r]. simpl in Ht. subst r.
  assert (Hc : List.concat tables = []).
  { clear - Hempty. induction Hempty as [|t ts -> _ IH]; [reflexivity|].
    exact IH. }
  destruct tables as [|t ts]; [contradiction|]. cbn [snd]. now rewrite Hc.
Qed.

Lemma valueless_rows_give_empty_table_witness :
  Forall2 (@EntsogSpec.fetched EntsogLog.helpers_valueless "physical_flow")
          (Entsog.date_range (SampleEntsog.june 3) (SampleEntsog.june 3)
                             (Entsog.Timedelta_days 2))
          [[SampleEntsog.obs3]]
  /\ snd (@Entsog.windowed_asset EntsogLog.helpers_valueless "physical_flow"
            (SampleEntsog.june 3) (SampleEntsog.june 3))
     = inr (OutputValue (Some [])).
Proof.
  assert (Hf : Forall2
                 (@EntsogSpec.fetched EntsogLog.helpers_valueless
                    "physical_flow")
                 (Entsog.date_range (SampleEntsog.june 3) (SampleEntsog.june 3)
                                    (Entsog.Timedelta_days 2))
                 [[SampleEntsog.obs3]]).
  { compute_days.
    constructor; [unfold EntsogSpec.fetched; vm_compute; reflexivity|].
    constructor. }
  split; [exact Hf|].
  apply (@valueless_rows_give_empty_table EntsogLog.helpers_valueless
           "physical_flow" _ _ _ [[]] Hf).
  - vm_compute. reflexivity.
  - reflexivity.
  - repeat constructor.
Defined.

(** X17.  The records of the log that are no warnings: the opening record, then
    one "fetched" record for each sub-window whose answer has rows, in
    order, with the span of its request. *)
Theorem fetched_records_logged `{Entsog.Helpers} (indicator : string)
    (start end_ : Z) (raws : list Entsog.RawTable)
    (tables : list LongTable) :
  Forall2 (EntsogSpec.fetched indicator)
          (Entsog.date_range start end_ (Entsog.Timedelta_days 2)) raws ->
  Py.mapM Entsog.process (filter EntsogSpec.has_rows raws) = inr tables ->
  EntsogLog.infos (fst (Entsog.windowed_asset indicator start end_))
  = HandlingPartition start end_
    :: map (fun d => FetchedData d (d + Entsog.Timedelta_days 1)%Z)
           (EntsogLog.days_with_rows
              (Entsog.date_range start end_ (Entsog.Timedelta_days 2)) raws).
Proof.
  intros Hf Hp.
  assert (Hl := fetch_all_log indicator _ raws tables
                  [(Info, HandlingPartition start end_)] [] Hf Hp).
  assert (Ht := fetch_all_tables indicator _ raws tables
                  [(Info, HandlingPartition start end_)] [] Hf Hp).
  unfold Entsog.windowed_asset.
  destruct (Entsog.fetch_all _ _ _ _) as [log0 r]. cbn [fst snd] in Hl, Ht.
  subst log0 r.
  assert (Hi : EntsogLog.infos
                 ([(Info, HandlingPartition start end_)]
                  ++ map (fun d => (Info,
                                    FetchedData d (d + Entsog.Timedelta_days 1)%Z))
                         (EntsogLog.days_with_rows
                            (Entsog.date_range start end_
                               (Entsog.Timedelta_days 2)) raws))
               = HandlingPartition start end_
                 :: map (fun d => FetchedData d (d + Entsog.Timedelta_days 1)%Z)
                        (EntsogLog.days_with_rows
                           (Entsog.date_range start end_
                              (Entsog.Timedelta_days 2)) raws)).
  { rewrite infos_app. cbn [app].
    rewrite <- (map_map (fun d => FetchedData d (d + Entsog.Timedelta_days 1)%Z)
                        (fun m => (Info, m))).
    now rewrite infos_info_records. }
  change (@nil LongTable ++ tables)%list with tables.
  destruct tables as [|t ts]; cbn [fst].
  - exact Hi.
  - destruct (Entsog.is_unique _); cbn [negb fst]; [exact Hi|].
    rewrite infos_app.
    change (EntsogLog.infos [(Warning, ?m)]) with (@nil message).
    rewrite app_nil_r. exact Hi.
Qed.

Lemma fetched_records_logged_witness :
  Forall2 (@EntsogSpec.fetched (SampleEntsog.helpers true true) "physical_flow")
          (Entsog.date_range (SampleEntsog.june 1) (SampleEntsog.june 3)
                             (Entsog.Timedelta_days 2))
          SampleEntsog.answers
  /\ EntsogLog.infos
       (fst (@Entsog.windowed_asset (SampleEntsog.helpers true true)
               "physical_flow" (SampleEntsog.june 1) (SampleEntsog.june 3)))
     = [HandlingPartition (SampleEntsog.june 1) (SampleEntsog.june 3);
        FetchedData (SampleEntsog.june 1) (SampleEntsog.june 2);
        FetchedData (SampleEntsog.june 3) (SampleEntsog.june 4)].
Proof.
  split; [exact sample_answers|].
  rewrite (@fetched_records_logged (SampleEntsog.helpers true true)
             "physical_flow" _ _ SampleEntsog.answers SampleEntsog.tables
             sample_answers ltac:(vm_compute; reflexivity)).
  vm_compute. reflexivity.
Defined.

(** ** The requests of an asset *)

Section RequestFacts.
Import Py Entsog EntsogSpec.
Context `{Helpers}.


End RequestFacts.


